(** * bank-statement: field resolution, running ledger and paginated layout

    A shallow embedding of [backend/server.js]: the numeric helper
    [parseNumberSafe], the CSV upload and import handlers with their running
    balance, the page-break loop and the summary blocks of the eight bank
    templates, and the dispatch of the PDF generation handler; further the
    schema check of the table of entries, the download of the blank CSV
    templates, the account and manual entry handlers and the cells of the
    table rows; and, of the form in [App.js], the bank registry, the state
    updates and the totals.

    Conventions of the embedding.
    - A JavaScript string is a [string] whose characters are the code units
      below U+0100; case mapping and white space are those of JavaScript on
      that range.
    - A JavaScript number is an IEEE 754 binary64 value, a [spec_float] with
      53 bits of precision; sums, differences and comparisons are the
      correctly rounded ones.
    - A JavaScript object is the list of its own properties in the order
      [Object.keys] enumerates them.
    - Exceptions are values of a sum type.
    - Page coordinates are exact rationals: the rounding of coordinates is
      outside the embedding. *)

From Stdlib Require Import ZArith QArith Qminmax List Bool Ascii String SpecFloat Lia.
Import ListNotations.

Local Open Scope Z_scope.

(* ================================================================== *)
(** * Strings *)
(* ================================================================== *)

Module JsString.

Definition code (c : ascii) : Z := Z.of_nat (nat_of_ascii c).

Definition charOf (n : Z) : ascii := ascii_of_nat (Z.to_nat n).

(** White space and line terminators, the characters [trim] removes and
    [parseFloat] skips: TAB, LF, VT, FF, CR, SP and NBSP. *)
Definition isWhiteSpace (c : ascii) : bool :=
  let n := code c in
  ((9 <=? n) && (n <=? 13)) || (n =? 32) || (n =? 160).

(** The characters the regular expression atom [.] does not match. *)
Definition isLineTerminator (c : ascii) : bool :=
  let n := code c in (n =? 10) || (n =? 13).

Definition isEmpty (s : string) : bool :=
  match s with EmptyString => true | String _ _ => false end.

Fixpoint trimStart (s : string) : string :=
  match s with
  | EmptyString => EmptyString
  | String c r => if isWhiteSpace c then trimStart r else s
  end.

Fixpoint trimEnd (s : string) : string :=
  match s with
  | EmptyString => EmptyString
  | String c r =>
      let r' := trimEnd r in
      if isWhiteSpace c && isEmpty r' then EmptyString else String c r'
  end.

(** [String.prototype.trim] *)
Definition trim (s : string) : string := trimEnd (trimStart s).

(** A text of white space only. *)
Fixpoint allWhite (s : string) : bool :=
  match s with
  | EmptyString => true
  | String c r => isWhiteSpace c && allWhite r
  end.

Definition lowerChar (c : ascii) : ascii :=
  let n := code c in
  if ((65 <=? n) && (n <=? 90)) || ((192 <=? n) && (n <=? 222) && negb (n =? 215))
  then charOf (n + 32) else c.

(** Upper case of one code unit.  The three code units below U+0100 whose
    upper case is not a single code unit of that range (U+00B5, U+00DF,
    U+00FF) are kept; none of them maps to a string that starts with an
    ASCII letter other than S. *)
Definition upperChar (c : ascii) : ascii :=
  let n := code c in
  if ((97 <=? n) && (n <=? 122)) || ((224 <=? n) && (n <=? 254) && negb (n =? 247))
  then charOf (n - 32) else c.

Fixpoint mapChars (f : ascii -> ascii) (s : string) : string :=
  match s with
  | EmptyString => EmptyString
  | String c r => String (f c) (mapChars f r)
  end.

(** [String.prototype.toLowerCase] and [toUpperCase] *)
Definition toLowerCase : string -> string := mapChars lowerChar.
Definition toUpperCase : string -> string := mapChars upperChar.

(** [s.startsWith(p)] *)
Fixpoint startsWith (p s : string) : bool :=
  match p, s with
  | EmptyString, _ => true
  | String a p', String b s' => Ascii.eqb a b && startsWith p' s'
  | String _ _, EmptyString => false
  end.

(** [s.replace(/,/g, '')] *)
Fixpoint removeCommas (s : string) : string :=
  match s with
  | EmptyString => EmptyString
  | String c r => if Ascii.eqb c "," then removeCommas r else String c (removeCommas r)
  end.

(** The tail [.*\)$] of the pattern [/^\(.*\)$/]: either the closing
    parenthesis ends the input here, or [.] takes one character that is no
    line terminator and the tail is tried again. *)
Fixpoint matchDotStarClose (s : string) : bool :=
  match s with
  | EmptyString => false
  | String c r =>
      (Ascii.eqb c ")" && isEmpty r) || (negb (isLineTerminator c) && matchDotStarClose r)
  end.

(** [/^\(.*\)$/.test(s)] *)
Definition testParenthesised (s : string) : bool :=
  match s with
  | String c r => Ascii.eqb c "(" && matchDotStarClose r
  | EmptyString => false
  end.

Definition dropOpenAtStart (s : string) : string :=
  match s with
  | String c r => if Ascii.eqb c "(" then r else s
  | EmptyString => EmptyString
  end.

Fixpoint dropCloseAtEnd (s : string) : string :=
  match s with
  | EmptyString => EmptyString
  | String c r => if Ascii.eqb c ")" && isEmpty r then EmptyString else String c (dropCloseAtEnd r)
  end.

(** [s.replace(/^\(|\)$/g, '')]: the first alternative can only match at
    index 0 and the second only at the last index. *)
Definition stripParens (s : string) : string := dropCloseAtEnd (dropOpenAtStart s).

End JsString.

(* ================================================================== *)
(** * Numbers *)
(* ================================================================== *)

Module JsNumber.
Import JsString.

(** A Number is a binary64 value. *)
Definition num : Type := spec_float.

Definition prec : Z := 53.
Definition emax : Z := 1024.

Definition NaN : num := S754_nan.
Definition zero : num := S754_zero false.
Definition Infinity (negative : bool) : num := S754_infinity negative.

Definition add : num -> num -> num := SFadd prec emax.
Definition sub : num -> num -> num := SFsub prec emax.
Definition neg : num -> num := SFopp.
Definition abs : num -> num := SFabs.
(** [x < y] and [x > y]: false as soon as one side is NaN *)
Definition lt (x y : num) : bool := SFltb x y.
Definition gt (x y : num) : bool := SFltb y x.

Definition isNaN (x : num) : bool :=
  match x with S754_nan => true | _ => false end.

(** The Number nearest to the positive fraction [p / q], ties to even, with
    the given sign; a zero numerator gives the signed zero. *)
Definition ratio_to_number (negative : bool) (p q : Z) : num :=
  match p with
  | Z0 => S754_zero negative
  | _ => let '(mz, ez, lz) := SFdiv_core_binary prec emax p 0 q 0 in
         binary_round_aux prec emax negative mz ez lz
  end.

Definition ofZ (z : Z) : num := ratio_to_number (z <? 0) (Z.abs z) 1.

(** The Number for the decimal [m * 10^e10]. *)
Definition decimal_to_number (negative : bool) (m e10 : Z) : num :=
  if 0 <=? e10 then ratio_to_number negative (m * 10 ^ e10) 1
  else ratio_to_number negative m (10 ^ (- e10)).

Definition digitValue (base : Z) (c : ascii) : option Z :=
  let n := code c in
  let d := if (48 <=? n) && (n <=? 57) then n - 48
           else if (97 <=? n) && (n <=? 102) then n - 87
           else if (65 <=? n) && (n <=? 70) then n - 55
           else base in
  if d <? base then Some d else None.

(** The longest run of digits at the head of [s]: its value on top of [acc],
    the number of digits read on top of [cnt], and the rest. *)
Fixpoint scanDigits (base acc cnt : Z) (s : string) : Z * Z * string :=
  match s with
  | String c r =>
      match digitValue base c with
      | Some d => scanDigits base (base * acc + d) (cnt + 1) r
      | None => (acc, cnt, s)
      end
  | EmptyString => (acc, cnt, s)
  end.

Definition scanSign (s : string) : bool * string :=
  match s with
  | String c r =>
      if Ascii.eqb c "-" then (true, r)
      else if Ascii.eqb c "+" then (false, r)
      else (false, s)
  | EmptyString => (false, s)
  end.

(** ExponentPart, when one is there: [e] or [E], an optional sign and at
    least one digit.  Without the digits nothing is consumed. *)
Definition scanExponent (s : string) : Z * string :=
  match s with
  | String c r =>
      if Ascii.eqb c "e" || Ascii.eqb c "E" then
        let '(negative, r1) := scanSign r in
        let '(v, cnt, r2) := scanDigits 10 0 0 r1 in
        if cnt =? 0 then (0, s) else (if negative then - v else v, r2)
      else (0, s)
  | EmptyString => (0, s)
  end.

(** The longest prefix of [s] that is a StrDecimalLiteral, with its value and
    the text after it. *)
Definition scanStrDecimalLiteral (s : string) : option (num * string) :=
  let '(negative, s1) := scanSign s in
  if startsWith "Infinity" s1 then
    Some (Infinity negative, String.substring 8 (String.length s1 - 8) s1)
  else
    let '(ip, ni, s2) := scanDigits 10 0 0 s1 in
    match s2 with
    | String "."%char s3 =>
        let '(m, nf, s4) := scanDigits 10 ip 0 s3 in
        if (ni =? 0) && (nf =? 0) then None
        else let '(e, s5) := scanExponent s4 in
             Some (decimal_to_number negative m (e - nf), s5)
    | _ =>
        if ni =? 0 then None
        else let '(e, s5) := scanExponent s2 in
             Some (decimal_to_number negative ip e, s5)
    end.

(** [parseFloat(s)] for a string [s] *)
Definition parseFloat (s : string) : num :=
  match scanStrDecimalLiteral (trimStart s) with
  | Some (v, _) => v
  | None => NaN
  end.

(** NonDecimalIntegerLiteral: [0x], [0o] or [0b] and digits of that base up
    to the end of the text. *)
Definition scanNonDecimal (s : string) : option num :=
  match s with
  | String "0"%char (String c r) =>
      let base := if Ascii.eqb c "x" || Ascii.eqb c "X" then 16
                  else if Ascii.eqb c "o" || Ascii.eqb c "O" then 8
                  else if Ascii.eqb c "b" || Ascii.eqb c "B" then 2
                  else 0 in
      if base =? 0 then None
      else let '(v, cnt, rest) := scanDigits base 0 0 r in
           if (0 <? cnt) && isEmpty rest then Some (ratio_to_number false v 1) else Some NaN
  | _ => None
  end.

(** StringToNumber, the conversion behind [Number(s)] and unary [+s] *)
Definition stringToNumber (s : string) : num :=
  let t := trim s in
  if isEmpty t then zero
  else match scanNonDecimal t with
       | Some v => v
       | None =>
           match scanStrDecimalLiteral t with
           | Some (v, EmptyString) => v
           | _ => NaN
           end
       end.

(** The text [x.toFixed(2)] returns.  For a finite [x] of magnitude below
    [10^21] it is the sign, where [x < 0], and the digits of the integer [n]
    for which [n / 100] is nearest to the magnitude of [x], the larger one of
    two, with the point before the last two digits.  Otherwise it is the text
    of [String(x)]. *)
Inductive fixedText : Type :=
  | FixedDigits (negative : bool) (n : Z)
  | PlainText (x : num).

Definition toFixed2 (x : num) : fixedText :=
  match x with
  | S754_zero _ => FixedDigits false 0
  | S754_finite s m e =>
      let huge := if 0 <=? e then 10 ^ 21 <=? Z.pos m * 2 ^ e
                  else 10 ^ 21 * 2 ^ (- e) <=? Z.pos m in
      if huge then PlainText x
      else FixedDigits s
             (if 0 <=? e then Z.pos m * 2 ^ e * 100
              else (200 * Z.pos m + 2 ^ (- e)) / 2 ^ (1 - e))
  | _ => PlainText x
  end.

(** Unary plus on such a text.  [String] writes a Number so that reading the
    text gives the Number back. *)
Definition numberOfFixed (t : fixedText) : num :=
  match t with
  | FixedDigits negative n => ratio_to_number negative n 100
  | PlainText x => x
  end.

End JsNumber.

(* ================================================================== *)
(** * Objects *)
(* ================================================================== *)

Module JsObject.
Import JsString JsNumber.

(** An object: its own properties, in the order of [Object.keys]. *)
Definition jsobj (A : Type) : Type := list (string * A).

Definition keys {A} (o : jsobj A) : list string := map fst o.

(** [o[k]] for a key that no prototype provides: the own property or
    [undefined], here [None]. *)
Fixpoint lookup {A} (k : string) (o : jsobj A) : option A :=
  match o with
  | [] => None
  | (k', v) :: r => if String.eqb k' k then Some v else lookup k r
  end.

Definition hasOwn {A} (k : string) (o : jsobj A) : bool :=
  match lookup k o with Some _ => true | None => false end.

(** An array index is the canonical decimal text of an integer up to
    [2^32 - 2]; such keys are enumerated first, in ascending order. *)
Definition arrayIndex (k : string) : option Z :=
  match k with
  | EmptyString => None
  | String c r =>
      let '(v, _, rest) := scanDigits 10 0 0 k in
      if isEmpty rest && (negb (Ascii.eqb c "0") || isEmpty r) && (v <=? 4294967294)
      then Some v else None
  end.

Fixpoint replaceOwn {A} (k : string) (v : A) (o : jsobj A) : jsobj A :=
  match o with
  | [] => []
  | (k', v') :: r => if String.eqb k' k then (k', v) :: r else (k', v') :: replaceOwn k v r
  end.

Fixpoint insertIndexed {A} (n : Z) (k : string) (v : A) (o : jsobj A) : jsobj A :=
  match o with
  | [] => [(k, v)]
  | (k', v') :: r =>
      match arrayIndex k' with
      | Some n' => if n' <? n then (k', v') :: insertIndexed n k v r else (k, v) :: o
      | None => (k, v) :: o
      end
  end.

(** Creating or overwriting the own data property [k]: an existing key keeps
    its place, a new array index goes to its numeric place, any other new
    key goes last. *)
Definition defineOwn {A} (k : string) (v : A) (o : jsobj A) : jsobj A :=
  if hasOwn k o then replaceOwn k v o
  else match arrayIndex k with
       | Some n => insertIndexed n k v o
       | None => o ++ [(k, v)]
       end.

(** The assignment [o[k] = v] of a primitive [v] to an object literal: the
    key [__proto__] reaches the inherited setter, which ignores a primitive. *)
Definition assign {A} (k : string) (v : A) (o : jsobj A) : jsobj A :=
  if String.eqb k "__proto__" then o else defineOwn k v o.

(** The names [Object.prototype] provides to every object literal; each of
    them reads as a truthy value. *)
Definition objectPrototypeNames : list string :=
  [ "constructor"; "__defineGetter__"; "__defineSetter__"; "hasOwnProperty";
    "__lookupGetter__"; "__lookupSetter__"; "isPrototypeOf";
    "propertyIsEnumerable"; "toString"; "valueOf"; "__proto__";
    "toLocaleString" ]%string.

Definition inherited (k : string) : bool :=
  existsb (String.eqb k) objectPrototypeNames.

(** The scalar values of a JSON body, and [undefined] for a missing
    property. *)
Inductive jsval : Type :=
  | JUndefined
  | JNull
  | JBool (b : bool)
  | JNum (x : num)
  | JStr (s : string).

(** ToBoolean *)
Definition truthy (v : jsval) : bool :=
  match v with
  | JUndefined | JNull => false
  | JBool b => b
  | JNum (S754_zero _) | JNum S754_nan => false
  | JNum _ => true
  | JStr s => negb (isEmpty s)
  end.

(** ToNumber, behind [Number(v)] and the comparison [v > 0] *)
Definition toNumber (v : jsval) : num :=
  match v with
  | JUndefined => NaN
  | JNull => zero
  | JBool true => ofZ 1
  | JBool false => zero
  | JNum x => x
  | JStr s => stringToNumber s
  end.

(** [r.k] on a record of the request body *)
Definition prop (k : string) (o : jsobj jsval) : jsval :=
  match lookup k o with Some v => v | None => JUndefined end.

(** [a || b] *)
Definition orElse (a b : jsval) : jsval := if truthy a then a else b.

End JsObject.

(* ================================================================== *)
(** * Exceptions *)
(* ================================================================== *)

Module Exn.

Inductive exn : Type :=
  | TypeError (message : string)
  | ReferenceError (message : string).

Inductive result (A : Type) : Type :=
  | Returned (a : A)
  | Thrown (e : exn).

Arguments Returned {A} a.
Arguments Thrown {A} e.

Definition bind {A B} (m : result A) (k : A -> result B) : result B :=
  match m with
  | Returned a => k a
  | Thrown e => Thrown e
  end.

End Exn.

Notation "x <- m ;; k" := (Exn.bind m (fun x => k))
  (at level 61, m at next level, right associativity).

(* ================================================================== *)
(** * CSV handlers of server.js *)
(* ================================================================== *)

Module Server.
Import JsString JsNumber JsObject Exn.
Local Open Scope string_scope.

Definition newline : string := String (charOf 10) EmptyString.

(** [csvTemplates] *)
Definition csvTemplates : jsobj string :=
  [ ("PNB", "date,cheque_no,withdrawal,deposit,narration,balance" ++ newline);
    ("BANDHAN", "date,value_date,description,amount,dr_cr,balance" ++ newline);
    ("CENTRAL", "post_date,value_date,branch_code,cheque_number,account_description,debit,credit,balance" ++ newline);
    ("ICICI", "txn_date,value_date,description,ref_no,debit,credit,balance" ++ newline);
    ("SBI", "txn_date,value_date,description,ref_no,debit,credit,balance" ++ newline);
    ("AXIS", "txn_date,cheque_no,particulars,debit,credit,init_br,balance" ++ newline);
    ("HDFC", "date,narration,ref_no,withdrawal,deposit,balance" ++ newline);
    ("IDFC", "date,value_date,particulars,cheque_no,debit,credit,balance" ++ newline) ].

(** The test [csvTemplates[bank]] of the handlers: an own entry, all of which
    are non-empty texts, or a member inherited from [Object.prototype]. *)
Definition hasCsvTemplate (bank : string) : bool :=
  match lookup bank csvTemplates with
  | Some t => negb (isEmpty t)
  | None => inherited bank
  end.

(** What a CSV cell lookup hands to [parseNumberSafe]. *)
Inductive cell : Type :=
  | Undefined
  | Null
  | Text (s : string).

(** [parseNumberSafe(val)] *)
Definition parseNumberSafe (val : cell) : num :=
  match val with
  | Undefined | Null => zero
  | Text s =>
      let cleaned := trim (removeCommas s) in
      if isEmpty cleaned then zero
      else if testParenthesised cleaned then
        let inner := stripParens cleaned in
        let n := parseFloat inner in
        if isNaN n then zero else neg n
      else
        let n := parseFloat cleaned in
        if isNaN n then zero else n
  end.

(** A row as the CSV parser emits it: header text to cell text. *)
Definition row : Type := jsobj string.

(** The loop that fills [normalizedRow] with the trimmed keys. *)
Definition normalizeRow (r : row) : row :=
  fold_left (fun acc kv => assign (trim (fst kv)) (snd kv) acc) r [].

Definition cellOf (o : option string) : cell :=
  match o with Some s => Text s | None => Undefined end.

(** [getVal(candidates)].  The call [normalizedRow.hasOwnProperty(c)] reads
    the property [hasOwnProperty] of the row first: a column of that name
    holds a text, and calling it throws. *)
Fixpoint getVal (normalizedRow : row) (candidates : list string) : result cell :=
  match candidates with
  | [] => Returned Undefined
  | c :: rest =>
      if hasOwn "hasOwnProperty" normalizedRow then
        Thrown (TypeError "normalizedRow.hasOwnProperty is not a function")
      else if hasOwn c normalizedRow then Returned (cellOf (lookup c normalizedRow))
      else
        match find (fun k => String.eqb (toLowerCase k) (toLowerCase c)) (keys normalizedRow) with
        | Some foundKey =>
            if isEmpty foundKey then getVal normalizedRow rest
            else Returned (cellOf (lookup foundKey normalizedRow))
        | None => getVal normalizedRow rest
        end
  end.

(** [(v || '').toString().trim().toUpperCase()] *)
Definition indicatorOf (v : cell) : string :=
  toUpperCase (trim (match v with Text s => s | _ => "" end)).

Definition direct (normalizedRow : row) (debitNames creditNames : list string)
  : result (num * num) :=
  d <- getVal normalizedRow debitNames ;;
  c <- getVal normalizedRow creditNames ;;
  Returned (parseNumberSafe d, parseNumberSafe c).

(** The [switch (bank)] of the row handler: the pair [(debit, credit)]. *)
Definition extractAmounts (bank : string) (normalizedRow : row) : result (num * num) :=
  if String.eqb bank "PNB" then
    direct normalizedRow ["withdrawal"; "withdrawals"; "debit"] ["deposit"; "deposits"; "credit"]
  else if String.eqb bank "BANDHAN" then
    a <- getVal normalizedRow ["amount"; "Amount"] ;;
    let amt := parseNumberSafe a in
    i <- getVal normalizedRow ["dr_cr"; "dr/cr"; "dr cr"; "cr_dr"; "type"] ;;
    let drcr := indicatorOf i in
    if startsWith "D" drcr then Returned (amt, zero)
    else if startsWith "C" drcr then Returned (zero, amt)
    else if lt amt zero then Returned (abs amt, zero)
    else Returned (zero, amt)
  else if String.eqb bank "CENTRAL" || String.eqb bank "ICICI" || String.eqb bank "SBI"
          || String.eqb bank "IDFC" || String.eqb bank "AXIS" then
    direct normalizedRow ["debit"; "withdrawals"; "withdrawal"] ["credit"; "deposit"; "deposits"]
  else if String.eqb bank "HDFC" then
    direct normalizedRow ["withdrawal"; "withdrawals"; "debit"] ["deposit"; "deposits"; "credit"]
  else
    direct normalizedRow ["debit"; "withdrawal"; "withdrawals"] ["credit"; "deposit"; "deposits"].

(** [+(runningBalance + credit - debit).toFixed(2)] *)
Definition nextBalance (runningBalance debit credit : num) : num :=
  numberOfFixed (toFixed2 (sub (add runningBalance credit) debit)).

Record uploadState : Type := {
  runningBalance : num;
  results : list (jsobj jsval)
}.

(** [outRow] *)
Definition makeOutRow (normalizedRow : row) (debit credit balance : num) : jsobj jsval :=
  let spread := map (fun kv => (fst kv, JStr (snd kv))) normalizedRow in
  assign "balance" (JNum balance)
    (assign "_parsed_credit" (JNum credit)
       (assign "_parsed_debit" (JNum debit)
          (defineOwn "balance" (JNum balance) spread))).

(** The ['data'] callback: the body of the [try], and the [catch] that logs
    and goes on with the state as it was. *)
Definition onData (bank : string) (st : uploadState) (r : row) : uploadState :=
  let normalizedRow := normalizeRow r in
  match extractAmounts bank normalizedRow with
  | Returned (debit, credit) =>
      let balance := nextBalance (runningBalance st) debit credit in
      {| runningBalance := balance;
         results := results st ++ [makeOutRow normalizedRow debit credit balance] |}
  | Thrown _ => st
  end.

Definition initialUpload : uploadState := {| runningBalance := zero; results := [] |}.

(** The rows the ['data'] callback has collected once it was called on
    each of [rows], in order. *)
Definition uploadData (bank : string) (rows : list row) : list (jsobj jsval) :=
  results (fold_left (onData bank) rows initialUpload).

(** The answer of the upload handler: a refusal with its status 400, the
    rows with their balances, or the exception that leaves the handler. *)
Inductive uploadResponse : Type :=
  | UploadBadRequest (error : string)
  | UploadOk (bank : string) (data : list (jsobj jsval))
  | UploadThrown (e : exn).

(** The identifier [csvParser] of the upload handler.  The file declares no
    such name - it binds the module [csv-parser] to [csv], which the import
    handler calls - so evaluating it throws. *)
Definition csvParser : result unit :=
  Thrown (ReferenceError "csvParser is not defined").

(** [POST /api/upload-statement/:bank].  [file] is the uploaded file as the
    sequence of rows a CSV parser emits for it, in file order.  The handler
    evaluates [csvParser()] to build the stream, after its two checks and
    before any row is read: the ['data'] and ['end'] callbacks are those of
    a stream that was built. *)
Definition uploadStatement (bank : string) (file : option (list row)) : uploadResponse :=
  match file with
  | None => UploadBadRequest "No file uploaded"
  | Some rows =>
      if negb (hasCsvTemplate bank) then UploadBadRequest "Unsupported bank"
      else match csvParser with
           | Returned _ => UploadOk bank (uploadData bank rows)
           | Thrown e => UploadThrown e
           end
  end.

(** The balances of the emitted rows, in order, and their parsed debits
    and credits. *)
Definition balancesOf (data : list (jsobj jsval)) : list jsval :=
  map (prop "balance") data.

Definition parsedOf (data : list (jsobj jsval)) : list (jsval * jsval) :=
  map (fun o => (prop "_parsed_debit" o, prop "_parsed_credit" o)) data.

(** ** CSV import *)

(** The arguments of one [stmt.run]; [None] is [null]. *)
Record insertArgs : Type := {
  ins_date : string;
  ins_value_date : option string;
  ins_description : string;
  ins_debit : option num;
  ins_credit : option num;
  ins_balance : num;
  ins_cheque_no : option string;
  ins_narration : option string
}.

(** [r.k] as a condition or as the left side of [||]: a non-empty text. *)
Definition field (k : string) (r : row) : option string :=
  match lookup k r with
  | Some s => if isEmpty s then None else Some s
  | None => None
  end.

Definition orText (a : option string) (b : string) : string :=
  match a with Some s => s | None => b end.

Definition orField (a b : option string) : option string :=
  match a with Some s => Some s | None => b end.

(** [x || null] for a Number *)
Definition orNull (x : num) : option num :=
  if truthy (JNum x) then Some x else None.

(** [r.k ? parseFloat(r.k) : 0] *)
Definition amountOf (k : string) (r : row) : num :=
  match field k r with Some s => parseFloat s | None => zero end.

(** One turn of [results.forEach]: the row inserted and the new
    [lastBalance]. *)
Definition importRow (lastBalance : num) (r : row) : insertArgs * num :=
  let debit := amountOf "debit" r in
  let credit := amountOf "credit" r in
  let newBalance := add (sub lastBalance debit) credit in
  ({| ins_date := orText (field "date" r) "";
      ins_value_date := orField (field "value_date" r) (field "date" r);
      ins_description := orText (orField (field "description" r) (field "narration" r)) "";
      ins_debit := orNull debit;
      ins_credit := orNull credit;
      ins_balance := newBalance;
      ins_cheque_no := field "cheque_no" r;
      ins_narration := field "narration" r |},
   newBalance).

Fixpoint importRows (lastBalance : num) (rows : list row) : list insertArgs :=
  match rows with
  | [] => []
  | r :: rest =>
      let '(ins, newBalance) := importRow lastBalance r in
      ins :: importRows newBalance rest
  end.

Inductive importResponse : Type :=
  | ImportBadRequest (error : string)
  | ImportOk (count : nat) (transactions : list row).

(** [POST /api/import-csv]: the rows inserted into [entries] and the
    response. *)
Definition importCsv (file : option (list row)) : list insertArgs * importResponse :=
  match file with
  | None => ([], ImportBadRequest "No file uploaded")
  | Some rows => (importRows zero rows, ImportOk (List.length rows) rows)
  end.

End Server.

(* ================================================================== *)
(** * Bank templates and PDF generation *)
(* ================================================================== *)

Module Layout.
Import JsString JsNumber JsObject Exn.
Local Open Scope Q_scope.

(** A transaction of a generation request is a flat record of scalars; the
    account block holds texts, as the form sends them. *)
Definition entry : Type := jsobj jsval.
Definition accountProfile : Type := jsobj string.

(** [account.k] *)
Definition attr (k : string) (a : accountProfile) : jsval :=
  match lookup k a with Some s => JStr s | None => JUndefined end.

(** The text handed to the drawing surface: a value written out by
    [String], the text of a [toFixed(2)], or a template literal. *)
Inductive text : Type :=
  | TVal (v : jsval)
  | TFixed (t : fixedText)
  | TCat (a b : text).

Definition lit (s : string) : text := TVal (JStr s).

(** The four figures of a summary block; [None] where a template shows no
    such figure. *)
Record totals : Type := {
  openingBalance : option text;
  totalDebit : option text;
  totalCredit : option text;
  closingBalance : option text
}.

(** The layout decisions sent to the drawing surface, in order: page
    advances, table headers and continuation titles, one rectangle per table
    row, the totals of the summary block and the texts of the fallback
    document.  Logos, labels, rules, the watermark and what a template draws
    after its totals are not represented. *)
Inductive instr : Type :=
  | AddPage
  | Title (y : Q) (t : text)
  | TableHeader (y : Q)
  | BodyRow (index : nat) (y height : Q)
  | Totals (t : totals)
  | PlaceText (t : text).

(** What one template fixes for its table: the height of the row of an
    entry, the lowest position a row may reach on a page, what is drawn
    after [addPage()], and where the next row starts then. *)
Record pagination : Type := {
  rowHeight : nat -> entry -> Q;
  bottomLimit : Q;
  continuation : list instr;
  continuationY : Q
}.

(** [a > b], on exact coordinates.  The handler compares binary64 values: a
    sum that lies within the rounding of one addition of [b] may fall on the
    other side there. *)
Definition exceeds (a b : Q) : bool := negb (Qle_bool a b).

(** [entries.forEach] over the table rows, from the entry of position
    [index] on: the instructions and the final [tableY].  The positions are
    exact sums, where the handler rounds [tableY] at every addition. *)
Fixpoint tableRows (p : pagination) (index : nat) (tableY : Q) (entries : list entry)
  : list instr * Q :=
  match entries with
  | [] => ([], tableY)
  | r :: rest =>
      let h := rowHeight p index r in
      let breaks := exceeds (tableY + h) (bottomLimit p) in
      let y := if breaks then continuationY p else tableY in
      let '(more, endY) := tableRows p (S index) (y + h) rest in
      ((if breaks then AddPage :: continuation p else []) ++ BodyRow index y h :: more, endY)
  end.

(** [v != null] *)
Definition notNullish (v : jsval) : bool :=
  match v with JUndefined | JNull => false | _ => true end.

(** [v && Number(v) > 0] *)
Definition positive (v : jsval) : bool := truthy v && gt (toNumber v) zero.

Definition fixed2 (v : jsval) : text := TFixed (toFixed2 (toNumber v)).

(** The loops of the summary blocks: the values of a field added up, entry
    after entry, where the value passes the test of the loop; and the balance
    of the first or last entry, zero without one. *)
Definition sumWhere (test : jsval -> bool) (k : string) (entries : list entry) : num :=
  fold_left (fun acc e => if test (prop k e) then add acc (toNumber (prop k e)) else acc)
            entries zero.

Definition balanceAt (e : option entry) : num :=
  match e with
  | Some r => if truthy (prop "balance" r) then toNumber (prop "balance" r) else zero
  | None => zero
  end.

Section Templates.

(** [doc.page.height] *)
Variable pageHeight : Q.
(** [doc.y] where a template places its table at the text cursor *)
Variable docY : Q.
(** [doc.heightOfString(text, { width })] while the entry of the given
    position is laid out *)
Variable heightOfString : nat -> text -> Q -> Q.

(** [new PDFDocument({ margin: 40, size: "A4" })] *)
Definition marginBottom : Q := 40.

Definition truthyCount (a : accountProfile) (names : list string) : Q :=
  inject_Z (Z.of_nat (List.length (filter (fun k => truthy (attr k a)) names))).

(** ** PNB *)

Definition PNB_top (a : accountProfile) : Q :=
  80 + 75 + 15 + 14 + 14 + (if truthy (attr "branch_address2" a) then 14 else 0)
  + 14 + 14 + 14 + 25 + 15 + 14 + 14 + 14 + 14 + 14 + 14 + 14 + 25 + 30.

Definition PNB_title (a : accountProfile) : text :=
  TCat (lit "Account Statement For Account:") (TVal (orElse (attr "account_no" a) (JStr "-"))).

Definition PNB_pagination (a : accountProfile) : pagination :=
  {| rowHeight := fun index r =>
       let narrationText := orElse (prop "narration" r) (orElse (prop "description" r) (JStr "-")) in
       let narrationHeight := heightOfString index (TVal narrationText) (175 - 8) in
       Qmax (narrationHeight + 8) 22;
     bottomLimit := pageHeight - 80;
     continuation := [Title 40 (PNB_title a)];
     continuationY := 40 + 40 |}.

Definition PNB (a : accountProfile) (entries : list entry) : list instr :=
  let y := PNB_top a in
  TableHeader y :: fst (tableRows (PNB_pagination a) 0 (y + 26) entries).

(** ** BANDHAN *)

Definition BANDHAN_top : Q := 320 + 25 + (9 * 26 + 30) + 25.

Definition BANDHAN_pagination : pagination :=
  {| rowHeight := fun index r =>
       let descText := orElse (prop "description" r) (orElse (prop "particulars" r) (JStr "-")) in
       let descHeight := heightOfString index (TVal descText) (130 - 10) in
       Qmax (descHeight + 10) 28;
     bottomLimit := pageHeight - 120;
     continuation := [TableHeader 100];
     continuationY := 100 + 24 |}.

Definition inr (x : num) : text := TCat (lit "INR ") (TFixed (toFixed2 x)).

Definition BANDHAN_totals (entries : list entry) : totals :=
  {| openingBalance := Some (inr (balanceAt (hd_error entries)));
     totalCredit := Some (inr (sumWhere positive "credit" entries));
     totalDebit := Some (inr (sumWhere positive "debit" entries));
     closingBalance := Some (inr (balanceAt (hd_error (rev entries)))) |}.

Definition BANDHAN (a : accountProfile) (entries : list entry) : list instr :=
  let y := BANDHAN_top in
  TableHeader y :: fst (tableRows BANDHAN_pagination 0 (y + 24) entries)
  ++ [Totals (BANDHAN_totals entries)].

(** ** CENTRAL *)

Definition CENTRAL_top (a : accountProfile) : Q :=
  200 + 14
  + 12 * truthyCount a ["address"; "address2"; "city"; "pin"]%string
  + 6 + 12
  + 12 * truthyCount a ["email"]%string
  + 12 + 12
  + 12 * truthyCount a ["drawing_power"]%string
  + 25.

Definition CENTRAL_pagination : pagination :=
  {| rowHeight := fun index r =>
       let descText := orElse (prop "description" r) (orElse (prop "account_description" r) (JStr "-")) in
       let descHeight := heightOfString index (TVal descText) (100 - 6) in
       Qmax (descHeight + 10) 24;
     bottomLimit := pageHeight - 80;
     continuation := [TableHeader 100];
     continuationY := 100 + 30 |}.

Definition CENTRAL (a : accountProfile) (entries : list entry) : list instr :=
  let y := CENTRAL_top a in
  TableHeader y :: fst (tableRows CENTRAL_pagination 0 (y + 30) entries).

(** ** ICICI *)

Definition orDash (v : jsval) : text := TVal (orElse v (JStr "-")).

Definition ICICI_amount (v : jsval) : text :=
  if notNullish v && negb (isNaN (toNumber v)) then fixed2 v else lit "-".

Definition ICICI_cols (r : entry) : list text :=
  [ orDash (prop "txn_date" r); orDash (prop "value_date" r);
    orDash (prop "description" r); orDash (prop "ref_no" r);
    ICICI_amount (prop "debit" r); ICICI_amount (prop "credit" r);
    ICICI_amount (prop "balance" r) ].

Definition ICICI_colWidths : list Q := [65; 65; 120; 90; 60; 60; 60].

Definition ICICI_pagination : pagination :=
  {| rowHeight := fun index r =>
       fold_left (fun rowHeight cw => Qmax rowHeight (heightOfString index (fst cw) (snd cw - 6) + 6))
                 (combine (ICICI_cols r) ICICI_colWidths) 0;
     bottomLimit := pageHeight - marginBottom - 60;
     continuation := [TableHeader 40];
     continuationY := 40 + 20 |}.

(** The totals both ICICI and AXIS show: the figures of the account, or,
    as soon as one of the two is missing, the sums over the entries. *)
Definition accountOrSums (debitName creditName : string) (a : accountProfile) (entries : list entry)
  : text * text :=
  if negb (truthy (attr debitName a)) || negb (truthy (attr creditName a)) then
    (TFixed (toFixed2 (sumWhere truthy "debit" entries)),
     TFixed (toFixed2 (sumWhere truthy "credit" entries)))
  else (TVal (attr debitName a), TVal (attr creditName a)).

Definition ICICI_totals (a : accountProfile) (entries : list entry) : totals :=
  let sums := accountOrSums "total_withdrawls" "total_deposits" a entries in
  {| openingBalance := Some (TVal (orElse (attr "opening_balance" a) (JStr "0.00")));
     totalDebit := Some (fst sums);
     totalCredit := Some (snd sums);
     closingBalance := Some (TVal (orElse (attr "closing_balance" a) (JStr "0.00"))) |}.

Definition ICICI (a : accountProfile) (entries : list entry) : list instr :=
  let y := docY + 10 in
  let '(rows, yPos) := tableRows ICICI_pagination 0 (y + 20) entries in
  TableHeader y :: rows
  ++ (if exceeds (yPos + 20) (pageHeight - 250) then [AddPage] else [])
  ++ [Totals (ICICI_totals a entries)].

(** ** SBI *)

Definition SBI_amount (v : jsval) : text :=
  if notNullish v && negb (isNaN (toNumber v)) && gt (toNumber v) zero then fixed2 v else lit "".

Definition SBI_cols (r : entry) : list text :=
  [ orDash (prop "txn_date" r); orDash (prop "value_date" r);
    orDash (prop "description" r); orDash (prop "ref_no" r);
    SBI_amount (prop "debit" r); SBI_amount (prop "credit" r);
    ICICI_amount (prop "balance" r) ].

Definition SBI_colWidths : list Q := [50; 50; 120; 100; 70; 70; 70].

Definition SBI_pagination : pagination :=
  {| rowHeight := fun index r =>
       let rowHeight :=
         fold_left (fun rowHeight cw => Qmax rowHeight (heightOfString index (fst cw) (snd cw - 8) + 10))
                   (combine (SBI_cols r) SBI_colWidths) 0 in
       Qmax rowHeight 28;
     bottomLimit := pageHeight - 80;
     continuation := [TableHeader 50];
     continuationY := 50 + 30 |}.

(** The opening balance SBI writes above its table; it shows no other
    figure. *)
Definition SBI_totals (a : accountProfile) : totals :=
  let openingBal :=
    if negb (isNaN (toNumber (attr "opening_balance" a)))
    then fixed2 (attr "opening_balance" a) else lit "-" in
  {| openingBalance := Some openingBal;
     totalDebit := None; totalCredit := None; closingBalance := None |}.

Definition SBI (a : accountProfile) (entries : list entry) : list instr :=
  let y := docY in
  Totals (SBI_totals a) :: TableHeader y
  :: fst (tableRows SBI_pagination 0 (y + 30) entries).

(** ** AXIS *)

Definition AXIS_pagination : pagination :=
  {| rowHeight := fun index r =>
       let particularText := orElse (prop "particulars" r) (orElse (prop "description" r) (JStr "-")) in
       let descHeight := heightOfString index (TVal particularText) (145 - 6) in
       Qmax (descHeight + 8) 18;
     bottomLimit := pageHeight - 100;
     continuation := [TableHeader 60];
     continuationY := 60 + 24 |}.

(** The opening balance row, drawn above the first entry. *)
Definition AXIS_opening (a : accountProfile) : totals :=
  {| openingBalance := Some (TVal (orElse (attr "opening_balance" a) (JStr "200.30")));
     totalDebit := None; totalCredit := None; closingBalance := None |}.

(** The transaction total and closing balance rows, drawn below the last
    entry. *)
Definition AXIS_totals (a : accountProfile) (entries : list entry) : totals :=
  let sums := accountOrSums "total_debit" "total_credit" a entries in
  {| openingBalance := None;
     totalDebit := Some (fst sums);
     totalCredit := Some (snd sums);
     closingBalance := Some (TVal (orElse (attr "closing_balance" a) (JStr "3843.00"))) |}.

(** The stream ends with the closing balance row: the disclaimers and the
    legends below it, each with a test of the page height and an
    [addPage()] of its own, are not represented. *)
Definition AXIS (a : accountProfile) (entries : list entry) : list instr :=
  let y := 175 + 25 in
  TableHeader y :: Totals (AXIS_opening a)
  :: fst (tableRows AXIS_pagination 0 (y + 24 + 20) entries)
  ++ [Totals (AXIS_totals a entries)].

(** ** HDFC *)

Definition HDFC_top : Q := 80 + 165 + 12 + 35.

Definition HDFC_pagination : pagination :=
  {| rowHeight := fun index r =>
       let narrationText := orElse (prop "narration" r) (orElse (prop "description" r) (JStr "-")) in
       let narrationHeight := heightOfString index (TVal narrationText) (180 - 6) in
       Qmax (narrationHeight + 8) 22;
     bottomLimit := pageHeight - 250;
     continuation := [TableHeader 80];
     continuationY := 80 + 20 |}.

(** [totalCredit] of the HDFC summary: the positive credits and the positive
    deposits, entry after entry. *)
Definition HDFC_credits (entries : list entry) : num :=
  fold_left (fun acc e =>
               let acc1 := if positive (prop "credit" e)
                           then add acc (toNumber (prop "credit" e)) else acc in
               if positive (prop "deposit" e)
               then add acc1 (toNumber (prop "deposit" e)) else acc1)
            entries zero.

Definition HDFC_totals (a : accountProfile) (entries : list entry) : totals :=
  let lastBalance := match hd_error (rev entries) with
                     | Some r => prop "balance" r
                     | None => JUndefined
                     end in
  {| openingBalance := Some (TVal (orElse (attr "opening_balance" a) (JStr "2323.00")));
     totalDebit := None;
     totalCredit := Some (TFixed (toFixed2 (HDFC_credits entries)));
     closingBalance :=
       Some (TVal (orElse (attr "closing_balance" a) (orElse lastBalance (JStr "0.00")))) |}.

Definition HDFC (a : accountProfile) (entries : list entry) : list instr :=
  let y := HDFC_top in
  TableHeader y :: fst (tableRows HDFC_pagination 0 (y + 20) entries)
  ++ [Totals (HDFC_totals a entries)].

(** ** IDFC *)

Definition IDFC_top (a : accountProfile) : Q :=
  let y := 50 + 12 + 12 + 30 + 14
           + (if truthy (attr "father_name" a) then 12 else 0) + 12 + 12 + 12 in
  let rightY := 120 + 12 + 12 + 12 in
  Qmax y rightY + 30 + 22 + 40.

Definition IDFC_pagination : pagination :=
  {| rowHeight := fun index r =>
       let particularText :=
         orElse (prop "particulars" r)
                (orElse (prop "narration" r) (orElse (prop "description" r) (JStr "-"))) in
       let particularHeight := heightOfString index (TVal particularText) (175 - 6) in
       Qmax (particularHeight + 8) 22;
     bottomLimit := pageHeight - 80;
     continuation := [];
     continuationY := 40 |}.

Definition IDFC_totals (a : accountProfile) : totals :=
  {| openingBalance := Some (TVal (orElse (attr "opening_balance" a) (JStr "0.00")));
     totalDebit := Some (TVal (orElse (attr "total_debit" a) (JStr "0.00")));
     totalCredit := Some (TVal (orElse (attr "total_credit" a) (JStr "0.00")));
     closingBalance := Some (TVal (orElse (attr "closing_balance" a) (JStr "0.00"))) |}.

Definition IDFC (a : accountProfile) (entries : list entry) : list instr :=
  let y := IDFC_top a in
  Totals (IDFC_totals a) :: TableHeader y
  :: fst (tableRows IDFC_pagination 0 (y + 24) entries).

(** ** The registry and the generation handler *)

Inductive bankId : Type :=
  | B_PNB | B_BANDHAN | B_CENTRAL | B_ICICI | B_SBI | B_AXIS | B_HDFC | B_IDFC.

(** The own keys of [bankTemplates] *)
Definition bankTemplates : jsobj bankId :=
  [ ("PNB", B_PNB); ("BANDHAN", B_BANDHAN); ("CENTRAL", B_CENTRAL);
    ("ICICI", B_ICICI); ("SBI", B_SBI); ("AXIS", B_AXIS); ("HDFC", B_HDFC);
    ("IDFC", B_IDFC) ]%string.

Definition paginationOf (b : bankId) (a : accountProfile) : pagination :=
  match b with
  | B_PNB => PNB_pagination a
  | B_BANDHAN => BANDHAN_pagination
  | B_CENTRAL => CENTRAL_pagination
  | B_ICICI => ICICI_pagination
  | B_SBI => SBI_pagination
  | B_AXIS => AXIS_pagination
  | B_HDFC => HDFC_pagination
  | B_IDFC => IDFC_pagination
  end.

Definition template (b : bankId) (a : accountProfile) (entries : list entry) : list instr :=
  match b with
  | B_PNB => PNB a entries
  | B_BANDHAN => BANDHAN a entries
  | B_CENTRAL => CENTRAL a entries
  | B_ICICI => ICICI a entries
  | B_SBI => SBI a entries
  | B_AXIS => AXIS a entries
  | B_HDFC => HDFC a entries
  | B_IDFC => IDFC a entries
  end.

(** The [account] of a request body: missing, [null] or a record. *)
Inductive accountArg : Type :=
  | AccountMissing
  | AccountNull
  | AccountRecord (a : accountProfile).

Record request : Type := {
  bank : option string;
  account : accountArg;
  transactions : option (list entry)
}.

(** The outcome of [POST /api/generate-pdf]: the document written to the
    response, or the exception that leaves the handler; what a template drew
    before it threw is not represented. *)
Definition response : Type := result (list instr).

(** The characters a header value may hold: TAB and the code units from
    U+0020 on, U+007F apart.  (A code unit above U+00FF, which a [string]
    does not hold, is refused like a control character.) *)
Definition isHeaderChar (c : ascii) : bool :=
  let n := code c in
  (n =? 9)%Z || ((32 <=? n)%Z && negb (n =? 127)%Z).

(** The test [res.setHeader] makes on a value: whether a character of it is
    none of these. *)
Fixpoint checkInvalidHeaderChar (value : string) : bool :=
  match value with
  | EmptyString => false
  | String c r => negb (isHeaderChar c) || checkInvalidHeaderChar r
  end.

(** The value of the header [Content-disposition] *)
Definition contentDisposition (bank : string) : string :=
  ("attachment; filename=" ++ bank ++ "-statement.pdf")%string.

Definition invalidHeader : exn :=
  TypeError ("Invalid character in header content [" ++ String (charOf 34) "Content-disposition"
             ++ String (charOf 34) "]")%string.

(** The property of the account a template reads first. *)
Definition firstAccountRead (b : bankId) : string :=
  match b with
  | B_PNB => "account_no"
  | B_BANDHAN => "name"
  | B_CENTRAL => "branch_name"
  | B_ICICI => "name"
  | B_SBI => "name"
  | B_AXIS => "name"
  | B_HDFC => "name"
  | B_IDFC => "customer_id"
  end%string.

(** The [else] branch of the handler. *)
Definition sampleDocument (a : option accountProfile) : list instr :=
  PlaceText (lit "Bank Statement (Sample)")
  :: match a with
     | Some a =>
         [ PlaceText (TCat (lit "Name: ") (TVal (orElse (attr "name" a) (JStr ""))));
           PlaceText (TCat (lit "Account No.: ") (TVal (orElse (attr "account_no" a) (JStr "")))) ]
     | None => []
     end.

(** A member of [Object.prototype] called as a template: the two definers
    reject the account, which is no function, [__proto__] is no function,
    and the others return without drawing. *)
Definition inheritedCall (name : string) : response :=
  if String.eqb name "__proto__" then
    Thrown (TypeError "bankTemplates[bank] is not a function")
  else if String.eqb name "__defineGetter__" then
    Thrown (TypeError "Object.prototype.__defineGetter__: Expecting function")
  else if String.eqb name "__defineSetter__" then
    Thrown (TypeError "Object.prototype.__defineSetter__: Expecting function")
  else Returned [].

(** The destructuring defaults [bank = "PNB"], [account = {}] and
    [transactions = []]; [None] is a [null] account. *)
Definition bankOrDefault (req : request) : string :=
  match bank req with Some b => b | None => "PNB"%string end.

Definition accountOrDefault (req : request) : option accountProfile :=
  match account req with
  | AccountMissing => Some []
  | AccountNull => None
  | AccountRecord a => Some a
  end.

Definition transactionsOrDefault (req : request) : list entry :=
  match transactions req with Some t => t | None => [] end.

(** [POST /api/generate-pdf].  The handler sets the header
    [Content-disposition], whose value holds the identifier, before it looks
    the identifier up; [res.setHeader] throws on a value with an invalid
    character. *)
Definition generatePdf (req : request) : response :=
  let bank := bankOrDefault req in
  let account := accountOrDefault req in
  let transactions := transactionsOrDefault req in
  if checkInvalidHeaderChar (contentDisposition bank) then Thrown invalidHeader
  else
    match lookup bank bankTemplates with
    | Some b =>
        match account with
        | Some a => Returned (template b a transactions)
        | None =>
            Thrown (TypeError ("Cannot read properties of null (reading '"
                               ++ firstAccountRead b ++ "')")%string)
        end
    | None =>
        if inherited bank then inheritedCall bank
        else Returned (sampleDocument account)
    end.

End Templates.

End Layout.

(* ================================================================== *)
(** * The ledger and the field resolver of the specification *)
(* ================================================================== *)

(** Definitions that follow the words of the specification; the theorems
    below compare the handlers with them. *)
Module Spec.
Import JsString JsNumber JsObject Exn Server.

(** ** Numeric Normalizer *)

(** The last character of a text and what stands before it. *)
Fixpoint splitLast (s : string) : option (string * ascii) :=
  match s with
  | EmptyString => None
  | String c r =>
      match splitLast r with
      | None => Some (EmptyString, c)
      | Some (front, l) => Some (String c front, l)
      end
  end.

Fixpoint oneLine (s : string) : bool :=
  match s with
  | EmptyString => true
  | String c r => negb (isLineTerminator c) && oneLine r
  end.

(** The interior of a value fully wrapped in parentheses, on one line. *)
Definition wrappedInterior (t : string) : option string :=
  match t with
  | String c r =>
      if Ascii.eqb c "(" then
        match splitLast r with
        | Some (inner, l) => if Ascii.eqb l ")" && oneLine inner then Some inner else None
        | None => None
        end
      else None
  | EmptyString => None
  end.

(** A decimal digit *)
Definition isDigit (c : ascii) : bool := (48 <=? code c) && (code c <=? 57).

Fixpoint allDigits (s : string) : bool :=
  match s with
  | EmptyString => true
  | String c r => isDigit c && allDigits r
  end.

(** The value of a run of digits read after the value [acc]. *)
Fixpoint digitsValue (acc : Z) (s : string) : Z :=
  match s with
  | EmptyString => acc
  | String c r => digitsValue (10 * acc + (code c - 48)) r
  end.

(** The text before the first point, and the text after it where there is
    one. *)
Fixpoint splitPoint (s : string) : string * option string :=
  match s with
  | EmptyString => (EmptyString, None)
  | String c r =>
      if Ascii.eqb c "." then (EmptyString, Some r)
      else let '(whole, fraction) := splitPoint r in (String c whole, fraction)
  end.

(** A leading sign, taken off. *)
Definition unsigned (s : string) : bool * string :=
  match s with
  | String "-"%char r => (true, r)
  | String "+"%char r => (false, r)
  | _ => (false, s)
  end.

(** The value of a decimal number: an optional sign, then digits with at
    most one point among them, and one digit at least.  The value is exact;
    any other text is no decimal number. *)
Definition decimalValue (s : string) : option Q :=
  let '(negative, body) := unsigned s in
  let '(whole, point) := splitPoint body in
  let fraction := match point with Some f => f | None => EmptyString end in
  if allDigits whole && allDigits fraction && negb (isEmpty whole && isEmpty fraction) then
    let m := digitsValue 0 (whole ++ fraction)%string in
    Some (Qmake (if negative then - m else m)
                (Z.to_pos (10 ^ Z.of_nat (String.length fraction))))
  else None.

(** The Number nearest to an exact value. *)
Definition numberOfQ (q : Q) : num :=
  ratio_to_number (Qnum q <? 0) (Z.abs (Qnum q)) (Zpos (Qden q)).

(** [parseAmount]: rules (a) to (e), in order.  What is no decimal number
    fails to parse. *)
Definition parseAmount (raw : cell) : num :=
  match raw with
  | Undefined | Null => zero
  | Text s =>
      if isEmpty (trim s) then zero
      else
        let t := trim (removeCommas s) in
        match wrappedInterior t with
        | Some inner =>
            match decimalValue inner with
            | Some q => numberOfQ (Qopp q)
            | None => zero
            end
        | None =>
            match decimalValue t with
            | Some q => numberOfQ q
            | None => zero
            end
        end
  end.

(** Whether a text starts the way a number does: after white space and an
    optional sign comes a digit, a point before a digit, or [Infinity]. *)
Definition startsNumber (s : string) : bool :=
  let '(_, body) := unsigned (trimStart s) in
  match body with
  | String c r =>
      isDigit c
      || (Ascii.eqb c "." && match r with String d _ => isDigit d | EmptyString => false end)
      || startsWith "Infinity" body
  | EmptyString => false
  end.

(** The part of a cleaned text that is parsed: the interior of a wrapped
    value, or the text itself. *)
Definition parsedPart (t : string) : string :=
  match wrappedInterior t with Some inner => inner | None => t end.

(** A text that is a decimal number, or does not even start like a
    number. *)
Definition decimalOrNoNumber (t : string) : bool :=
  match decimalValue t with
  | Some _ => true
  | None => negb (startsNumber t)
  end.

(** [isNaN(n) ? 0 : n] *)
Definition orZero (n : num) : num := if isNaN n then zero else n.

(** The rules as [parseNumberSafe] applies them: [parseFloat] reads the
    longest prefix that is a number and ignores what follows it. *)
Definition parseByRules (raw : cell) : num :=
  match raw with
  | Undefined | Null => zero
  | Text s =>
      if isEmpty (trim s) then zero
      else
        let t := trim (removeCommas s) in
        match wrappedInterior t with
        | Some inner => orZero (neg (parseFloat inner))
        | None => orZero (parseFloat t)
        end
  end.

(** ** Ledger Calculator *)

(** The running balances of a sequence of [(debit, credit)] pairs from the
    balance [B], every step made by [step]. *)
Fixpoint runningBalances (step : num -> num -> num -> num) (B : num)
         (entries : list (num * num)) : list num :=
  match entries with
  | [] => []
  | (debit, credit) :: rest =>
      let b := step B debit credit in
      b :: runningBalances step b rest
  end.

(** Rounding to two decimals. *)
Definition round2 (x : num) : num := numberOfFixed (toFixed2 x).

(** [previousBalance + credit - debit], rounded *)
Definition roundedStep (B debit credit : num) : num := round2 (sub (add B credit) debit).

(** [previousBalance - debit + credit] *)
Definition plainStep (B debit credit : num) : num := add (sub B debit) credit.

(** The [(debit, credit)] pairs of the rows the handler resolves, in file
    order. *)
Definition resolveRows (bank : string) (rows : list row) : list (num * num) :=
  flat_map (fun r => match extractAmounts bank (normalizeRow r) with
                     | Returned amounts => [amounts]
                     | Thrown _ => []
                     end) rows.

(** A row whose processing does not throw. *)
Definition processed (bank : string) (r : row) : bool :=
  match extractAmounts bank (normalizeRow r) with
  | Returned _ => true
  | Thrown _ => false
  end.

(** The emitted row carries the cells of the input row. *)
Definition carries (r : row) (o : jsobj jsval) : Prop :=
  forall k s : string,
    k <> "balance"%string -> k <> "_parsed_debit"%string -> k <> "_parsed_credit"%string ->
    lookup k (normalizeRow r) = Some s -> prop k o = JStr s.

(** Equal as Numbers, the two zeros taken for one. *)
Definition sameNumber (x y : num) : Prop :=
  x = y \/ exists s s', x = S754_zero s /\ y = S754_zero s'.

(** ** Field Resolver *)

(** The first key of the row that is the candidate, then the first key that
    is the candidate when case is ignored. *)
Definition matchCandidate (r : row) (c : string) : option string :=
  match find (String.eqb c) (keys r) with
  | Some k => Some k
  | None => find (fun k => String.eqb (toLowerCase k) (toLowerCase c)) (keys r)
  end.

(** The synonym list in priority order, stopping at the first hit; no hit
    leaves the field absent. *)
Fixpoint resolveField (r : row) (synonyms : list string) : cell :=
  match synonyms with
  | [] => Undefined
  | c :: rest =>
      match matchCandidate r c with
      | Some k => cellOf (lookup k r)
      | None => resolveField r rest
      end
  end.

End Spec.

(* ================================================================== *)
(** * The layout engine of the specification *)
(* ================================================================== *)

(** What the theorems on the layout read off a stream of instructions, and
    the row height rule and the summary figures in the words of the
    specification. *)
Module LayoutSpec.
Import JsString JsNumber JsObject Exn Layout.
Local Open Scope Q_scope.

(** ** Reading a stream *)

(** A table row of a stream: the position of its entry, where it starts, its
    height, and whether a page advance came since the row before it. *)
Record placed : Type := {
  p_index : nat;
  p_y : Q;
  p_height : Q;
  p_first : bool
}.

Fixpoint placedRows (afterBreak : bool) (s : list instr) : list placed :=
  match s with
  | [] => []
  | AddPage :: r => placedRows true r
  | BodyRow i y h :: r =>
      {| p_index := i; p_y := y; p_height := h; p_first := afterBreak |} :: placedRows false r
  | _ :: r => placedRows afterBreak r
  end.

Definition totalsOf (s : list instr) : list totals :=
  flat_map (fun i => match i with Totals t => [t] | _ => [] end) s.

Definition isPlaceText (i : instr) : Prop :=
  match i with PlaceText _ => True | _ => False end.

(** The entries with their positions and row heights. *)
Fixpoint indexedHeights (p : pagination) (index : nat) (entries : list entry) : list (nat * Q) :=
  match entries with
  | [] => []
  | r :: rest => (index, rowHeight p index r) :: indexedHeights p (S index) rest
  end.

(** ** The row height rule *)

(** What is added to a measured text height, and the least height of a row
    where the template has one. *)
Record rowRule : Type := {
  cellPadding : Q;
  minimumRowHeight : option Q
}.

Definition rowRuleOf (b : bankId) : rowRule :=
  match b with
  | B_PNB => {| cellPadding := 8; minimumRowHeight := Some 22 |}
  | B_BANDHAN => {| cellPadding := 10; minimumRowHeight := Some 28 |}
  | B_CENTRAL => {| cellPadding := 10; minimumRowHeight := Some 24 |}
  | B_ICICI => {| cellPadding := 6; minimumRowHeight := None |}
  | B_SBI => {| cellPadding := 10; minimumRowHeight := Some 28 |}
  | B_AXIS => {| cellPadding := 8; minimumRowHeight := Some 18 |}
  | B_HDFC => {| cellPadding := 8; minimumRowHeight := Some 22 |}
  | B_IDFC => {| cellPadding := 8; minimumRowHeight := Some 22 |}
  end.

(** The height of a row from the measured heights of its cells: the tallest
    padded cell, and no less than the minimum. *)
Definition rowHeightFrom (rule : rowRule) (measured : list Q) : Q :=
  let tallest := fold_left (fun acc h => Qmax acc (h + cellPadding rule)) measured 0 in
  match minimumRowHeight rule with
  | Some least => Qmax tallest least
  | None => tallest
  end.

(** The cells a template measures for the row of an entry, each with the
    width it is measured at. *)
Definition measuredCells (b : bankId) (r : entry) : list (text * Q) :=
  let one (v : jsval) (w : Q) := [(TVal v, w)] in
  match b with
  | B_PNB => one (orElse (prop "narration" r) (orElse (prop "description" r) (JStr "-"))) (175 - 8)
  | B_BANDHAN => one (orElse (prop "description" r) (orElse (prop "particulars" r) (JStr "-"))) (130 - 10)
  | B_CENTRAL =>
      one (orElse (prop "description" r) (orElse (prop "account_description" r) (JStr "-"))) (100 - 6)
  | B_ICICI => map (fun cw => (fst cw, snd cw - 6)) (combine (ICICI_cols r) ICICI_colWidths)
  | B_SBI => map (fun cw => (fst cw, snd cw - 8)) (combine (SBI_cols r) SBI_colWidths)
  | B_AXIS => one (orElse (prop "particulars" r) (orElse (prop "description" r) (JStr "-"))) (145 - 6)
  | B_HDFC => one (orElse (prop "narration" r) (orElse (prop "description" r) (JStr "-"))) (180 - 6)
  | B_IDFC =>
      one (orElse (prop "particulars" r)
                  (orElse (prop "narration" r) (orElse (prop "description" r) (JStr "-"))))
          (175 - 6)
  end.

(** A row is well placed when: first after a page advance, it starts where
    the template continues its table; not first after a page advance, it
    ends at or above the bottom limit; and in both cases it ends at or above
    the bottom limit provided its height fits below the continuation
    position. *)
Definition wellPlaced (p : pagination) (pl : placed) : Prop :=
  (p_first pl = true -> p_y pl = continuationY p)
  /\ (p_first pl = false -> p_y pl + p_height pl <= bottomLimit p)
  /\ (continuationY p + p_height pl <= bottomLimit p ->
      p_y pl + p_height pl <= bottomLimit p).

(** Instructions that draw no row and advance no page. *)
Definition quiet (c : list instr) : Prop :=
  forall (flag : bool) (rest : list instr), placedRows flag (c ++ rest) = placedRows flag rest.

(** The summary figures of each template. *)
Definition templateTotals (b : bankId) (a : accountProfile) (entries : list entry) : list totals :=
  match b with
  | B_PNB | B_CENTRAL => []
  | B_BANDHAN => [BANDHAN_totals entries]
  | B_ICICI => [ICICI_totals a entries]
  | B_SBI => [SBI_totals a]
  | B_AXIS => [AXIS_opening a; AXIS_totals a entries]
  | B_HDFC => [HDFC_totals a entries]
  | B_IDFC => [IDFC_totals a]
  end.

(** ** Sums as the specification words them *)

(** The sum of the values of a field over the entries that pass a test. *)
Definition sumOf (test : jsval -> bool) (k : string) (entries : list entry) : num :=
  fold_left add (map toNumber (filter test (map (prop k) entries))) zero.

End LayoutSpec.

(* ================================================================== *)
(** * Sample inputs *)
(* ================================================================== *)

Module Samples.
Import JsString JsNumber JsObject Server Layout.
Local Open Scope Q_scope.

(** The height of an A4 page in the drawing library. *)
Definition A4_height : Q := 841.89.

(** A measurement that finds the text of the second entry 1000 units tall
    and every other text 20. *)
Definition tallSecondRow (index : nat) (t : text) (width : Q) : Q :=
  match index with 1%nat => 1000 | _ => 20 end.

(** A measurement that finds every text 20 units tall. *)
Definition flat20 (index : nat) (t : text) (width : Q) : Q := 20.

(** A measurement that finds every text one line of 9.248 units tall. *)
Definition oneLine8pt (index : nat) (t : text) (width : Q) : Q := 9.248.

(** The end-to-end scenario of the specification, as CSV rows. *)
Definition scenarioRows : list row :=
  [ [("debit", "100"); ("credit", "0")];
    [("debit", "0"); ("credit", "250")];
    [("debit", "50"); ("credit", "0")] ]%string.

End Samples.

(* ================================================================== *)
(** * The other handlers of server.js *)
(* ================================================================== *)

Module Handlers.
Import JsString JsNumber JsObject Exn Server.
Local Open Scope string_scope.

(** ** The schema of the table [entries] *)

(** The columns of [CREATE TABLE IF NOT EXISTS entries], in order. *)
Definition entriesColumns : list string :=
  [ "id"; "date"; "value_date"; "description"; "debit"; "credit"; "balance";
    "cheque_no"; "narration" ].

(** [ALTER TABLE entries ADD COLUMN addColumn columnType] *)
Record alterTable : Type := {
  addColumn : string;
  columnType : string
}.

(** What [PRAGMA table_info(entries)] hands to its callback: an error, or
    [cols], the rows of the answer, each taken by its [name]; [cols] may be
    missing. *)
Inductive tableInfo : Type :=
  | PragmaError
  | PragmaRows (cols : option (list string)).

(** [names.includes(k)] *)
Definition includes (k : string) (names : list string) : bool :=
  existsb (String.eqb k) names.

(** [ensureEntryColumns()]: the statements it runs, in order. *)
Definition ensureEntryColumns (info : tableInfo) : list alterTable :=
  match info with
  | PragmaError => []
  | PragmaRows cols =>
      let names := match cols with Some c => c | None => [] end in
      ((if negb (includes "cheque_no" names)
        then [{| addColumn := "cheque_no"; columnType := "TEXT" |}] else [])
       ++ (if negb (includes "narration" names)
           then [{| addColumn := "narration"; columnType := "TEXT" |}] else [])
       ++ (if negb (includes "value_date" names)
           then [{| addColumn := "value_date"; columnType := "TEXT" |}] else []))%list
  end.

(** ** Download of a blank CSV template *)

Definition quote : string := String (charOf 34) EmptyString.

(** What [csvTemplates[bank]] reads when it is truthy: the text of an own
    entry, or the member of that name every object inherits. *)
Inductive templateValue : Type :=
  | OwnTemplate (csvContent : string)
  | InheritedMember (name : string).

(** The answer of the download handler: the refusal with its status 400, or
    the two headers it sets and what it passes to [res.send]. *)
Inductive downloadResponse : Type :=
  | DownloadBadRequest (error : string) (availableBanks : list string)
  | DownloadFile (contentType contentDisposition : string) (body : templateValue).

(** [GET /api/download-csv-template/:bank] *)
Definition downloadCsvTemplate (bank : string) : downloadResponse :=
  if negb (hasCsvTemplate bank) then
    DownloadBadRequest "Invalid bank selection" (keys csvTemplates)
  else
    DownloadFile "text/csv"
      ("attachment; filename=" ++ quote ++ bank ++ "_Statement_Template.csv" ++ quote)
      (match lookup bank csvTemplates with
       | Some csvContent => OwnTemplate csvContent
       | None => InheritedMember bank
       end).

(** The header line of a CSV text as the parser splits it into column
    names: the texts between the commas, up to the end of the line.  The
    templates hold no quoted cell. *)
Fixpoint headerColumns (line : string) : list string :=
  match line with
  | EmptyString => [EmptyString]
  | String c rest =>
      if Ascii.eqb c (charOf 10) then [EmptyString]
      else if Ascii.eqb c "," then EmptyString :: headerColumns rest
      else match headerColumns rest with
           | name :: names => String c name :: names
           | [] => [String c EmptyString]
           end
  end.

(** ** Account info *)

(** The fields [POST /api/account] takes from the body, in the order of
    the statement parameters. *)
Definition accountColumns : list string :=
  [ "name"; "account_no"; "ifsc"; "address"; "branch_name"; "branch_address";
    "city"; "pin"; "micr"; "customer_id"; "opening_balance"; "total_debit";
    "total_credit"; "closing_balance"; "statement_from"; "statement_to" ].

(** The statement [POST /api/account] runs: parameters are the values of the
    body, [None] for [undefined]. *)
Inductive accountWrite (V : Type) : Type :=
  | UpdateAccount (params : list (option V)) (id : Z)
  | InsertAccount (params : list (option V)).

Arguments UpdateAccount {V} params id.
Arguments InsertAccount {V} params.

(** [POST /api/account], after [SELECT * FROM account_info LIMIT 1] gave
    [row], taken by its [id]: the statement and the message of the answer. *)
Definition postAccount {V} (row : option Z) (body : jsobj V) : accountWrite V * string :=
  let params := map (fun k => lookup k body) accountColumns in
  match row with
  | Some id => (UpdateAccount params id, "Account info updated")
  | None => (InsertAccount params, "Account info saved")
  end.

(** ** Manual entry *)

(** [parseFloat(v)]: the argument is written out by [String] first.  The
    text of a Number reads back as the Number, a zero as [0]; the texts of
    [undefined], [null] and the booleans are no numerals. *)
Definition parseFloatOf (v : jsval) : num :=
  match v with
  | JStr s => parseFloat s
  | JNum (S754_zero _) => zero
  | JNum x => x
  | JUndefined | JNull | JBool _ => NaN
  end.

(** [v || null] *)
Definition orNullValue (v : jsval) : jsval := if truthy v then v else JNull.

(** The parameters of the [INSERT] of [POST /api/entry]. *)
Record entryArgs : Type := {
  ent_date : jsval;
  ent_value_date : jsval;
  ent_description : jsval;
  ent_debit : jsval;
  ent_credit : jsval;
  ent_balance : num;
  ent_cheque_no : jsval;
  ent_narration : jsval
}.

(** [lastBalance]: [row] is what [SELECT balance FROM entries ORDER BY id
    DESC LIMIT 1] found, taken by its [balance]. *)
Definition lastBalanceOf (row : option jsval) (body : jsobj jsval) : num :=
  match row with
  | Some balance => parseFloatOf balance
  | None =>
      if truthy (prop "opening_balance" body)
      then parseFloatOf (prop "opening_balance" body) else zero
  end.

(** [v ? parseFloat(v) : 0] *)
Definition amountOrZero (v : jsval) : num :=
  if truthy v then parseFloatOf v else zero.

(** [POST /api/entry], after the [SELECT] gave [row]: the [INSERT] it runs.
    The answer echoes the fields of the body and [newBalance]. *)
Definition postEntry (row : option jsval) (body : jsobj jsval) : entryArgs :=
  let debit := prop "debit" body in
  let credit := prop "credit" body in
  let lastBalance := lastBalanceOf row body in
  let newBalance := add (sub lastBalance (amountOrZero debit)) (amountOrZero credit) in
  {| ent_date := orNullValue (prop "date" body);
     ent_value_date := orNullValue (prop "value_date" body);
     ent_description := orNullValue (prop "description" body);
     ent_debit := orNullValue debit;
     ent_credit := orNullValue credit;
     ent_balance := newBalance;
     ent_cheque_no := orNullValue (prop "cheque_no" body);
     ent_narration := orNullValue (prop "narration" body) |}.

End Handlers.

(* ================================================================== *)
(** * The cells of the table rows *)
(* ================================================================== *)

Module Cells.
Import JsString JsNumber JsObject Exn Layout Handlers.
Local Open Scope string_scope.

(** Whether a text handed to the drawing surface is the empty string;
    [String] of a value that is no text is never empty, nor is the text of a
    [toFixed(2)]. *)
Fixpoint emptyText (t : text) : bool :=
  match t with
  | TVal (JStr s) => isEmpty s
  | TVal _ => false
  | TFixed _ => false
  | TCat a b => emptyText a && emptyText b
  end.

(** [a || b] on two texts *)
Definition orCell (a b : text) : text := if emptyText a then b else a.

(** [parseFloat(String(val).replace(/,/g, ""))]: the text of a value that is
    no text holds no comma. *)
Definition parseFloatWithoutCommas (val : jsval) : num :=
  match val with
  | JStr s => parseFloat (removeCommas s)
  | _ => parseFloatOf val
  end.

(** [formatAmount(val)] of the PNB template *)
Definition formatAmount (val : jsval) : text :=
  if negb (truthy val) then lit ""
  else
    let num := parseFloatWithoutCommas val in
    if isNaN num then lit "" else TFixed (toFixed2 num).

(** [r.k && Number(r.k) > 0 ? Number(r.k).toFixed(2) : otherwise] *)
Definition positiveOr (v : jsval) (otherwise : text) : text :=
  if positive v then fixed2 v else otherwise.

(** [r.balance ? Number(r.balance).toFixed(2) : otherwise] *)
Definition truthyOr (v : jsval) (otherwise : text) : text :=
  if truthy v then fixed2 v else otherwise.

(** [cols] of the PNB template *)
Definition PNB_cols (r : entry) : list text :=
  [ TVal (orElse (prop "date" r) (orElse (prop "txn_date" r) (JStr "-")));
    TVal (orElse (prop "cheque_no" r) (JStr ""));
    orCell (formatAmount (prop "debit" r)) (formatAmount (prop "withdrawal" r));
    orCell (formatAmount (prop "credit" r)) (formatAmount (prop "deposit" r));
    (if truthy (prop "balance" r)
     then TCat (formatAmount (prop "balance" r)) (lit " Cr.") else lit "");
    TVal (orElse (prop "narration" r) (orElse (prop "description" r) (JStr "-"))) ].

(** [cols] of the BANDHAN template *)
Definition BANDHAN_cols (r : entry) : list text :=
  [ TVal (orElse (prop "txn_date" r) (orElse (prop "date" r) (JStr "-")));
    TVal (orElse (prop "value_date" r)
                 (orElse (prop "txn_date" r) (orElse (prop "date" r) (JStr "-"))));
    TVal (orElse (prop "description" r) (orElse (prop "particulars" r) (JStr "-")));
    (if truthy (prop "amount" r) then TCat (lit "INR ") (fixed2 (prop "amount" r))
     else if positive (prop "debit" r) then TCat (lit "INR ") (fixed2 (prop "debit" r))
     else if positive (prop "credit" r) then TCat (lit "INR ") (fixed2 (prop "credit" r))
     else lit "-");
    (if truthy (prop "dr_cr" r) then TVal (prop "dr_cr" r)
     else if positive (prop "debit" r) then lit "Dr"
     else if positive (prop "credit" r) then lit "Cr"
     else lit "-");
    (if truthy (prop "balance" r) then TCat (lit "INR ") (fixed2 (prop "balance" r))
     else lit "-") ].

(** [cols] of the CENTRAL template *)
Definition CENTRAL_cols (a : accountProfile) (r : entry) : list text :=
  [ TVal (orElse (prop "post_date" r)
                 (orElse (prop "txn_date" r) (orElse (prop "date" r) (JStr "-"))));
    TVal (orElse (prop "value_date" r)
                 (orElse (prop "post_date" r)
                         (orElse (prop "txn_date" r) (orElse (prop "date" r) (JStr "-")))));
    TVal (orElse (prop "branch_code" r) (orElse (attr "branch_code" a) (JStr "-")));
    TVal (orElse (prop "cheque_no" r) (orElse (prop "cheque_number" r) (JStr "")));
    TVal (orElse (prop "description" r) (orElse (prop "account_description" r) (JStr "-")));
    positiveOr (prop "debit" r) (lit "");
    positiveOr (prop "credit" r) (lit "");
    (if truthy (prop "balance" r)
     then TCat (fixed2 (prop "balance" r))
               (TCat (lit " ") (TVal (orElse (prop "balance_type" r) (JStr "CR"))))
     else lit "-") ].

(** [cols] of the AXIS template *)
Definition AXIS_cols (r : entry) : list text :=
  [ TVal (orElse (prop "txn_date" r) (orElse (prop "date" r) (JStr "-")));
    TVal (orElse (prop "cheque_no" r) (orElse (prop "ref_no" r) (JStr "-")));
    TVal (orElse (prop "particulars" r) (orElse (prop "description" r) (JStr "-")));
    positiveOr (prop "debit" r) (lit "");
    positiveOr (prop "credit" r) (lit "");
    truthyOr (prop "balance" r) (lit "");
    TVal (orElse (prop "init_br" r) (JStr "2144")) ].

(** [cols] of the HDFC template *)
Definition HDFC_cols (r : entry) : list text :=
  [ TVal (orElse (prop "date" r) (orElse (prop "txn_date" r) (JStr "-")));
    TVal (orElse (prop "narration" r) (orElse (prop "description" r) (JStr "-")));
    TVal (orElse (prop "cheque_no" r) (orElse (prop "ref_no" r) (JStr "")));
    positiveOr (prop "debit" r) (positiveOr (prop "withdrawal" r) (lit "0.00"));
    positiveOr (prop "credit" r) (positiveOr (prop "deposit" r) (lit "0.00"));
    truthyOr (prop "balance" r) (lit "-") ].

(** [cols] of the IDFC template *)
Definition IDFC_cols (r : entry) : list text :=
  [ TVal (orElse (prop "date" r) (orElse (prop "txn_date" r) (JStr "-")));
    TVal (orElse (prop "value_date" r)
                 (orElse (prop "date" r) (orElse (prop "txn_date" r) (JStr "-"))));
    TVal (orElse (prop "particulars" r)
                 (orElse (prop "narration" r) (orElse (prop "description" r) (JStr "-"))));
    TVal (orElse (prop "cheque_no" r) (JStr ""));
    positiveOr (prop "debit" r) (lit "");
    positiveOr (prop "credit" r) (lit "");
    truthyOr (prop "balance" r) (lit "") ].

(** The cells of the row of an entry, template by template. *)
Definition cols (b : bankId) (a : accountProfile) (r : entry) : list text :=
  match b with
  | B_PNB => PNB_cols r
  | B_BANDHAN => BANDHAN_cols r
  | B_CENTRAL => CENTRAL_cols a r
  | B_ICICI => ICICI_cols r
  | B_SBI => SBI_cols r
  | B_AXIS => AXIS_cols r
  | B_HDFC => HDFC_cols r
  | B_IDFC => IDFC_cols r
  end.

(** The places of the debit, credit and balance cells in [cols]. *)
Definition debitColumn (b : bankId) : option nat :=
  match b with
  | B_PNB => Some 2 | B_BANDHAN => None | B_CENTRAL => Some 5 | B_ICICI => Some 4
  | B_SBI => Some 4 | B_AXIS => Some 3 | B_HDFC => Some 3 | B_IDFC => Some 4
  end%nat.

Definition creditColumn (b : bankId) : option nat :=
  option_map S (debitColumn b).

(** One turn of the loop of the HDFC summary on [drCount] and [crCount]. *)
Definition HDFC_count (st : Z * Z) (e : entry) : Z * Z :=
  let '(drCount, crCount) := st in
  let drCount := if positive (prop "debit" e) || positive (prop "withdrawal" e)
                 then (drCount + 1)%Z else drCount in
  let crCount := if positive (prop "credit" e) then (crCount + 1)%Z else crCount in
  let crCount := if positive (prop "deposit" e) then (crCount + 1)%Z else crCount in
  (drCount, crCount).

(** [drCount] and [crCount] of the HDFC summary *)
Definition HDFC_counts (entries : list entry) : Z * Z :=
  fold_left HDFC_count entries (0%Z, 0%Z).

Section PageCounter.

Variable pageHeight : Q.
Variable heightOfString : nat -> text -> Q -> Q.

Local Open Scope Q_scope.

(** One turn of the table loop of the PNB template on [tableY] and
    [currentPage], on exact coordinates like [tableRows]. *)
Definition PNB_turn (a : accountProfile) (st : Q * Z) (ir : nat * entry) : Q * Z :=
  let '(tableY, currentPage) := st in
  let h := rowHeight (PNB_pagination pageHeight heightOfString a) (fst ir) (snd ir) in
  if exceeds (tableY + h) (pageHeight - 80)
  then (40 + 40 + h, (currentPage + 1)%Z)
  else (tableY + h, currentPage).

(** [currentPage] when the PNB template writes [Page No]. *)
Definition PNB_currentPage (a : accountProfile) (entries : list entry) : Z :=
  snd (fold_left (PNB_turn a) (combine (seq 0 (List.length entries)) entries)
                 (PNB_top a + 26, 1%Z)).

End PageCounter.

End Cells.

(* ================================================================== *)
(** * The form of App.js *)
(* ================================================================== *)

Module App.
Import JsString JsNumber JsObject Exn Server Handlers.
Local Open Scope string_scope.

(** An entry of [BANK_CONFIG] *)
Record bankConfig : Type := {
  labels : list string;
  fields : list string;
  accountFields : list string
}.

Definition BANK_CONFIG : jsobj bankConfig :=
  [ ("PNB",
     {| labels := ["Transaction Date"; "Cheque Number"; "Withdrawal"; "Deposit"; "Balance";
                   "Narration"];
        fields := ["date"; "cheque_no"; "withdrawal"; "deposit"; "balance"; "narration"];
        accountFields :=
          ["account_no"; "branch_name"; "branch_address"; "branch_address2"; "city"; "pin";
           "ifsc"; "micr"; "name"; "jt_holder1"; "jt_holder2"; "jt_holder3"; "address";
           "nominee"; "statement_from"; "statement_to"] |});
    ("CENTRAL",
     {| labels := ["Post Date"; "Value Date"; "Branch Code"; "Cheque Number";
                   "Account Description"; "Debit"; "Credit"; "Balance"];
        fields := ["post_date"; "value_date"; "branch_code"; "cheque_number";
                   "account_description"; "debit"; "credit"; "balance"];
        accountFields :=
          ["name"; "address"; "address2"; "city"; "pin"; "email"; "account_no";
           "branch_name"; "branch_address"; "branch_code"; "ifsc"; "account_type";
           "product_type"; "statement_date"; "statement_from"; "statement_to";
           "cleared_balance"; "uncleared_amount"; "drawing_power"] |});
    ("BANDHAN",
     {| labels := ["Transaction Date"; "Value Date"; "Description"; "Amount"; "Dr / Cr";
                   "Balance"];
        fields := ["txn_date"; "value_date"; "description"; "amount"; "dr_cr"; "balance"];
        accountFields :=
          ["name"; "father_name"; "address"; "address2"; "city"; "state"; "pin";
           "account_no"; "account_type"; "branch_address"; "customer_id"; "cif"; "ifsc";
           "micr"; "nominee_registered"; "jt_holder"; "statement_from"; "statement_to";
           "statement_date"] |});
    ("ICICI",
     {| labels := ["Txn Date"; "Value Date"; "Description"; "Ref No./Cheque No."; "Debit";
                   "Credit"; "Balance"];
        fields := ["txn_date"; "value_date"; "description"; "ref_no"; "debit"; "credit";
                   "balance"];
        accountFields :=
          ["name"; "address"; "account_no"; "jt_holder"; "txn_date_from"; "statement_from";
           "statement_to"; "download_date"; "branch_name"; "branch_address"; "account_type";
           "cust_id"; "branch_code"; "ifsc"; "currency"; "amount_from"; "amount_to";
           "cheque_from"; "cheque_to"; "txn_remarks"; "txn_type"] |});
    ("SBI",
     {| labels := ["Date"; "Description"; "Debit"; "Credit"; "Balance"];
        fields := ["date"; "description"; "debit"; "credit"; "balance"];
        accountFields :=
          ["name"; "father_name"; "address"; "address2"; "city"; "district"; "pin"; "date";
           "account_no"; "account_type"; "branch_name"; "drawing_power"; "interest_rate";
           "mod_balance"; "cif"; "ifsc"; "micr"; "nominee_registered"; "opening_balance";
           "closing_balance"; "statement_from"; "statement_to"] |});
    ("HDFC",
     {| labels := ["Date"; "Narration"; "Chq / Ref No"; "Withdrawal Amount";
                   "Deposit Amount"; "Closing Balance*"];
        fields := ["date"; "narration"; "ref_no"; "withdrawal"; "deposit"; "balance"];
        accountFields :=
          ["name"; "address"; "address2"; "city"; "state"; "country"; "pin"; "branch_name";
           "branch_address"; "branch_address2"; "branch_city"; "branch_state";
           "branch_phone"; "ifsc"; "micr"; "od_limit"; "customer_id"; "pr_code";
           "branch_code"; "account_no"; "opening_date"; "status"; "nomination";
           "statement_from"; "statement_to"; "opening_balance"; "closing_balance"] |});
    ("AXIS",
     {| labels := ["Tran Date"; "Chq No"; "Particulars"; "Debit"; "Credit"; "Balance";
                   "Init. Br"];
        fields := ["txn_date"; "cheque_no"; "particulars"; "debit"; "credit"; "balance";
                   "init_br"];
        accountFields :=
          ["name"; "father_name"; "address"; "city"; "state"; "pin"; "customer_no"; "scheme";
           "account_type"; "currency"; "account_no"; "ifsc"; "branch_name";
           "branch_address"; "opening_balance"; "total_debit"; "total_credit";
           "closing_balance"; "statement_from"; "statement_to"] |});
    ("IDFC",
     {| labels := ["Transaction Date"; "Value Date"; "Particulars"; "Cheque No."; "Debit";
                   "Credit"; "Balance"];
        fields := ["date"; "value_date"; "particulars"; "cheque_no"; "debit"; "credit";
                   "balance"];
        accountFields :=
          ["customer_id"; "account_no"; "statement_from"; "statement_to"; "name";
           "father_name"; "address"; "city"; "pin"; "ifsc"; "micr"; "opening_date";
           "status"; "account_type"; "opening_balance"; "total_debit"; "total_credit";
           "closing_balance"] |}) ].

(** The state of the component, the chosen file apart. *)
Record state : Type := {
  bank : string;
  account : jsobj string;
  transactions : list (jsobj string);
  manualTxn : jsobj string
}.

(** [handleAccountChange]: [{ ...account, [name]: value }] *)
Definition handleAccountChange (name value : string) (st : state) : state :=
  {| bank := bank st;
     account := defineOwn name value (account st);
     transactions := transactions st;
     manualTxn := manualTxn st |}.

(** [handleTxnChange] *)
Definition handleTxnChange (name value : string) (st : state) : state :=
  {| bank := bank st;
     account := account st;
     transactions := transactions st;
     manualTxn := defineOwn name value (manualTxn st) |}.

(** [addManualTxn] *)
Definition addManualTxn (st : state) : state :=
  {| bank := bank st;
     account := account st;
     transactions := (transactions st ++ [manualTxn st])%list;
     manualTxn := [] |}.

(** [clearTransactions], given the answer of the confirmation *)
Definition clearTransactions (confirmed : bool) (st : state) : state :=
  if negb confirmed then st
  else {| bank := bank st;
          account := account st;
          transactions := [];
          manualTxn := manualTxn st |}.

(** A value of the body [saveAccount] posts: a text or the account record. *)
Inductive payload : Type :=
  | PText (s : string)
  | PRecord (o : jsobj string).

(** The body of [saveAccount]: [{ bank, account }] *)
Definition saveAccountBody (st : state) : jsobj payload :=
  [ ("bank", PText (bank st)); ("account", PRecord (account st)) ].

(** [parseFloat(a || b) || 0] for two fields of a transaction *)
Definition amountOr (a b : string) (t : jsobj string) : num :=
  let v := match field a t with
           | Some s => Some s
           | None => lookup b t
           end in
  let n := match v with Some s => parseFloat s | None => NaN end in
  if truthy (JNum n) then n else zero.

(** [totalDebit] and [totalCredit] *)
Definition totalDebit (transactions : list (jsobj string)) : num :=
  fold_left (fun sum t => add sum (amountOr "debit" "withdrawal" t)) transactions zero.

Definition totalCredit (transactions : list (jsobj string)) : num :=
  fold_left (fun sum t => add sum (amountOr "credit" "deposit" t)) transactions zero.

(** The net balance shown: [(totalCredit - totalDebit).toFixed(2)] *)
Definition netBalance (transactions : list (jsobj string)) : fixedText :=
  toFixed2 (sub (totalCredit transactions) (totalDebit transactions)).

End App.

(* ================================================================== *)
(** * Reading rows, numbers and tables *)
(* ================================================================== *)

(** What the theorems on the handlers say of a row and of a Number. *)
Module HandlerSpec.
Import JsString JsNumber JsObject Exn Server Handlers.

(** The cell of the last column of a row whose name, trimmed, is [k]. *)
Definition lastTrimmed (k : string) (r : row) : option string :=
  fold_left (fun found kv => if String.eqb (trim (fst kv)) k then Some (snd kv) else found)
            r None.

(** A Number that is neither NaN nor infinite. *)
Definition isFinite (x : num) : bool :=
  match x with
  | S754_zero _ | S754_finite _ _ _ => true
  | _ => false
  end.

End HandlerSpec.

(** What the theorems on the table loop say of a stream of rows and of a
    cell. *)
Module TableSpec.
Import JsString JsNumber JsObject Exn Layout LayoutSpec.
Local Open Scope Q_scope.

Section Start.
Variable docY : Q.

(** Where each template places its first row: below its first table
    header, and for AXIS below the opening balance row under that header. *)
Definition firstRowY (b : bankId) (a : accountProfile) : Q :=
  match b with
  | B_PNB => PNB_top a + 26
  | B_BANDHAN => BANDHAN_top + 24
  | B_CENTRAL => CENTRAL_top a + 30
  | B_ICICI => docY + 10 + 20
  | B_SBI => docY + 30
  | B_AXIS => 175 + 25 + 24 + 20
  | B_HDFC => HDFC_top + 20
  | B_IDFC => IDFC_top a + 24
  end.

End Start.

(** Rows that follow one another from the position [y]: a row starts where
    the row before it ended and ends at or above the bottom limit; or it
    comes first after a page advance, at the continuation position. *)
Fixpoint chained (p : pagination) (y : Q) (rows : list placed) : Prop :=
  match rows with
  | [] => True
  | pl :: rest =>
      (if p_first pl
       then p_y pl = continuationY p
       else p_y pl = y /\ y + p_height pl <= bottomLimit p)
      /\ chained p (p_y pl + p_height pl) rest
  end.

Definition isAddPage (i : instr) : bool :=
  match i with AddPage => true | _ => false end.

(** Whether a text handed to the drawing surface writes out a NaN. *)
Fixpoint showsNaN (t : text) : bool :=
  match t with
  | TVal (JNum x) => isNaN x
  | TVal _ => false
  | TFixed (PlainText x) => isNaN x
  | TFixed (FixedDigits _ _) => false
  | TCat a b => showsNaN a || showsNaN b
  end.

End TableSpec.

(* ================================================================== *)
(** * Theorems *)
(* ================================================================== *)

Import JsString JsNumber JsObject Exn Server Spec Samples.

(** ** Texts *)

Section StringFacts.
Local Open Scope string_scope.

Lemma isEmpty_true (s : string) : isEmpty s = true <-> s = "".
Proof. destruct s; simpl; split; congruence. Qed.

Lemma splitLast_none (s : string) : splitLast s = None <-> s = "".
Proof.
  destruct s as [|c r]; simpl; [tauto|].
  destruct (splitLast r) as [[front l]|]; split; congruence.
Qed.

(** The tail of the pattern accepts exactly the one-line texts that end in a
    closing parenthesis. *)
Lemma matchDotStarClose_splitLast (r : string) :
  matchDotStarClose r =
  match splitLast r with
  | Some (inner, l) => Ascii.eqb l ")" && oneLine inner
  | None => false
  end.
Proof.
  induction r as [|c r IH]; simpl; [reflexivity|].
  rewrite IH.
  destruct (splitLast r) as [[front l]|] eqn:E.
  - assert (isEmpty r = false) as ->.
    { destruct r; [discriminate E | reflexivity]. }
    simpl. rewrite andb_false_r. simpl.
    destruct (Ascii.eqb l ")"), (isLineTerminator c); reflexivity.
  - apply splitLast_none in E. subst r. simpl.
    rewrite andb_true_r, andb_false_r, orb_false_r. reflexivity.
Qed.

Lemma dropCloseAtEnd_splitLast (r inner : string) (l : ascii) :
  splitLast r = Some (inner, l) -> Ascii.eqb l ")" = true ->
  dropCloseAtEnd r = inner.
Proof.
  revert inner. induction r as [|c r IH]; simpl; intros inner E L; [discriminate|].
  destruct (splitLast r) as [[front l']|] eqn:E'.
  - injection E as <- <-.
    assert (isEmpty r = false) as ->.
    { destruct r; [discriminate E' | reflexivity]. }
    rewrite andb_false_r. f_equal. now apply IH.
  - injection E as <- <-. apply splitLast_none in E'. subst r.
    simpl. now rewrite L.
Qed.

(** The test of [parseNumberSafe] and its replacement find the interior the
    specification speaks of. *)
Lemma testParenthesised_interior (t : string) :
  match wrappedInterior t with
  | Some inner => testParenthesised t = true /\ stripParens t = inner
  | None => testParenthesised t = false
  end.
Proof.
  destruct t as [|c r]; simpl; [reflexivity|].
  unfold stripParens. simpl.
  destruct (Ascii.eqb c "(") eqn:C; simpl; [|reflexivity].
  rewrite matchDotStarClose_splitLast.
  destruct (splitLast r) as [[inner l]|] eqn:E; [|reflexivity].
  destruct (Ascii.eqb l ")") eqn:L; simpl; [|reflexivity].
  destruct (oneLine inner); [|reflexivity].
  split; [reflexivity|]. now apply dropCloseAtEnd_splitLast with (l := l).
Qed.

Lemma trimEnd_empty (s : string) : isEmpty (trimEnd s) = allWhite s.
Proof.
  induction s as [|c r IH]; simpl; [reflexivity|].
  destruct (isWhiteSpace c); simpl; [|reflexivity].
  rewrite <- IH. destruct (isEmpty (trimEnd r)); reflexivity.
Qed.

Lemma trimStart_allWhite (s : string) : allWhite (trimStart s) = allWhite s.
Proof.
  induction s as [|c r IH]; simpl; [reflexivity|].
  destruct (isWhiteSpace c) eqn:W; simpl; [assumption | now rewrite W].
Qed.

Lemma trim_empty (s : string) : isEmpty (trim s) = allWhite s.
Proof. unfold trim. now rewrite trimEnd_empty, trimStart_allWhite. Qed.

Lemma removeCommas_allWhite (s : string) : allWhite s = true -> removeCommas s = s.
Proof.
  induction s as [|c r IH]; simpl; [reflexivity|].
  intros H. apply andb_true_iff in H as [W H].
  destruct (Ascii.eqb c ",") eqn:C.
  - apply Ascii.eqb_eq in C. subst c. discriminate W.
  - now rewrite IH.
Qed.

End StringFacts.

(** ** Numbers *)

Lemma isNaN_neg (n : num) : isNaN (neg n) = isNaN n.
Proof. destruct n; reflexivity. Qed.

Lemma orZero_not_NaN (n : num) : isNaN (orZero n) = false.
Proof. unfold orZero. destruct (isNaN n) eqn:E; [reflexivity | exact E]. Qed.

Lemma parseNumberSafe_parseByRules (val : cell) : parseNumberSafe val = parseByRules val.
Proof.
  destruct val as [| |s]; simpl; try reflexivity.
  rewrite (trim_empty s).
  destruct (allWhite s) eqn:W.
  - rewrite (removeCommas_allWhite s W), trim_empty, W. reflexivity.
  - destruct (isEmpty (trim (removeCommas s))) eqn:E.
    + apply isEmpty_true in E. rewrite E. reflexivity.
    + pose proof (testParenthesised_interior (trim (removeCommas s))) as T.
      destruct (wrappedInterior (trim (removeCommas s))) as [inner|].
      * destruct T as [-> ->]. unfold orZero. rewrite isNaN_neg. reflexivity.
      * rewrite T. reflexivity.
Qed.


(** ** Objects *)

Section ObjectFacts.
Context {A : Type}.
Implicit Types (o : jsobj A) (k : string) (v : A).

Lemma lookup_replaceOwn_same k v o :
  hasOwn k o = true -> lookup k (replaceOwn k v o) = Some v.
Proof.
  unfold hasOwn. induction o as [|[k' v'] o IH]; simpl; [discriminate|].
  destruct (String.eqb k' k) eqn:E; simpl; rewrite E; [reflexivity | exact IH].
Qed.

Lemma lookup_replaceOwn_other k k' v o :
  k <> k' -> lookup k (replaceOwn k' v o) = lookup k o.
Proof.
  intros N. induction o as [|[k0 v0] o IH]; simpl; [reflexivity|].
  destruct (String.eqb k0 k') eqn:E; simpl.
  - apply String.eqb_eq in E. subst k0.
    destruct (String.eqb k' k) eqn:E'; [|reflexivity].
    apply String.eqb_eq in E'. congruence.
  - destruct (String.eqb k0 k); [reflexivity | exact IH].
Qed.

Lemma lookup_insertIndexed_same n k v o :
  hasOwn k o = false -> lookup k (insertIndexed n k v o) = Some v.
Proof.
  unfold hasOwn. induction o as [|[k' v'] o IH]; simpl; intros H.
  - now rewrite String.eqb_refl.
  - destruct (String.eqb k' k) eqn:E; [discriminate|].
    destruct (arrayIndex k') as [n'|]; [destruct (n' <? n)|]; simpl;
      rewrite ?E, ?String.eqb_refl; auto.
Qed.

Lemma lookup_insertIndexed_other n k k' v o :
  k <> k' -> lookup k (insertIndexed n k' v o) = lookup k o.
Proof.
  intros N. assert (String.eqb k' k = false) as N' by (apply String.eqb_neq; congruence).
  induction o as [|[k0 v0] o IH]; simpl; [now rewrite N'|].
  destruct (arrayIndex k0) as [n'|]; [destruct (n' <? n)|]; simpl; rewrite ?N'; try reflexivity.
  destruct (String.eqb k0 k); [reflexivity | exact IH].
Qed.

Lemma lookup_app k o o' :
  lookup k (o ++ o') = match lookup k o with Some v => Some v | None => lookup k o' end.
Proof.
  induction o as [|[k0 v0] o IH]; simpl; [reflexivity|].
  destruct (String.eqb k0 k); [reflexivity | exact IH].
Qed.

Lemma lookup_defineOwn_same k v o : lookup k (defineOwn k v o) = Some v.
Proof.
  unfold defineOwn. destruct (hasOwn k o) eqn:H.
  - now apply lookup_replaceOwn_same.
  - destruct (arrayIndex k); [now apply lookup_insertIndexed_same|].
    rewrite lookup_app. unfold hasOwn in H.
    destruct (lookup k o); [discriminate|]. simpl. now rewrite String.eqb_refl.
Qed.

Lemma lookup_defineOwn_other k k' v o :
  k <> k' -> lookup k (defineOwn k' v o) = lookup k o.
Proof.
  intros N. unfold defineOwn. destruct (hasOwn k' o).
  - now apply lookup_replaceOwn_other.
  - destruct (arrayIndex k'); [now apply lookup_insertIndexed_other|].
    rewrite lookup_app. destruct (lookup k o); [reflexivity|]. simpl.
    destruct (String.eqb k' k) eqn:E; [|reflexivity].
    apply String.eqb_eq in E. congruence.
Qed.

Lemma lookup_assign_same k v o :
  k <> "__proto__"%string -> lookup k (assign k v o) = Some v.
Proof.
  intros N. unfold assign. apply String.eqb_neq in N. rewrite N.
  apply lookup_defineOwn_same.
Qed.

Lemma lookup_assign_other k k' v o :
  k <> k' -> lookup k (assign k' v o) = lookup k o.
Proof.
  intros N. unfold assign. destruct (String.eqb k' "__proto__"); [reflexivity|].
  now apply lookup_defineOwn_other.
Qed.

End ObjectFacts.

Lemma lookup_map {A B} (f : A -> B) (k : string) (o : jsobj A) :
  lookup k (map (fun kv => (fst kv, f (snd kv))) o) = option_map f (lookup k o).
Proof.
  induction o as [|[k0 v0] o IH]; simpl; [reflexivity|].
  destruct (String.eqb k0 k); [reflexivity | exact IH].
Qed.

(** ** The emitted row *)

(** Reads a property of [outRow] through the assignments that built it. *)
Ltac read_outRow :=
  unfold prop, makeOutRow;
  repeat (rewrite lookup_assign_other by (assumption || discriminate));
  try (rewrite lookup_assign_same by discriminate);
  try (rewrite lookup_defineOwn_other by assumption);
  rewrite ?lookup_map.

Section OutRow.
Local Open Scope string_scope.
Variables (normalizedRow : row) (debit credit balance : num).

Lemma outRow_balance :
  prop "balance" (makeOutRow normalizedRow debit credit balance) = JNum balance.
Proof. read_outRow. reflexivity. Qed.

Lemma outRow_parsed_credit :
  prop "_parsed_credit" (makeOutRow normalizedRow debit credit balance) = JNum credit.
Proof. read_outRow. reflexivity. Qed.

Lemma outRow_parsed_debit :
  prop "_parsed_debit" (makeOutRow normalizedRow debit credit balance) = JNum debit.
Proof. read_outRow. reflexivity. Qed.

(** Every other column of the row is carried over as it was read. *)
Lemma outRow_cell (k s : string) :
  k <> "balance" -> k <> "_parsed_debit" -> k <> "_parsed_credit" ->
  lookup k normalizedRow = Some s ->
  prop k (makeOutRow normalizedRow debit credit balance) = JStr s.
Proof. intros N1 N2 N3 H. read_outRow. now rewrite H. Qed.

End OutRow.

(** ** Field lookup *)

(** Case analysis on every condition of the goal. *)
Ltac destruct_conditions :=
  repeat match goal with
         | |- context [if ?b then _ else _] => destruct b
         end.

Section GetVal.
Local Open Scope string_scope.

Lemma hasOwn_In {A} (k : string) (o : jsobj A) : In k (keys o) -> hasOwn k o = true.
Proof.
  unfold hasOwn. induction o as [|[k0 v0] o IH]; simpl; [tauto|].
  intros [->|H]; [now rewrite String.eqb_refl|].
  destruct (String.eqb k0 k); [reflexivity | now apply IH].
Qed.

Lemma find_exact_key {A} (c : string) (o : jsobj A) :
  find (String.eqb c) (keys o) = if hasOwn c o then Some c else None.
Proof.
  unfold hasOwn. induction o as [|[k0 v0] o IH]; simpl; [reflexivity|].
  rewrite (String.eqb_sym c k0).
  destruct (String.eqb k0 c) eqn:E; [|exact IH].
  apply String.eqb_eq in E. now subst k0.
Qed.

Lemma toLowerCase_empty (s : string) : toLowerCase s = "" -> s = "".
Proof. destruct s; [reflexivity | discriminate]. Qed.

(** A column named [hasOwnProperty] makes every lookup throw. *)
Lemma getVal_throws (normalizedRow : row) (c : string) (rest : list string) :
  hasOwn "hasOwnProperty" normalizedRow = true ->
  getVal normalizedRow (c :: rest)
  = Thrown (TypeError "normalizedRow.hasOwnProperty is not a function").
Proof. intros H. simpl. now rewrite H. Qed.

(** Without such a column the lookup is the resolution of the
    specification: synonyms in priority order, each tried exactly and then
    without regard to case, absent when nothing matches. *)
Lemma getVal_resolves (normalizedRow : row) (candidates : list string) :
  hasOwn "hasOwnProperty" normalizedRow = false ->
  getVal normalizedRow candidates = Returned (resolveField normalizedRow candidates).
Proof.
  intros H. induction candidates as [|c rest IH]; simpl; [reflexivity|].
  rewrite H. unfold matchCandidate. rewrite find_exact_key.
  destruct (hasOwn c normalizedRow) eqn:Hc; [reflexivity|].
  destruct (find _ (keys normalizedRow)) as [foundKey|] eqn:F; [|exact IH].
  destruct (isEmpty foundKey) eqn:E; [|reflexivity].
  exfalso. apply isEmpty_true in E. subst foundKey.
  apply find_some in F as [I L]. apply String.eqb_eq in L.
  symmetry in L. apply toLowerCase_empty in L. subst c.
  apply hasOwn_In in I. congruence.
Qed.

Lemma extractAmounts_throws (bank : string) (normalizedRow : row) :
  hasOwn "hasOwnProperty" normalizedRow = true ->
  exists e, extractAmounts bank normalizedRow = Thrown e.
Proof.
  intros H. unfold extractAmounts, direct.
  destruct_conditions; rewrite (getVal_throws _ _ _ H); simpl; eauto.
Qed.

Lemma extractAmounts_returns (bank : string) (normalizedRow : row) :
  hasOwn "hasOwnProperty" normalizedRow = false ->
  exists amounts, extractAmounts bank normalizedRow = Returned amounts.
Proof.
  intros H. unfold extractAmounts, direct.
  rewrite !(getVal_resolves _ _ H). simpl.
  destruct_conditions; eauto.
Qed.

End GetVal.

(** ** The running balance of the upload handler *)

Section UploadLedger.
Variable bank : string.

Lemma onData_processed (st : uploadState) (r : row) :
  processed bank r = true ->
  exists debit credit,
    extractAmounts bank (normalizeRow r) = Returned (debit, credit) /\
    onData bank st r =
    {| runningBalance := nextBalance (runningBalance st) debit credit;
       results := results st ++ [makeOutRow (normalizeRow r) debit credit
                                    (nextBalance (runningBalance st) debit credit)] |}.
Proof.
  unfold processed, onData.
  destruct (extractAmounts bank (normalizeRow r)) as [[debit credit]|e]; [|discriminate].
  intros _. exists debit, credit. split; reflexivity.
Qed.

Lemma onData_skipped (st : uploadState) (r : row) :
  processed bank r = false ->
  (exists e, extractAmounts bank (normalizeRow r) = Thrown e) /\ onData bank st r = st.
Proof.
  unfold processed, onData.
  destruct (extractAmounts bank (normalizeRow r)) as [[debit credit]|e]; [discriminate|].
  intros _. split; [eauto | reflexivity].
Qed.

(** The rows that throw are those with a column named [hasOwnProperty]. *)
Lemma processed_iff (r : row) :
  processed bank r = negb (hasOwn "hasOwnProperty" (normalizeRow r)).
Proof.
  unfold processed. destruct (hasOwn "hasOwnProperty" (normalizeRow r)) eqn:H.
  - destruct (extractAmounts_throws bank _ H) as [e ->]. reflexivity.
  - destruct (extractAmounts_returns bank _ H) as [amounts ->]. reflexivity.
Qed.

(** From any state on, the handler appends one row per processed input
    row, in order, and the balances it writes are the rounded recurrence over
    the resolved amounts. *)
Lemma upload_fold (rows : list row) :
  forall st : uploadState,
  exists outs,
    results (fold_left (onData bank) rows st) = results st ++ outs /\
    Forall2 carries (filter (processed bank) rows) outs /\
    balancesOf outs
    = map JNum (runningBalances roundedStep (runningBalance st) (resolveRows bank rows)) /\
    parsedOf outs = map (fun e => (JNum (fst e), JNum (snd e))) (resolveRows bank rows).
Proof.
  induction rows as [|r rows IH]; intros st; simpl.
  - exists []. rewrite app_nil_r. repeat split. constructor.
  - destruct (processed bank r) eqn:P.
    + destruct (onData_processed st r P) as (debit & credit & E & ->).
      destruct (IH {| runningBalance := nextBalance (runningBalance st) debit credit;
                      results := results st ++ [makeOutRow (normalizeRow r) debit credit
                                   (nextBalance (runningBalance st) debit credit)] |})
        as (outs & R & F & B & D).
      simpl in R, B. rewrite <- app_assoc in R. simpl in R.
      eexists. split; [exact R|]. split; [|split].
      * constructor; [|exact F]. intros k s N1 N2 N3 L. now apply outRow_cell.
      * simpl. rewrite outRow_balance, B, E. reflexivity.
      * simpl. rewrite outRow_parsed_debit, outRow_parsed_credit, D, E. reflexivity.
    + destruct (onData_skipped st r P) as [[e E] ->].
      destruct (IH st) as (outs & R & F & B & D).
      exists outs. rewrite E. simpl. auto.
Qed.

Lemma uploadData_spec (rows : list row) :
  Forall2 carries (filter (processed bank) rows) (uploadData bank rows) /\
  balancesOf (uploadData bank rows)
  = map JNum (runningBalances roundedStep zero (resolveRows bank rows)) /\
  parsedOf (uploadData bank rows)
  = map (fun e => (JNum (fst e), JNum (snd e))) (resolveRows bank rows).
Proof.
  unfold uploadData. destruct (upload_fold rows initialUpload) as (outs & R & F & B & D).
  simpl in R. rewrite R. auto.
Qed.

(** Past its two checks the handler evaluates [csvParser] and throws. *)
Lemma uploadStatement_throws (rows : list row) :
  hasCsvTemplate bank = true ->
  uploadStatement bank (Some rows)
  = UploadThrown (ReferenceError "csvParser is not defined").
Proof. intros H. unfold uploadStatement. now rewrite H. Qed.

End UploadLedger.

(** ** The recurrence, entry by entry *)

Section Recurrence.
Variable step : num -> num -> num -> num.

Lemma runningBalances_first (B : num) (entries : list (num * num)) :
  nth_error (runningBalances step B entries) 0
  = option_map (fun e => step B (fst e) (snd e)) (nth_error entries 0).
Proof. destruct entries as [|[d c] rest]; reflexivity. Qed.

Lemma runningBalances_next (entries : list (num * num)) :
  forall (B : num) (i : nat),
    nth_error (runningBalances step B entries) (S i)
    = match nth_error (runningBalances step B entries) i, nth_error entries (S i) with
      | Some previous, Some e => Some (step previous (fst e) (snd e))
      | _, _ => None
      end.
Proof.
  induction entries as [|[d c] rest IH]; intros B i; simpl.
  - now destruct i.
  - destruct i as [|i]; simpl.
    + destruct rest as [|[d' c'] rest']; reflexivity.
    + apply IH.
Qed.

Lemma runningBalances_length (B : num) (entries : list (num * num)) :
  List.length (runningBalances step B entries) = List.length entries.
Proof.
  revert B. induction entries as [|[d c] rest IH]; intros B; simpl; [reflexivity|].
  now rewrite IH.
Qed.

End Recurrence.

Lemma importRows_balances (rows : list row) :
  forall B : num,
    map ins_balance (importRows B rows)
    = runningBalances plainStep B
        (map (fun r => (amountOf "debit" r, amountOf "credit" r)) rows).
Proof.
  induction rows as [|r rows IH]; intros B; simpl; [reflexivity|].
  now rewrite IH.
Qed.

(** ** Numbers at a zero balance *)


(** What [toFixed(2)] writes for a finite Number: its sign and the integer
    [n] for which [n / 100] is nearest to its magnitude [m * 2^e], the larger
    one of two; a magnitude of [10^21] or more is written in full. *)
Lemma toFixed2_nearest (s : bool) (m : BinNums.positive) (e : Z) :
  match toFixed2 (S754_finite s m e) with
  | FixedDigits s' n =>
      s' = s
      /\ if 0 <=? e then n = 100 * (Z.pos m * 2 ^ e)
         else 2 * n * 2 ^ (- e) <= 200 * Z.pos m + 2 ^ (- e) < 2 * (n + 1) * 2 ^ (- e)
  | PlainText x =>
      x = S754_finite s m e
      /\ if 0 <=? e then 10 ^ 21 <= Z.pos m * 2 ^ e else 10 ^ 21 * 2 ^ (- e) <= Z.pos m
  end.
Proof.
  unfold toFixed2. destruct (0 <=? e) eqn:E.
  - destruct (10 ^ 21 <=? Z.pos m * 2 ^ e) eqn:H.
    + split; [reflexivity|]. now apply Z.leb_le.
    + split; [reflexivity|]. lia.
  - destruct (10 ^ 21 * 2 ^ (- e) <=? Z.pos m) eqn:H.
    + split; [reflexivity|]. now apply Z.leb_le.
    + split; [reflexivity|]. apply Z.leb_gt in E.
      assert (0 < 2 ^ (- e)) as P by (apply Z.pow_pos_nonneg; lia).
      replace (1 - e) with (Z.succ (- e)) by lia. rewrite Z.pow_succ_r by lia.
      pose proof (Z.div_mod (200 * Z.pos m + 2 ^ (- e)) (2 * 2 ^ (- e))) as D.
      pose proof (Z.mod_pos_bound (200 * Z.pos m + 2 ^ (- e)) (2 * 2 ^ (- e))) as B.
      lia.
Qed.

(** ** Claims on the ledger *)

Section LedgerClaims.
Local Open Scope string_scope.

(** C3 counterexample.  The import handler takes no opening balance: a
    single deposit of 250 gives the balance 250, where the claimed
    [B + credit - debit] gives 350 for [B = 100].  And it does not round: a
    deposit of 0.001 gives the balance 0.001, whose rounding to two decimals
    is 0. *)
Lemma ledger_opening_balance_and_import_rounding :
  map ins_balance (fst (importCsv (Some [[("credit", "250")]]))) = [ofZ 250]
  /\ roundedStep (ofZ 100) zero (ofZ 250) = ofZ 350
  /\ ofZ 250 <> ofZ 350
  /\ map ins_balance (fst (importCsv (Some [[("credit", "0.001")]])))
     = [decimal_to_number false 1 (-3)]
  /\ round2 (decimal_to_number false 1 (-3)) = zero
  /\ decimal_to_number false 1 (-3) <> zero.
Proof. repeat split; try (vm_compute; reflexivity); vm_compute; discriminate. Qed.

(** C3 (amended).  Neither handler has an opening balance input.  The
    import handler starts from zero and inserts
    [balance[0] = 0 - debit[0] + credit[0]] and
    [balance[i] = balance[i-1] - debit[i] + credit[i]], as computed, with no
    rounding; on the scenario of debits and credits (100, 0), (0, 250),
    (50, 0) it inserts the balances -100, 150, 100.  The row callback of the
    upload handler, whose running balance starts at zero, rounds at every
    step: on a row whose amounts it resolves it replaces the running balance
    by [round2(runningBalance + credit - debit)] and writes it into the row
    it emits, next to the parsed debit and credit; [round2] takes the
    hundredth nearest to the magnitude, the larger one of two. *)
Theorem running_balance_of_the_handlers (rows : list row) :
  let entries := map (fun r => (amountOf "debit" r, amountOf "credit" r)) rows in
  let balance := map ins_balance (fst (importCsv (Some rows))) in
  List.length balance = List.length rows
  /\ nth_error balance 0
     = option_map (fun e => add (sub zero (fst e)) (snd e)) (nth_error entries 0)
  /\ (forall i : nat,
        nth_error balance (S i)
        = match nth_error balance i, nth_error entries (S i) with
          | Some previous, Some e => Some (add (sub previous (fst e)) (snd e))
          | _, _ => None
          end)
  /\ map ins_balance (fst (importCsv (Some scenarioRows)))
     = [ S754_finite true 7036874417766400 (-46);
         S754_finite false 5277655813324800 (-45);
         S754_finite false 7036874417766400 (-46) ]
  /\ runningBalance initialUpload = zero
  /\ (forall (bank : string) (st : uploadState) (r : row) (debit credit : num),
        extractAmounts bank (normalizeRow r) = Returned (debit, credit) ->
        runningBalance (onData bank st r)
        = round2 (sub (add (runningBalance st) credit) debit)
        /\ exists outRow,
             results (onData bank st r) = (results st ++ [outRow])%list
             /\ prop "balance" outRow = JNum (runningBalance (onData bank st r))
             /\ prop "_parsed_debit" outRow = JNum debit
             /\ prop "_parsed_credit" outRow = JNum credit)
  /\ (forall (s : bool) (m : BinNums.positive) (e : Z),
        (e < 0)%Z -> (Z.pos m < 10 ^ 21 * 2 ^ (- e))%Z ->
        exists n : Z,
          round2 (S754_finite s m e) = ratio_to_number s n 100
          /\ (2 * n * 2 ^ (- e) <= 200 * Z.pos m + 2 ^ (- e) < 2 * (n + 1) * 2 ^ (- e))%Z).
Proof.
  intros entries balance.
  assert (balance = runningBalances plainStep zero entries) as B
    by apply importRows_balances.
  split; [rewrite B, runningBalances_length; apply length_map|].
  split; [rewrite B; apply (runningBalances_first plainStep)|].
  split; [intros i; rewrite B; apply (runningBalances_next plainStep)|].
  split; [vm_compute; reflexivity|].
  split; [reflexivity|].
  split.
  - intros bank st r debit credit E. unfold onData. rewrite E. cbn [runningBalance results].
    split; [reflexivity|]. eexists. split; [reflexivity|].
    split; [apply outRow_balance|].
    split; [apply outRow_parsed_debit | apply outRow_parsed_credit].
  - intros s m e E H. pose proof (toFixed2_nearest s m e) as T.
    unfold round2. destruct (toFixed2 (S754_finite s m e)) as [s' n|x].
    + destruct T as [-> T]. exists n. split; [reflexivity|].
      destruct (0 <=? e)%Z eqn:P; [apply Z.leb_le in P; lia | exact T].
    + destruct T as [_ T]. destruct (0 <=? e)%Z eqn:P; [apply Z.leb_le in P; lia | lia].
Qed.

(** C4.  An upload of two rows for the bank PNB, which has a template: the
    handler throws at [csvParser] before a row is read and answers with no
    entry, as it does for every bank that passes its check and every file.
    The import handler, which calls the parser by its name [csv], takes the
    same two rows in order. *)
Theorem upload_reads_no_row :
  uploadStatement "PNB" (Some [[("deposit", "5")]; [("deposit", "7")]])
  = UploadThrown (ReferenceError "csvParser is not defined")
  /\ (forall (bank : string) (rows : list row),
        hasCsvTemplate bank = true ->
        uploadStatement bank (Some rows)
        = UploadThrown (ReferenceError "csvParser is not defined"))
  /\ snd (importCsv (Some [[("deposit", "5")]; [("deposit", "7")]]))
     = ImportOk 2 [[("deposit", "5")]; [("deposit", "7")]]
  /\ List.length (fst (importCsv (Some [[("deposit", "5")]; [("deposit", "7")]]))) = 2%nat.
Proof.
  split; [reflexivity|]. split; [intros bank rows; apply uploadStatement_throws|].
  split; reflexivity.
Qed.

End LedgerClaims.

(** ** Claims on field resolution *)

Section ResolutionClaims.
Local Open Scope string_scope.











End ResolutionClaims.

(** ** The table loop *)

Import Layout LayoutSpec.

Section TableLoop.
Local Open Scope Q_scope.
Variable p : pagination.
Hypothesis continuation_quiet : quiet (continuation p).
Hypothesis continuation_no_totals : totalsOf (continuation p) = [].

Lemma tableRows_cons (index : nat) (tableY : Q) (r : entry) (rest : list entry) :
  let h := rowHeight p index r in
  let breaks := exceeds (tableY + h) (bottomLimit p) in
  let y := if breaks then continuationY p else tableY in
  fst (tableRows p index tableY (r :: rest))
  = ((if breaks then AddPage :: continuation p else [])
     ++ BodyRow index y h :: fst (tableRows p (S index) (y + h) rest))%list.
Proof.
  simpl. destruct (tableRows p (S index) _ rest) as [more endY]. reflexivity.
Qed.

Lemma placedRows_row (index : nat) (tableY : Q) (r : entry) (rest : list entry)
      (suffix : list instr) :
  let h := rowHeight p index r in
  let breaks := exceeds (tableY + h) (bottomLimit p) in
  let y := if breaks then continuationY p else tableY in
  placedRows false (fst (tableRows p index tableY (r :: rest)) ++ suffix)
  = {| p_index := index; p_y := y; p_height := h; p_first := breaks |}
    :: placedRows false (fst (tableRows p (S index) (y + h) rest) ++ suffix).
Proof.
  intros h breaks y. rewrite tableRows_cons. fold h breaks y.
  destruct breaks; simpl; [|reflexivity].
  rewrite <- app_assoc. rewrite continuation_quiet. reflexivity.
Qed.

(** One rectangle per entry, in order, of the height of its row. *)
Lemma placedRows_heights (entries : list entry) (suffix : list instr) :
  (forall flag, placedRows flag suffix = []) ->
  forall (index : nat) (tableY : Q),
    map (fun pl => (p_index pl, p_height pl))
        (placedRows false (fst (tableRows p index tableY entries) ++ suffix))
    = indexedHeights p index entries.
Proof.
  intros S. induction entries as [|r rest IH]; intros index tableY.
  - simpl. now rewrite S.
  - rewrite placedRows_row. simpl. now rewrite IH.
Qed.

Lemma placedRows_wellPlaced (entries : list entry) (suffix : list instr) :
  (forall flag, placedRows flag suffix = []) ->
  forall (index : nat) (tableY : Q),
    Forall (wellPlaced p)
           (placedRows false (fst (tableRows p index tableY entries) ++ suffix)).
Proof.
  intros S. induction entries as [|r rest IH]; intros index tableY.
  - simpl. rewrite S. constructor.
  - rewrite placedRows_row. constructor; [|apply IH].
    unfold wellPlaced. simpl.
    destruct (exceeds (tableY + rowHeight p index r) (bottomLimit p)) eqn:E.
    + split; [reflexivity|]. split; [discriminate | intros H; exact H].
    + assert (tableY + rowHeight p index r <= bottomLimit p) as Fits.
      { unfold exceeds in E. apply negb_false_iff in E. now apply Qle_bool_iff. }
      split; [discriminate|]. split; intros _; exact Fits.
Qed.

Lemma totalsOf_app (s s' : list instr) : totalsOf (s ++ s') = (totalsOf s ++ totalsOf s')%list.
Proof. apply flat_map_app. Qed.

Lemma totalsOf_rows (entries : list entry) :
  forall (index : nat) (tableY : Q), totalsOf (fst (tableRows p index tableY entries)) = [].
Proof.
  pose proof continuation_no_totals as C. unfold totalsOf in *.
  induction entries as [|r rest IH]; intros index tableY; [reflexivity|].
  rewrite tableRows_cons, flat_map_app.
  destruct (exceeds _ _); simpl; [|apply IH].
  rewrite C. simpl. apply IH.
Qed.

End TableLoop.

(** ** The row height rule *)

Section RowHeight.
Local Open Scope Q_scope.

Lemma Qmax_floor (a least : Q) : 0 < least -> Qmax (Qmax 0 a) least = Qmax a least.
Proof.
  intros L.
  assert (a <= 0 -> Qmax 0 least = Qmax a least) as Below.
  { intros B. assert (a < least) as A by (eapply Qle_lt_trans; eauto).
    unfold Qmax, GenericMinMax.gmax.
    rewrite (proj1 (Qlt_alt 0 least) L), (proj1 (Qlt_alt a least) A). reflexivity. }
  destruct (Qcompare 0 a) eqn:C.
  - replace (Qmax 0 a) with 0 by (unfold Qmax, GenericMinMax.gmax; now rewrite C).
    apply Below. apply Qeq_alt in C. rewrite <- C. apply Qle_refl.
  - replace (Qmax 0 a) with a by (unfold Qmax, GenericMinMax.gmax; now rewrite C).
    reflexivity.
  - replace (Qmax 0 a) with 0 by (unfold Qmax, GenericMinMax.gmax; now rewrite C).
    apply Below. apply Qgt_alt in C. now apply Qlt_le_weak.
Qed.

Lemma tallest_monotone (pad : Q) (hs1 hs2 : list Q) :
  Forall2 Qle hs1 hs2 ->
  forall acc1 acc2 : Q, acc1 <= acc2 ->
    fold_left (fun acc h => Qmax acc (h + pad)) hs1 acc1
    <= fold_left (fun acc h => Qmax acc (h + pad)) hs2 acc2.
Proof.
  induction 1 as [|h1 h2 hs1 hs2 H F IH]; intros acc1 acc2 A; simpl; [exact A|].
  apply IH. apply Q.max_le_compat; [exact A|].
  apply Qplus_le_compat; [exact H | apply Qle_refl].
Qed.

Lemma rowHeightFrom_monotone (rule : rowRule) (hs1 hs2 : list Q) :
  Forall2 Qle hs1 hs2 -> rowHeightFrom rule hs1 <= rowHeightFrom rule hs2.
Proof.
  intros F. unfold rowHeightFrom.
  pose proof (tallest_monotone (cellPadding rule) hs1 hs2 F 0 0 (Qle_refl 0)) as T.
  destruct (minimumRowHeight rule) as [least|]; [|exact T].
  apply Q.max_le_compat; [exact T | apply Qle_refl].
Qed.

End RowHeight.

(** ** The templates *)

Section TemplateFacts.
Local Open Scope Q_scope.
Variables (pageHeight docY : Q) (heightOfString : nat -> text -> Q -> Q).

Lemma continuation_quiet (b : bankId) (a : accountProfile) : quiet (continuation (paginationOf pageHeight heightOfString b a)).
Proof. destruct b; intros flag rest; reflexivity. Qed.

Lemma continuation_no_totals (b : bankId) (a : accountProfile) :
  totalsOf (continuation (paginationOf pageHeight heightOfString b a)) = [].
Proof. destruct b; reflexivity. Qed.

(** Every template draws its rows with the table loop, between a block that
    draws no row and one that draws none either. *)
Lemma template_rows (b : bankId) (a : accountProfile) (entries : list entry) :
  exists (tableY : Q) (suffix : list instr),
    (forall flag, placedRows flag suffix = []) /\
    placedRows false (template pageHeight docY heightOfString b a entries)
    = placedRows false (fst (tableRows (paginationOf pageHeight heightOfString b a) 0 tableY entries) ++ suffix).
Proof.
  destruct b; unfold template, paginationOf,
    PNB, BANDHAN, CENTRAL, ICICI, SBI, AXIS, HDFC, IDFC; cbn [placedRows].
  - eexists _, []. split; [reflexivity|]. now rewrite app_nil_r.
  - eexists _, [Totals (BANDHAN_totals entries)]. split; reflexivity.
  - eexists _, []. split; [reflexivity|]. now rewrite app_nil_r.
  - destruct (tableRows _ 0%nat _ entries) as [rows yPos] eqn:E.
    cbn [placedRows].
    eexists _, ((if exceeds (yPos + 20) (pageHeight - 250) then [AddPage] else [])
                ++ [Totals (ICICI_totals a entries)])%list.
    split; [|rewrite E; reflexivity].
    intros flag. destruct (exceeds _ _); reflexivity.
  - eexists _, []. split; [reflexivity|]. now rewrite app_nil_r.
  - eexists _, [Totals (AXIS_totals a entries)]. split; reflexivity.
  - eexists _, [Totals (HDFC_totals a entries)]. split; reflexivity.
  - eexists _, []. split; [reflexivity|]. now rewrite app_nil_r.
Qed.

Lemma template_totals (b : bankId) (a : accountProfile) (entries : list entry) :
  totalsOf (template pageHeight docY heightOfString b a entries) = templateTotals b a entries.
Proof.
  pose proof (fun i y => totalsOf_rows (paginationOf pageHeight heightOfString b a) (continuation_no_totals b a) entries i y) as R.
  destruct b; unfold template, paginationOf,
    PNB, BANDHAN, CENTRAL, ICICI, SBI, AXIS, HDFC, IDFC in *;
    try (destruct (tableRows _ 0%nat _ entries) as [rows yPos] eqn:E;
         specialize (R 0%nat (docY + 10 + 20)); rewrite E in R; simpl in R);
    unfold totalsOf in *; cbn [flat_map app];
    rewrite ?flat_map_app, ?R; try reflexivity.
  destruct (exceeds _ _); reflexivity.
Qed.

End TemplateFacts.

(** ** Claims on the layout *)

Section LayoutClaims.
Local Open Scope Q_scope.

(** C7 counterexample.  PNB with a narration measured at 20 units: the row
    is 28 units high, the measured height and the padding of 8, where the
    larger of the measured height and the minimum of 22 is 22.  ICICI with
    every cell measured at 9.248 units: the row is 15.248 units high, below
    18; that template has no minimum. *)
Lemma row_height_adds_padding :
  map p_height (placedRows false (template A4_height 0 flat20 B_PNB [] [[]])) = [28]
  /\ Qmax 20 22 = 22
  /\ ~ 28 == 22
  /\ map p_height (placedRows false (template A4_height 0 oneLine8pt B_ICICI [] [[]]))
     = [15.248]
  /\ 15.248 < 18.
Proof.
  split; [vm_compute; reflexivity|]. split; [vm_compute; reflexivity|].
  split; [intros H; vm_compute in H; discriminate H|].
  split; vm_compute; reflexivity.
Qed.

(** C7 (amended).  Every template emits one table row per entry, in order,
    and the height of the row is fixed by the measured text heights of the
    cells the template measures: the tallest of the measured heights, each
    with the cell padding of the template (6 to 10 units) added, and no less
    than the minimum row height of the template.  With one measured cell that
    is [max(measured + padding, minimum)].  Seven templates declare a
    minimum, between 18 and 28 units; ICICI declares none.  The row height is
    monotonic in the measured heights. *)
Theorem row_height_rule (pageHeight docY : Q) (heightOfString : nat -> text -> Q -> Q)
        (b : bankId) (a : accountProfile) (entries : list entry) :
  map (fun pl => (p_index pl, p_height pl))
      (placedRows false (template pageHeight docY heightOfString b a entries))
  = indexedHeights (paginationOf pageHeight heightOfString b a) 0 entries
  /\ (forall (i : nat) (r : entry),
        rowHeight (paginationOf pageHeight heightOfString b a) i r
        = rowHeightFrom (rowRuleOf b)
            (map (fun cw => heightOfString i (fst cw) (snd cw)) (measuredCells b r)))
  /\ (forall measured least : Q,
        minimumRowHeight (rowRuleOf b) = Some least ->
        rowHeightFrom (rowRuleOf b) [measured]
        = Qmax (measured + cellPadding (rowRuleOf b)) least)
  /\ (forall hs1 hs2 : list Q,
        Forall2 Qle hs1 hs2 ->
        rowHeightFrom (rowRuleOf b) hs1 <= rowHeightFrom (rowRuleOf b) hs2)
  /\ match minimumRowHeight (rowRuleOf b) with
     | Some least => 18 <= least /\ least <= 28
     | None => b = B_ICICI
     end
  /\ 6 <= cellPadding (rowRuleOf b) /\ cellPadding (rowRuleOf b) <= 10.
Proof.
  split.
  { destruct (template_rows pageHeight docY heightOfString b a entries)
      as (tableY & suffix & S & ->).
    apply placedRows_heights; [apply continuation_quiet | exact S]. }
  split.
  { intros i r.
    destruct b; try reflexivity;
      unfold rowHeightFrom; cbn; symmetry; apply Qmax_floor; reflexivity. }
  split.
  { intros measured least E. unfold rowHeightFrom. rewrite E. cbn [fold_left].
    apply Qmax_floor. destruct b; inversion E; reflexivity. }
  split; [intros hs1 hs2; apply rowHeightFrom_monotone|].
  destruct b; cbn; repeat split; discriminate.
Qed.

(** C8 counterexample.  IDFC on an A4 page, the text of the second entry
    measured at 1000 units: the row is placed at 40 after a page advance and
    is 1008 units high, so it ends at 1048, past the bottom limit of
    761.89. *)
Lemma tall_row_overruns_the_page :
  placedRows false (template A4_height 0 tallSecondRow B_IDFC [] [[]; []])
  = [ {| p_index := 0; p_y := 272; p_height := 28; p_first := false |};
      {| p_index := 1; p_y := 40; p_height := 1008; p_first := true |} ]
  /\ bottomLimit (paginationOf A4_height tallSecondRow B_IDFC []) = 841.89 - 80
  /\ exceeds (40 + 1008) (841.89 - 80) = true.
Proof. repeat split; vm_compute; reflexivity. Qed.

(** C8 (amended).  In every generated document, a table row that is the
    first after a page advance starts at exactly the position where the
    template continues its table - the continuation offset, below the
    redrawn table header where the template redraws one; a row that is not
    the first after a page advance ends at or above the bottom limit of the
    page; and every table row whose height fits between the continuation
    position and the bottom limit ends at or above the bottom limit: the page
    is advanced before a row that would cross it.  A row taller than that is
    still drawn, from the continuation position. *)
Theorem rows_above_bottom_limit (pageHeight docY : Q)
        (heightOfString : nat -> text -> Q -> Q)
        (b : bankId) (a : accountProfile) (entries : list entry) :
  Forall (wellPlaced (paginationOf pageHeight heightOfString b a))
         (placedRows false (template pageHeight docY heightOfString b a entries)).
Proof.
  destruct (template_rows pageHeight docY heightOfString b a entries)
    as (tableY & suffix & S & ->).
  apply placedRows_wellPlaced; [apply continuation_quiet | exact S].
Qed.

End LayoutClaims.

(** ** Claims on the totals and on the dispatch *)

Section TotalsClaims.
Local Open Scope string_scope.

Lemma sumWhere_sumOf (test : jsval -> bool) (k : string) (entries : list entry) :
  sumWhere test k entries = sumOf test k entries.
Proof.
  unfold sumWhere, sumOf. generalize zero as acc.
  induction entries as [|e rest IH]; intros acc; simpl; [reflexivity|].
  destruct (test (prop k e)); simpl; apply IH.
Qed.

Lemma hd_error_rev {A} (l : list A) :
  hd_error (rev l) = nth_error l (List.length l - 1).
Proof.
  induction l as [|x l _] using rev_ind; [reflexivity|].
  rewrite rev_app_distr, length_app. simpl.
  rewrite Nat.add_sub, nth_error_app2 by apply Nat.le_refl.
  now rewrite Nat.sub_diag.
Qed.

(** C9 counterexample.  IDFC with two entries whose debits sum to 100 and
    credits to 250 and an account block without figures: all four figures
    read 0.00.  PNB shows no totals at all. *)
Lemma idfc_totals_ignore_the_entries :
  totalsOf (template A4_height 0 flat20 B_IDFC []
              [ [("debit", JNum (ofZ 100)); ("credit", JNum zero); ("balance", JNum (neg (ofZ 100)))];
                [("debit", JNum zero); ("credit", JNum (ofZ 250)); ("balance", JNum (ofZ 150))] ])
  = [ {| openingBalance := Some (lit "0.00"); totalDebit := Some (lit "0.00");
         totalCredit := Some (lit "0.00"); closingBalance := Some (lit "0.00") |} ]
  /\ sumOf truthy "debit"
       [ [("debit", JNum (ofZ 100)); ("credit", JNum zero); ("balance", JNum (neg (ofZ 100)))];
         [("debit", JNum zero); ("credit", JNum (ofZ 250)); ("balance", JNum (ofZ 150))] ]
     = ofZ 100
  /\ totalsOf (template A4_height 0 flat20 B_PNB []
                 [ [("debit", JNum (ofZ 100)); ("credit", JNum zero)] ]) = [].
Proof. repeat split; vm_compute; reflexivity. Qed.

(** C9 (amended).  The figures a template shows are fixed by the account
    block and the full entry sequence and do not depend on how the rows fall
    across pages.  BANDHAN computes all four from the entries: the balances
    of the first and the last entry, and the sums of the positive credits and
    of the positive debits.  AXIS shows the opening and closing balance of
    the account block (with fixed texts in their absence) and the two totals
    of the account block, or, when one of the two is missing, the sums of
    the debits and of the credits of all entries.  IDFC shows the four
    figures of the account block, 0.00 for a missing one, whatever the
    entries are. *)
Theorem totals_from_entries_or_account
        (pageHeight docY : Q) (heightOfString : nat -> text -> Q -> Q)
        (pageHeight' docY' : Q) (heightOfString' : nat -> text -> Q -> Q)
        (b : bankId) (a : accountProfile) (entries entries' : list entry) :
  totalsOf (template pageHeight docY heightOfString b a entries)
  = totalsOf (template pageHeight' docY' heightOfString' b a entries)
  /\ totalsOf (template pageHeight docY heightOfString B_BANDHAN a entries)
     = [ {| openingBalance := Some (inr (balanceAt (nth_error entries 0)));
            totalDebit := Some (inr (sumOf positive "debit" entries));
            totalCredit := Some (inr (sumOf positive "credit" entries));
            closingBalance :=
              Some (inr (balanceAt (nth_error entries (List.length entries - 1)))) |} ]
  /\ totalsOf (template pageHeight docY heightOfString B_AXIS a entries)
     = [ {| openingBalance := Some (TVal (orElse (attr "opening_balance" a) (JStr "200.30")));
            totalDebit := None; totalCredit := None; closingBalance := None |};
         {| openingBalance := None;
            totalDebit :=
              Some (if truthy (attr "total_debit" a) && truthy (attr "total_credit" a)
                    then TVal (attr "total_debit" a)
                    else TFixed (toFixed2 (sumOf truthy "debit" entries)));
            totalCredit :=
              Some (if truthy (attr "total_debit" a) && truthy (attr "total_credit" a)
                    then TVal (attr "total_credit" a)
                    else TFixed (toFixed2 (sumOf truthy "credit" entries)));
            closingBalance :=
              Some (TVal (orElse (attr "closing_balance" a) (JStr "3843.00"))) |} ]
  /\ totalsOf (template pageHeight docY heightOfString B_IDFC a entries)
     = [ {| openingBalance := Some (TVal (orElse (attr "opening_balance" a) (JStr "0.00")));
            totalDebit := Some (TVal (orElse (attr "total_debit" a) (JStr "0.00")));
            totalCredit := Some (TVal (orElse (attr "total_credit" a) (JStr "0.00")));
            closingBalance := Some (TVal (orElse (attr "closing_balance" a) (JStr "0.00"))) |} ]
  /\ totalsOf (template pageHeight docY heightOfString B_IDFC a entries)
     = totalsOf (template pageHeight docY heightOfString B_IDFC a entries').
Proof.
  rewrite !template_totals. split; [reflexivity|]. split.
  { cbn [templateTotals]. unfold BANDHAN_totals.
    rewrite !sumWhere_sumOf, hd_error_rev. now destruct entries. }
  split.
  { cbn [templateTotals]. unfold AXIS_opening, AXIS_totals, accountOrSums.
    rewrite !sumWhere_sumOf.
    destruct (truthy (attr "total_debit" a)), (truthy (attr "total_credit" a)); reflexivity. }
  split; reflexivity.
Qed.

(** C1 counterexample.  The identifier XYZ names no template: the handler
    returns a document of three texts, and throws nothing.  A request without
    an identifier is drawn with the PNB template. *)
Lemma unknown_bank_gets_the_sample_document :
  generatePdf A4_height 0 flat20
    {| bank := Some "XYZ"; account := AccountMissing; transactions := Some [] |}
  = Returned [ PlaceText (lit "Bank Statement (Sample)");
               PlaceText (TCat (lit "Name: ") (TVal (JStr "")));
               PlaceText (TCat (lit "Account No.: ") (TVal (JStr ""))) ]
  /\ lookup "XYZ" bankTemplates = None
  /\ generatePdf A4_height 0 flat20
       {| bank := None; account := AccountMissing; transactions := Some [] |}
     = Returned (template A4_height 0 flat20 B_PNB [] []).
Proof. repeat split; vm_compute; reflexivity. Qed.

Lemma checkInvalidHeaderChar_app (a b : string) :
  checkInvalidHeaderChar (a ++ b)
  = checkInvalidHeaderChar a || checkInvalidHeaderChar b.
Proof.
  induction a as [|c a IH]; cbn [append checkInvalidHeaderChar]; [reflexivity|].
  now rewrite IH, orb_assoc.
Qed.

(** The header is refused exactly when the identifier holds a character
    that a header value may not hold. *)
Lemma contentDisposition_invalid (bank : string) :
  checkInvalidHeaderChar (contentDisposition bank) = checkInvalidHeaderChar bank.
Proof.
  unfold contentDisposition. rewrite !checkInvalidHeaderChar_app.
  change (checkInvalidHeaderChar "attachment; filename=") with false.
  change (checkInvalidHeaderChar "-statement.pdf") with false.
  now rewrite orb_false_r.
Qed.

(** C1 (amended).  A generation request whose institution identifier holds
    only characters that may stand in a header value, and is neither a key
    of the template registry nor the name of a member every object inherits,
    does not fail: the handler returns the sample document - its title and,
    unless the account is null, the name and the account number - which
    holds texts only, so that no template of a bank is drawn.  An identifier
    with any other character, a line feed say, makes the handler throw
    before anything is drawn.  The identifier of a request that gives none
    is PNB. *)
Theorem generatePdf_unknown_bank
        (pageHeight docY : Q) (heightOfString : nat -> text -> Q -> Q) (req : request)
        (Hchars : checkInvalidHeaderChar (bankOrDefault req) = false)
        (Hown : lookup (bankOrDefault req) bankTemplates = None)
        (Hinherited : inherited (bankOrDefault req) = false) :
  generatePdf pageHeight docY heightOfString req
  = Returned (sampleDocument (accountOrDefault req))
  /\ Forall isPlaceText (sampleDocument (accountOrDefault req))
  /\ hd_error (sampleDocument (accountOrDefault req))
     = Some (PlaceText (lit "Bank Statement (Sample)"))
  /\ (bank req = None -> bankOrDefault req = "PNB")
  /\ (forall other : request,
        checkInvalidHeaderChar (bankOrDefault other) = true ->
        generatePdf pageHeight docY heightOfString other = Thrown invalidHeader)
  /\ generatePdf pageHeight docY heightOfString
       {| bank := Some ("XYZ" ++ newline); account := AccountMissing;
          transactions := Some [] |}
     = Thrown invalidHeader.
Proof.
  split.
  { unfold generatePdf. now rewrite contentDisposition_invalid, Hchars, Hown, Hinherited. }
  split; [destruct (accountOrDefault req); repeat constructor|].
  split; [reflexivity|].
  split; [intros N; unfold bankOrDefault; now rewrite N|].
  split; [|reflexivity].
  intros other H. unfold generatePdf. now rewrite contentDisposition_invalid, H.
Qed.

(** The request for XYZ with an account of one name. *)
Lemma generatePdf_unknown_bank_witness :
  checkInvalidHeaderChar "XYZ" = false
  /\ lookup "XYZ" bankTemplates = None
  /\ inherited "XYZ" = false
  /\ generatePdf A4_height 0 flat20
       {| bank := Some "XYZ"; account := AccountRecord [("name", "A")];
          transactions := None |}
     = Returned (sampleDocument (Some [("name", "A")])).
Proof.
  split; [reflexivity|]. split; [reflexivity|]. split; [reflexivity|].
  exact (proj1 (generatePdf_unknown_bank A4_height 0 flat20
                  {| bank := Some "XYZ"; account := AccountRecord [("name", "A")];
                     transactions := None |} eq_refl eq_refl eq_refl)).
Defined.

End TotalsClaims.

(* ================================================================== *)
(** * The other handlers, the cells and the form *)
(* ================================================================== *)

Import Handlers HandlerSpec Cells TableSpec.

(** ** The schema and the blank templates *)

Section Schema.
Local Open Scope string_scope.

Lemma includes_app (k : string) (l l' : list string) :
  includes k (l ++ l')%list = includes k l || includes k l'.
Proof. apply existsb_app. Qed.

(** X1.  [ensureEntryColumns] adds exactly the columns among [cheque_no],
    [narration] and [value_date] that the table lacks, each once; run again
    on the table with the added columns it adds nothing; it adds nothing to a
    table made by the [CREATE TABLE] statement of the file, nothing when the
    pragma fails, and all three when the pragma gives no rows. *)
Theorem ensureEntryColumns_adds_the_missing (names : list string) :
  let added := map addColumn (ensureEntryColumns (PragmaRows (Some names))) in
  (forall k : string,
      In k added
      <-> In k ["cheque_no"; "narration"; "value_date"] /\ includes k names = false)
  /\ NoDup added
  /\ Forall (fun s => columnType s = "TEXT") (ensureEntryColumns (PragmaRows (Some names)))
  /\ ensureEntryColumns (PragmaRows (Some (names ++ added)%list)) = []
  /\ ensureEntryColumns (PragmaRows (Some entriesColumns)) = []
  /\ ensureEntryColumns PragmaError = []
  /\ map addColumn (ensureEntryColumns (PragmaRows None))
     = ["cheque_no"; "narration"; "value_date"].
Proof.
  cbv zeta. unfold ensureEntryColumns.
  rewrite !includes_app.
  destruct (includes "cheque_no" names) eqn:E1, (includes "narration" names) eqn:E2,
           (includes "value_date" names) eqn:E3;
    cbn [negb app map addColumn orb];
    (split;
     [ intros k; split;
       [ intros H; cbn [In] in H; cbn [In];
         repeat (destruct H as [H|H]; [subst k; auto 6|]); contradiction
       | intros [H F]; cbn [In] in H; cbn [In];
         repeat (destruct H as [H|H]; [subst k; try congruence; auto 6|]); contradiction ]
     | ]);
    (split; [repeat constructor; cbn [In]; intuition discriminate|]);
    (split; [repeat constructor|]);
    repeat split; reflexivity.
Qed.

End Schema.

Section BlankTemplates.
Local Open Scope string_scope.

Lemma lookup_Some_In {A} (k : string) (v : A) (o : jsobj A) :
  lookup k o = Some v -> In (k, v) o.
Proof.
  induction o as [|[k0 v0] o IH]; simpl; [discriminate|].
  destruct (String.eqb k0 k) eqn:E.
  - apply String.eqb_eq in E. intros [= ->]. subst. now left.
  - intros H. right. now apply IH.
Qed.

(** X2.  The download of a blank template and the upload of a statement
    accept the same banks.  A refused download names the eight banks of
    [csvTemplates], and each of them is served its own template.  The
    template served for a bank of [csvTemplates] is one header line, the
    column names joined by commas, whose last column is [balance]. *)
Theorem download_serves_the_upload_banks (bank : string) :
  ((exists error banks, downloadCsvTemplate bank = DownloadBadRequest error banks)
   <-> forall rows : list row,
         uploadStatement bank (Some rows) = UploadBadRequest "Unsupported bank")
  /\ (forall error banks,
        downloadCsvTemplate bank = DownloadBadRequest error banks ->
        error = "Invalid bank selection"
        /\ banks = ["PNB"; "BANDHAN"; "CENTRAL"; "ICICI"; "SBI"; "AXIS"; "HDFC"; "IDFC"]
        /\ Forall (fun b =>
                     exists csvContent,
                       lookup b csvTemplates = Some csvContent
                       /\ downloadCsvTemplate b
                          = DownloadFile "text/csv"
                              ("attachment; filename=" ++ quote ++ b
                               ++ "_Statement_Template.csv" ++ quote)
                              (OwnTemplate csvContent))
                  banks)
  /\ (forall csvContent,
        lookup bank csvTemplates = Some csvContent ->
        downloadCsvTemplate bank
        = DownloadFile "text/csv"
            ("attachment; filename=" ++ quote ++ bank ++ "_Statement_Template.csv" ++ quote)
            (OwnTemplate csvContent)
        /\ String.concat "," (headerColumns csvContent) ++ newline = csvContent
        /\ last (headerColumns csvContent) "" = "balance").
Proof.
  split; [|split].
  - unfold downloadCsvTemplate, uploadStatement.
    destruct (hasCsvTemplate bank); cbn [negb]; split.
    + intros (error & banks & H). discriminate H.
    + intros H. specialize (H []). discriminate H.
    + reflexivity.
    + eauto.
  - unfold downloadCsvTemplate. destruct (hasCsvTemplate bank); cbn [negb]; [discriminate|].
    intros error banks [= <- <-]. split; [reflexivity|]. split; [reflexivity|].
    repeat constructor; eexists; split; reflexivity.
  - intros csvContent H. apply lookup_Some_In in H. cbn [csvTemplates In] in H.
    repeat (destruct H as [H|H]; [inversion H; subst; clear H; repeat split; reflexivity|]).
    contradiction.
Qed.

(** X3.  A name every object inherits from [Object.prototype] passes for a
    bank in the three handlers that look a bank up: it is no key of
    [csvTemplates], yet the download answers with the inherited member; the
    upload does not refuse the file as one for an unsupported bank but goes
    on to build its stream, where it throws as it does for a bank, and the
    [switch] of its row callback has no case for the name and takes the
    generic fallback; and the generation calls the member in place of a
    template, which draws nothing or throws.  Conversely a bank that is no
    key of [csvTemplates] and that the upload does not refuse is such a
    name. *)
Theorem inherited_names_pass_for_banks (name : string)
        (Hname : inherited name = true) :
  lookup name csvTemplates = None
  /\ downloadCsvTemplate name
     = DownloadFile "text/csv"
         ("attachment; filename=" ++ quote ++ name ++ "_Statement_Template.csv" ++ quote)
         (InheritedMember name)
  /\ (forall rows : list row,
        uploadStatement name (Some rows)
        = UploadThrown (ReferenceError "csvParser is not defined"))
  /\ (forall normalizedRow : row,
        extractAmounts name normalizedRow
        = direct normalizedRow ["debit"; "withdrawal"; "withdrawals"]
                 ["credit"; "deposit"; "deposits"])
  /\ (forall (pageHeight docY : Q) (heightOfString : nat -> text -> Q -> Q) (req : request),
        Layout.bank req = Some name ->
        generatePdf pageHeight docY heightOfString req = Returned []
        \/ exists e, generatePdf pageHeight docY heightOfString req = Thrown e)
  /\ (forall (bank : string) (rows : list row),
        lookup bank csvTemplates = None ->
        uploadStatement bank (Some rows) <> UploadBadRequest "Unsupported bank" ->
        inherited bank = true).
Proof.
  assert (In name objectPrototypeNames) as I.
  { unfold inherited in Hname. apply existsb_exists in Hname as (k & I & E).
    apply String.eqb_eq in E. now subst k. }
  split; [|split; [|split; [|split; [|split]]]].
  6: { intros bank rows N H. unfold uploadStatement, hasCsvTemplate in H.
       rewrite N in H. destruct (inherited bank); [reflexivity | now elim H]. }
  all: cbn [objectPrototypeNames In] in I;
    repeat (destruct I as [I|I]; [subst name|]); try contradiction.
  all: try reflexivity.
  all: intros pageHeight docY heightOfString req B;
    unfold generatePdf; rewrite contentDisposition_invalid;
    unfold bankOrDefault; rewrite B;
    change (checkInvalidHeaderChar _) with false;
    cbv beta iota zeta; cbn [lookup bankTemplates String.eqb Ascii.eqb Bool.eqb];
    cbn; eauto.
Qed.

(** The name [constructor]. *)
Lemma inherited_names_pass_for_banks_witness :
  inherited "constructor" = true
  /\ downloadCsvTemplate "constructor"
     = DownloadFile "text/csv"
         ("attachment; filename=" ++ quote ++ "constructor_Statement_Template.csv" ++ quote)
         (InheritedMember "constructor").
Proof.
  split; [reflexivity|].
  exact (proj1 (proj2 (inherited_names_pass_for_banks "constructor" eq_refl))).
Defined.

End BlankTemplates.

(** ** The row of the upload handler *)

Section NormalizedRow.
Local Open Scope string_scope.

Lemma hasOwn_true_In {A} (k : string) (o : jsobj A) : hasOwn k o = true -> In k (keys o).
Proof.
  unfold hasOwn. induction o as [|[k0 v0] o IH]; simpl; [discriminate|].
  destruct (String.eqb k0 k) eqn:E.
  - apply String.eqb_eq in E. now left.
  - intros H. right. now apply IH.
Qed.

Lemma hasOwn_notIn {A} (k : string) (o : jsobj A) : ~ In k (keys o) -> hasOwn k o = false.
Proof.
  intros N. destruct (hasOwn k o) eqn:H; [|reflexivity].
  exfalso. now apply N, hasOwn_true_In.
Qed.

Lemma keys_replaceOwn {A} (k : string) (v : A) (o : jsobj A) :
  keys (replaceOwn k v o) = keys o.
Proof.
  induction o as [|[k0 v0] o IH]; simpl; [reflexivity|].
  destruct (String.eqb k0 k); simpl; [reflexivity | now rewrite IH].
Qed.

Lemma In_keys_insertIndexed {A} (n : Z) (k : string) (v : A) (o : jsobj A) (x : string) :
  In x (keys (insertIndexed n k v o)) <-> x = k \/ In x (keys o).
Proof.
  induction o as [|[k0 v0] o IH]; simpl; [intuition|].
  destruct (arrayIndex k0) as [n'|]; [destruct (n' <? n)%Z|]; simpl; try rewrite IH; intuition.
Qed.

Lemma NoDup_keys_insertIndexed {A} (n : Z) (k : string) (v : A) (o : jsobj A) :
  ~ In k (keys o) -> NoDup (keys o) -> NoDup (keys (insertIndexed n k v o)).
Proof.
  induction o as [|[k0 v0] o IH]; simpl; intros N D.
  - constructor; [tauto | constructor].
  - inversion D as [|? ? N0 D0]; subst.
    destruct (arrayIndex k0) as [n'|]; [destruct (n' <? n)%Z|]; simpl.
    + constructor; [|apply IH; tauto].
      rewrite In_keys_insertIndexed. intuition.
    + constructor; [simpl; tauto | exact D].
    + constructor; [simpl; tauto | exact D].
Qed.

Lemma NoDup_keys_defineOwn {A} (k : string) (v : A) (o : jsobj A) :
  NoDup (keys o) -> NoDup (keys (defineOwn k v o)).
Proof.
  intros D. unfold defineOwn. destruct (hasOwn k o) eqn:H.
  - now rewrite keys_replaceOwn.
  - assert (~ In k (keys o)) as N.
    { intros I. apply hasOwn_In in I. congruence. }
    destruct (arrayIndex k) as [n|]; [now apply NoDup_keys_insertIndexed|].
    unfold keys. rewrite map_app. simpl.
    apply NoDup_app; [exact D | repeat constructor; tauto |].
    intros x I [<-|[]]. now apply N.
Qed.

Lemma NoDup_keys_assign {A} (k : string) (v : A) (o : jsobj A) :
  NoDup (keys o) -> NoDup (keys (assign k v o)).
Proof.
  intros D. unfold assign. destruct (String.eqb k "__proto__"); [exact D|].
  now apply NoDup_keys_defineOwn.
Qed.

Lemma lookup_assign (k k' v : string) (o : row) :
  k <> "__proto__" ->
  lookup k (assign k' v o) = if String.eqb k' k then Some v else lookup k o.
Proof.
  intros N. destruct (String.eqb k' k) eqn:E.
  - apply String.eqb_eq in E. subst k'. now apply lookup_assign_same.
  - apply lookup_assign_other. apply String.eqb_neq in E. congruence.
Qed.

Lemma lookup_proto_assign (k' v : string) (o : row) :
  lookup "__proto__" (assign k' v o) = lookup "__proto__" o.
Proof.
  unfold assign. destruct (String.eqb k' "__proto__") eqn:E; [reflexivity|].
  apply lookup_defineOwn_other. apply String.eqb_neq in E. congruence.
Qed.

Lemma lastTrimmed_In (k : string) (r : row) :
  forall (found : option string) (s : string),
    fold_left (fun found kv => if String.eqb (trim (fst kv)) k then Some (snd kv) else found)
              r found = Some s ->
    found = Some s \/ exists k0, In (k0, s) r /\ trim k0 = k.
Proof.
  induction r as [|[k0 v0] r IH]; simpl; intros found s H; [now left|].
  apply IH in H as [H | (k1 & I & T)].
  - destruct (String.eqb (trim k0) k) eqn:E; [|now left].
    apply String.eqb_eq in E. injection H as <-. right. eauto.
  - right. eauto.
Qed.

Lemma normalize_lookup (k : string) (r : row) :
  k <> "__proto__" ->
  forall acc : row,
    lookup k (fold_left (fun acc kv => assign (trim (fst kv)) (snd kv) acc) r acc)
    = fold_left (fun found kv => if String.eqb (trim (fst kv)) k then Some (snd kv) else found)
                r (lookup k acc).
Proof.
  intros N. induction r as [|[k0 v0] r IH]; intros acc; simpl; [reflexivity|].
  now rewrite IH, lookup_assign.
Qed.

Lemma normalize_NoDup (r : row) :
  forall acc : row,
    NoDup (keys acc) ->
    NoDup (keys (fold_left (fun acc kv => assign (trim (fst kv)) (snd kv) acc) r acc)).
Proof.
  induction r as [|[k0 v0] r IH]; intros acc D; simpl; [exact D|].
  apply IH. now apply NoDup_keys_assign.
Qed.

Lemma normalize_proto (r : row) :
  forall acc : row,
    lookup "__proto__" acc = None ->
    lookup "__proto__" (fold_left (fun acc kv => assign (trim (fst kv)) (snd kv) acc) r acc)
    = None.
Proof.
  induction r as [|[k0 v0] r IH]; intros acc H; simpl; [exact H|].
  apply IH. now rewrite lookup_proto_assign.
Qed.

Lemma normalize_plain (r : row) :
  forall acc : row,
    NoDup (keys acc ++ keys r)%list ->
    Forall (fun k => trim k = k /\ k <> "__proto__" /\ arrayIndex k = None) (keys r) ->
    fold_left (fun acc kv => assign (trim (fst kv)) (snd kv) acc) r acc = (acc ++ r)%list.
Proof.
  induction r as [|[k0 v0] r IH]; intros acc D F; simpl; [now rewrite app_nil_r|].
  simpl in D, F. inversion F as [|? ? (T & P & X) F']; subst.
  assert (assign (trim k0) v0 acc = (acc ++ [(k0, v0)])%list) as ->.
  { rewrite T. unfold assign. apply String.eqb_neq in P. rewrite P.
    unfold defineOwn. rewrite hasOwn_notIn, X; [reflexivity|].
    intros I. apply NoDup_remove_2 in D. apply D. apply in_or_app. now left. }
  rewrite IH; [now rewrite <- app_assoc | | exact F'].
  unfold keys in *. rewrite map_app, <- app_assoc. exact D.
Qed.

(** X4.  The normalized row of the upload handler has each column under its
    trimmed name, once: a cell is read under the trimmed name of its column,
    and where the names of several columns trim to the same text the last of
    them gives the cell.  A column whose trimmed name is [__proto__] is
    dropped.  A row whose column names are distinct and trimmed, none of them
    [__proto__] or an array index, is left as it is. *)
Theorem normalizeRow_trims_last_wins (r : row) :
  NoDup (keys (normalizeRow r))
  /\ (forall k : string, k <> "__proto__" -> lookup k (normalizeRow r) = lastTrimmed k r)
  /\ lookup "__proto__" (normalizeRow r) = None
  /\ (forall k : string,
        In k (keys (normalizeRow r)) -> exists k0, In k0 (keys r) /\ trim k0 = k)
  /\ (NoDup (keys r) ->
      Forall (fun k => trim k = k /\ k <> "__proto__" /\ arrayIndex k = None) (keys r) ->
      normalizeRow r = r).
Proof.
  assert (lookup "__proto__" (normalizeRow r) = None) as P
    by (apply normalize_proto; reflexivity).
  assert (forall k : string, k <> "__proto__" -> lookup k (normalizeRow r) = lastTrimmed k r)
    as L by (intros k N; now apply (normalize_lookup k r N [])).
  split; [apply normalize_NoDup; constructor|].
  split; [exact L|]. split; [exact P|]. split.
  - intros k I. apply hasOwn_In in I. unfold hasOwn in I.
    destruct (lookup k (normalizeRow r)) as [s|] eqn:E; [|discriminate].
    assert (k <> "__proto__") as N by (intros ->; congruence).
    rewrite (L k N) in E. apply lastTrimmed_In in E as [E | (k0 & I0 & T)]; [discriminate|].
    exists k0. split; [|exact T]. apply (in_map fst) in I0. exact I0.
  - intros D F. unfold normalizeRow. now rewrite normalize_plain.
Qed.

End NormalizedRow.

Section FieldLookup.
Local Open Scope string_scope.

Lemma In_keys_lookup {A} (k : string) (o : jsobj A) :
  In k (keys o) -> exists v, lookup k o = Some v.
Proof.
  intros I. apply hasOwn_In in I. unfold hasOwn in I.
  destruct (lookup k o) as [v|]; [eauto | discriminate].
Qed.

Lemma matchCandidate_Some (r : row) (c k : string) :
  matchCandidate r c = Some k ->
  In k (keys r) /\ toLowerCase k = toLowerCase c.
Proof.
  unfold matchCandidate. destruct (find (String.eqb c) (keys r)) as [k'|] eqn:F.
  - intros [= <-]. apply find_some in F as [I E]. apply String.eqb_eq in E. now subst.
  - intros H. apply find_some in H as [I E]. apply String.eqb_eq in E. now split.
Qed.

Lemma matchCandidate_None (r : row) (c : string) :
  matchCandidate r c = None <->
  forall k, In k (keys r) -> toLowerCase k <> toLowerCase c.
Proof.
  unfold matchCandidate. split.
  - destruct (find (String.eqb c) (keys r)); [discriminate|].
    intros F k I. apply (find_none _ _ F) in I. now apply String.eqb_neq.
  - intros N. destruct (find (String.eqb c) (keys r)) as [k|] eqn:F.
    + apply find_some in F as [I E]. apply String.eqb_eq in E. subst k.
      now destruct (N c I).
    + destruct (find (fun k => String.eqb (toLowerCase k) (toLowerCase c)) (keys r))
        as [k|] eqn:F'; [|reflexivity].
      apply find_some in F' as [I E]. apply String.eqb_eq in E. now destruct (N k I).
Qed.

(** X5.  On a row that has no column named [hasOwnProperty], [getVal]
    returns for the first candidate that some column matches when case is
    ignored: the cell of the column of exactly that name where there is one,
    the cell of a column that matches without regard to case otherwise; the
    later candidates are not consulted.  It returns [undefined] exactly when
    no candidate matches any column, whatever the case, and never returns
    [null]. *)
Theorem getVal_first_match (normalizedRow : row) (candidates : list string)
        (Hrow : hasOwn "hasOwnProperty" normalizedRow = false) :
  (forall (c : string) (rest : list string),
      hasOwn c normalizedRow = true ->
      getVal normalizedRow (c :: rest) = Returned (cellOf (lookup c normalizedRow)))
  /\ (forall (c k : string) (rest : list string),
        In k (keys normalizedRow) -> toLowerCase k = toLowerCase c ->
        exists k' s,
          In k' (keys normalizedRow) /\ toLowerCase k' = toLowerCase c
          /\ lookup k' normalizedRow = Some s
          /\ getVal normalizedRow (c :: rest) = Returned (Text s))
  /\ (forall (c : string) (rest : list string),
        (forall k, In k (keys normalizedRow) -> toLowerCase k <> toLowerCase c) ->
        getVal normalizedRow (c :: rest) = getVal normalizedRow rest)
  /\ (getVal normalizedRow candidates = Returned Undefined
      <-> forall c k, In c candidates -> In k (keys normalizedRow) ->
                      toLowerCase k <> toLowerCase c)
  /\ getVal normalizedRow candidates <> Returned Null.
Proof.
  split; [|split; [|split; [|split]]].
  - intros c rest H. simpl. now rewrite Hrow, H.
  - intros c k rest I E. rewrite (getVal_resolves _ _ Hrow). simpl.
    destruct (matchCandidate normalizedRow c) as [k'|] eqn:M.
    + apply matchCandidate_Some in M as [I' E'].
      destruct (In_keys_lookup _ _ I') as [s L]. exists k', s. now rewrite L.
    + exfalso. exact (proj1 (matchCandidate_None _ _) M k I E).
  - intros c rest N. rewrite !(getVal_resolves _ _ Hrow). simpl.
    now rewrite (proj2 (matchCandidate_None _ _) N).
  - rewrite (getVal_resolves _ _ Hrow). clear Hrow.
    induction candidates as [|c rest IH]; simpl.
    + split; [intros _ c k [] | reflexivity].
    + destruct (matchCandidate normalizedRow c) as [k'|] eqn:M.
      * apply matchCandidate_Some in M as [I' E'].
        destruct (In_keys_lookup _ _ I') as [s L]. rewrite L. simpl. split; [discriminate|].
        intros N. now destruct (N c k' (or_introl eq_refl) I').
      * rewrite IH. split.
        -- intros N c' k [<-|I]; [exact (proj1 (matchCandidate_None _ _) M k) | now apply N].
        -- intros N c' k I. apply N. now right.
  - rewrite (getVal_resolves _ _ Hrow). clear Hrow.
    induction candidates as [|c rest IH]; simpl; [discriminate|].
    destruct (matchCandidate normalizedRow c) as [k'|]; [|exact IH].
    destruct (lookup k' normalizedRow); discriminate.
Qed.

(** A row with the columns [Withdrawal] and [debit], read for its debit. *)
Lemma getVal_first_match_witness :
  hasOwn "hasOwnProperty" [("Withdrawal", "1"); ("debit", "2")] = false
  /\ getVal [("Withdrawal", "1"); ("debit", "2")] ["debit"; "withdrawal"]
     = Returned (cellOf (lookup "debit" [("Withdrawal", "1"); ("debit", "2")])).
Proof.
  split; [reflexivity|].
  exact (proj1 (getVal_first_match [("Withdrawal", "1"); ("debit", "2")]
                  ["withdrawal"; "withdrawals"; "debit"] eq_refl)
               "debit" ["withdrawal"] eq_refl).
Defined.

Lemma keys_defineOwn_named {A} (k : string) (v : A) (o : jsobj A) :
  arrayIndex k = None ->
  keys (defineOwn k v o) = if hasOwn k o then keys o else (keys o ++ [k])%list.
Proof.
  intros X. unfold defineOwn. destruct (hasOwn k o).
  - apply keys_replaceOwn.
  - rewrite X. unfold keys. now rewrite map_app.
Qed.

Lemma hasOwn_defineOwn_other {A} (k k' : string) (v : A) (o : jsobj A) :
  k <> k' -> hasOwn k (defineOwn k' v o) = hasOwn k o.
Proof. intros N. unfold hasOwn. now rewrite lookup_defineOwn_other. Qed.

Lemma hasOwn_defineOwn_same {A} (k : string) (v : A) (o : jsobj A) :
  hasOwn k (defineOwn k v o) = true.
Proof. unfold hasOwn. now rewrite lookup_defineOwn_same. Qed.

Lemma hasOwn_map {A B} (f : A -> B) (k : string) (o : jsobj A) :
  hasOwn k (map (fun kv => (fst kv, f (snd kv))) o) = hasOwn k o.
Proof. unfold hasOwn. rewrite lookup_map. now destruct (lookup k o). Qed.

Lemma keys_map {A B} (f : A -> B) (o : jsobj A) :
  keys (map (fun kv => (fst kv, f (snd kv))) o) = keys o.
Proof. unfold keys. rewrite map_map. reflexivity. Qed.

(** X6.  The row the upload handler emits lists the columns of the
    normalized row in their order, followed by those of [balance],
    [_parsed_debit] and [_parsed_credit] that the file has no column for; a
    column of the file with one of these names is overwritten by the computed
    value. *)
Theorem outRow_columns (normalizedRow : row) (debit credit balance : num) :
  keys (makeOutRow normalizedRow debit credit balance)
  = (keys normalizedRow
     ++ filter (fun k => negb (hasOwn k normalizedRow))
               ["balance"; "_parsed_debit"; "_parsed_credit"])%list
  /\ prop "balance" (makeOutRow normalizedRow debit credit balance) = JNum balance
  /\ prop "_parsed_debit" (makeOutRow normalizedRow debit credit balance) = JNum debit
  /\ prop "_parsed_credit" (makeOutRow normalizedRow debit credit balance) = JNum credit.
Proof.
  split; [|split; [apply outRow_balance | split;
                   [apply outRow_parsed_debit | apply outRow_parsed_credit]]].
  unfold makeOutRow, assign.
  change (String.eqb "balance" "__proto__") with false.
  change (String.eqb "_parsed_credit" "__proto__") with false.
  change (String.eqb "_parsed_debit" "__proto__") with false.
  cbv iota.
  rewrite !keys_defineOwn_named by reflexivity.
  rewrite !hasOwn_defineOwn_other by discriminate.
  rewrite hasOwn_defineOwn_same.
  rewrite !hasOwn_defineOwn_other by discriminate.
  rewrite !hasOwn_map, keys_map.
  cbn [filter].
  destruct (hasOwn "balance" normalizedRow), (hasOwn "_parsed_debit" normalizedRow),
           (hasOwn "_parsed_credit" normalizedRow); cbn [negb];
    rewrite <- ?app_assoc; cbn [app]; rewrite ?app_nil_r; reflexivity.
Qed.

End FieldLookup.

Section HeaderNames.
Local Open Scope string_scope.

Lemma lastTrimmed_found (k : string) (r : row) :
  forall found : option string,
    found <> None \/ (exists k0, In k0 (keys r) /\ trim k0 = k) ->
    fold_left (fun found kv => if String.eqb (trim (fst kv)) k then Some (snd kv) else found)
              r found <> None.
Proof.
  induction r as [|[k0 v0] r IH]; intros found H; simpl.
  - destruct H as [H | (k1 & [] & _)]. exact H.
  - apply IH. destruct (String.eqb (trim k0) k) eqn:E.
    + left. discriminate.
    + destruct H as [H | (k1 & [<-|I] & T)].
      * now left.
      * apply String.eqb_neq in E. now destruct E.
      * right. eauto.
Qed.

(** X7.  The upload handler finds a column by its name without regard to
    the white space around the name and to the case of its letters: where
    the file has a column whose trimmed name is the candidate up to case,
    and no column named [hasOwnProperty], [getVal] returns the cell of such a
    column for that candidate. *)
Theorem columns_match_up_to_case_and_space
        (r : row) (c : string) (rest : list string) (k0 : string)
        (Hrow : hasOwn "hasOwnProperty" (normalizeRow r) = false)
        (Hcol : In k0 (keys r))
        (Hname : toLowerCase (trim k0) = toLowerCase c)
        (Hproto : trim k0 <> "__proto__") :
  exists k1 v : string,
    In (k1, v) r
    /\ toLowerCase (trim k1) = toLowerCase c
    /\ getVal (normalizeRow r) (c :: rest) = Returned (Text v).
Proof.
  assert (In (trim k0) (keys (normalizeRow r))) as I.
  { apply hasOwn_true_In. unfold hasOwn, normalizeRow.
    rewrite (normalize_lookup (trim k0) r Hproto []).
    destruct (fold_left _ r (lookup (trim k0) [])) eqn:F; [reflexivity|].
    exfalso. revert F. apply lastTrimmed_found. right. eauto. }
  rewrite (getVal_resolves _ _ Hrow). cbn [resolveField].
  destruct (matchCandidate (normalizeRow r) c) as [k'|] eqn:M.
  - apply matchCandidate_Some in M as [I' E'].
    destruct (In_keys_lookup _ _ I') as [s L]. rewrite L.
    assert (k' <> "__proto__") as N.
    { intros ->. pose proof (normalize_proto r [] eq_refl) as P.
      unfold normalizeRow in L. congruence. }
    unfold normalizeRow in L. rewrite (normalize_lookup k' r N []) in L.
    apply lastTrimmed_In in L as [L | (k1 & I1 & T)]; [discriminate|].
    exists k1, s. subst k'. auto.
  - exfalso. exact (proj1 (matchCandidate_None _ _) M _ I Hname).
Qed.

(** A column [ Debit ] read for a debit. *)
Lemma columns_match_up_to_case_and_space_witness :
  hasOwn "hasOwnProperty" (normalizeRow [(" Debit ", "40"); ("credit", "")]) = false
  /\ toLowerCase (trim " Debit ") = toLowerCase "debit"
  /\ exists k1 v : string,
       In (k1, v) [(" Debit ", "40"); ("credit", "")]
       /\ toLowerCase (trim k1) = toLowerCase "debit"
       /\ getVal (normalizeRow [(" Debit ", "40"); ("credit", "")]) ["debit"; "withdrawals"]
          = Returned (Text v).
Proof.
  split; [reflexivity|]. split; [reflexivity|].
  exact (columns_match_up_to_case_and_space
           [(" Debit ", "40"); ("credit", "")] "debit" ["withdrawals"] " Debit "
           eq_refl (or_introl eq_refl) eq_refl ltac:(discriminate)).
Defined.

End HeaderNames.

(** ** Numbers that are not NaN *)

Section NotNaN.

Lemma iter_pos_invariant {A} (P : A -> Prop) (f : A -> A) :
  (forall x, P x -> P (f x)) ->
  forall (n : BinNums.positive) (x : A), P x -> P (iter_pos f n x).
Proof.
  intros F. induction n as [n IH|n IH|]; intros x H; simpl; auto.
Qed.

Lemma shr_1_nonneg (mrs : shr_record) : 0 <= shr_m mrs -> 0 <= shr_m (shr_1 mrs).
Proof.
  destruct mrs as [m r s]. simpl. intros H.
  destruct m as [|[p|p|]|p]; simpl; lia.
Qed.

Lemma shr_fexp_nonneg (m e : Z) (l : location) :
  0 <= m -> 0 <= shr_m (fst (shr_fexp prec emax m e l)).
Proof.
  intros H. unfold shr_fexp, shr.
  assert (0 <= shr_m (shr_record_of_loc m l)) as H0 by (destruct l as [|[]]; exact H).
  destruct (fexp prec emax (Zdigits2 m + e) - e) as [|p|p]; simpl; try exact H0.
  now apply (iter_pos_invariant (fun mrs => 0 <= shr_m mrs) shr_1 shr_1_nonneg).
Qed.

Lemma round_nearest_even_nonneg (m : Z) (l : location) :
  0 <= m -> 0 <= round_nearest_even m l.
Proof.
  intros H. destruct l as [|[]]; simpl; try lia. destruct (Z.even m); lia.
Qed.

Lemma binary_round_aux_not_NaN (sx : bool) (mx ex : Z) (lx : location) :
  0 <= mx -> isNaN (binary_round_aux prec emax sx mx ex lx) = false.
Proof.
  intros H. unfold binary_round_aux.
  pose proof (shr_fexp_nonneg mx ex lx H) as H1.
  destruct (shr_fexp prec emax mx ex lx) as [mrs' e'].
  pose proof (shr_fexp_nonneg _ e' loc_Exact
                (round_nearest_even_nonneg (shr_m mrs') (loc_of_shr_record mrs') H1)) as H2.
  destruct (shr_fexp prec emax _ e' loc_Exact) as [mrs'' e''].
  simpl in H2. destruct (shr_m mrs'') as [|m|m]; [reflexivity | | lia].
  now destruct (e'' <=? emax - prec).
Qed.

Lemma binary_normalize_not_NaN (m e : Z) (szero : bool) :
  isNaN (binary_normalize prec emax m e szero) = false.
Proof.
  destruct m as [|m|m]; simpl; [reflexivity| |];
    unfold binary_round; destruct (shl_align _ _ _) as [mz ez];
    now apply binary_round_aux_not_NaN.
Qed.

Lemma add_not_NaN (x y : num) :
  isNaN x = false -> isFinite y = true -> isNaN (add x y) = false.
Proof.
  destruct x as [sx|sx| |sx mx ex], y as [sy|sy| |sy my ey]; try discriminate;
    intros _ _; try reflexivity.
  - now destruct sx, sy.
  - apply binary_normalize_not_NaN.
Qed.

Lemma sub_not_NaN (x y : num) :
  isNaN x = false -> isFinite y = true -> isNaN (sub x y) = false.
Proof.
  destruct x as [sx|sx| |sx mx ex], y as [sy|sy| |sy my ey]; try discriminate;
    intros _ _; try reflexivity.
  - now destruct sx, sy.
  - apply binary_normalize_not_NaN.
Qed.

Lemma ratio_to_number_not_NaN (negative : bool) (p q : Z) :
  0 <= p -> 0 < q -> isNaN (ratio_to_number negative p q) = false.
Proof.
  intros P Q. unfold ratio_to_number. destruct p as [|p|p]; [reflexivity| |lia].
  unfold SFdiv_core_binary.
  set (s := _ - _ - _).
  set (m' := match s with Z0 => Z.pos p | Z.pos _ => Z.shiftl (Z.pos p) s | Z.neg _ => 0 end).
  assert (0 <= m') as M.
  { subst m'. destruct s; try lia. apply Z.shiftl_nonneg. lia. }
  pose proof (Z.div_pos m' q M Q) as D. unfold Z.div in D.
  destruct (Z.div_eucl m' q) as [quo r]. simpl in D.
  now apply binary_round_aux_not_NaN.
Qed.

Lemma round2_not_NaN (x : num) : isNaN x = false -> isNaN (round2 x) = false.
Proof.
  unfold round2, toFixed2. destruct x as [s|s| |s m e]; try discriminate; intros _;
    try reflexivity.
  destruct (if 0 <=? e then _ else _); [reflexivity|].
  cbn [numberOfFixed]. apply ratio_to_number_not_NaN; [|lia].
  destruct (0 <=? e) eqn:E.
  - apply Z.leb_le in E. assert (0 <= 2 ^ e) by (apply Z.pow_nonneg; lia). nia.
  - apply Z.leb_gt in E. apply Z.div_pos.
    + assert (0 <= 2 ^ (- e)) by (apply Z.pow_nonneg; lia). lia.
    + apply Z.pow_pos_nonneg; lia.
Qed.

End NotNaN.

(** ** Decimal numbers *)

Section DecimalNumbers.
Local Open Scope string_scope.

Lemma digitValue_digit (c : ascii) :
  isDigit c = true -> digitValue 10 c = Some (code c - 48)%Z.
Proof.
  unfold isDigit, digitValue. intros H. rewrite H.
  apply andb_true_iff in H as [H1 H2]. apply Z.leb_le in H1, H2.
  destruct (code c - 48 <? 10)%Z eqn:E; [reflexivity|]. apply Z.ltb_ge in E. lia.
Qed.

Lemma digitValue_other (c : ascii) : isDigit c = false -> digitValue 10 c = None.
Proof.
  unfold isDigit, digitValue. intros H. rewrite H.
  destruct ((97 <=? code c)%Z && (code c <=? 102)%Z) eqn:A.
  - apply andb_true_iff in A as [A1 A2]. apply Z.leb_le in A1, A2.
    destruct (code c - 87 <? 10)%Z eqn:E; [|reflexivity]. apply Z.ltb_lt in E. lia.
  - destruct ((65 <=? code c)%Z && (code c <=? 70)%Z) eqn:B; [|reflexivity].
    apply andb_true_iff in B as [B1 B2]. apply Z.leb_le in B1, B2.
    destruct (code c - 55 <? 10)%Z eqn:E; [|reflexivity]. apply Z.ltb_lt in E. lia.
Qed.

(** A text that does not go on with a digit. *)
Definition noDigitAhead (s : string) : Prop :=
  match s with
  | String c _ => isDigit c = false
  | EmptyString => True
  end.

Lemma scanDigits_run (d rest : string) :
  allDigits d = true -> noDigitAhead rest ->
  forall acc cnt : Z,
    scanDigits 10 acc cnt (d ++ rest)
    = (digitsValue acc d, (cnt + Z.of_nat (String.length d))%Z, rest).
Proof.
  intros D N. induction d as [|c d IH]; intros acc cnt.
  - cbn [append digitsValue String.length Z.of_nat]. rewrite Z.add_0_r.
    destruct rest as [|c r]; [reflexivity|].
    cbn [scanDigits]. now rewrite (digitValue_other c N).
  - cbn [allDigits] in D. apply andb_true_iff in D as [Dc D].
    cbn [append scanDigits digitsValue String.length].
    rewrite (digitValue_digit c Dc), (IH D). f_equal. f_equal. lia.
Qed.

Lemma splitPoint_whole (s whole : string) (point : option string) :
  splitPoint s = (whole, point) ->
  s = whole ++ match point with Some f => String "." f | None => "" end.
Proof.
  revert whole. induction s as [|c s IH]; cbn [splitPoint]; intros whole H.
  - injection H as <- <-. reflexivity.
  - destruct (Ascii.eqb c ".") eqn:E.
    + apply Ascii.eqb_eq in E. subst c. injection H as <- <-. reflexivity.
    + destruct (splitPoint s) as [w p]. injection H as <- <-.
      cbn [append]. f_equal. now apply IH.
Qed.

Lemma digitsValue_app (a b : string) :
  forall acc : Z, digitsValue acc (a ++ b) = digitsValue (digitsValue acc a) b.
Proof. induction a as [|c a IH]; intros acc; cbn [append digitsValue]; [reflexivity | apply IH]. Qed.

Lemma digitsValue_nonneg (s : string) :
  allDigits s = true -> forall acc : Z, (0 <= acc -> 0 <= digitsValue acc s)%Z.
Proof.
  induction s as [|c s IH]; cbn [allDigits digitsValue]; intros D acc A; [exact A|].
  apply andb_true_iff in D as [Dc D]. apply IH; [exact D|].
  unfold isDigit in Dc. apply andb_true_iff in Dc as [D1 D2]. apply Z.leb_le in D1, D2. lia.
Qed.

Lemma allDigits_noInfinity (whole rest : string) :
  allDigits whole = true -> (isEmpty whole = true -> startsWith "Infinity" rest = false) ->
  startsWith "Infinity" (whole ++ rest) = false.
Proof.
  destruct whole as [|c w]; cbn [append]; intros D E; [now apply E|].
  cbn [allDigits] in D. apply andb_true_iff in D as [Dc _].
  cbn [startsWith]. destruct (Ascii.eqb "I" c) eqn:I; [|reflexivity].
  apply Ascii.eqb_eq in I. subst c. discriminate Dc.
Qed.

Lemma unsigned_scanSign (s : string) : scanSign s = unsigned s.
Proof.
  destruct s as [|c r]; [reflexivity|]. unfold scanSign, unsigned.
  destruct (Ascii.eqb c "-") eqn:M; [apply Ascii.eqb_eq in M; now subst c|].
  destruct (Ascii.eqb c "+") eqn:P; [apply Ascii.eqb_eq in P; now subst c|].
  destruct c as [[] [] [] [] [] [] [] []]; try reflexivity; discriminate.
Qed.

(** The two zeros apart, the Number of a ratio has the sign it is given. *)
Lemma ratio_to_number_sign (negative negative' : bool) (p q : Z) :
  (p = 0%Z \/ negative = negative') ->
  sameNumber (ratio_to_number negative p q) (ratio_to_number negative' p q).
Proof.
  intros [->| ->]; [right; unfold ratio_to_number; eauto | now left].
Qed.

Lemma neg_ratio_to_number (negative : bool) (p q : Z) :
  neg (ratio_to_number negative p q) = ratio_to_number (negb negative) p q.
Proof.
  unfold ratio_to_number. destruct p as [|p|p]; [reflexivity| |];
    destruct (SFdiv_core_binary _ _ _ _ _ _) as [[mz ez] lz];
    unfold binary_round_aux;
    destruct (shr_fexp prec emax mz ez lz) as [mrs' e'];
    destruct (shr_fexp prec emax _ e' loc_Exact) as [mrs'' e''];
    destruct (shr_m mrs'') as [|m|m]; try reflexivity;
    now destruct (e'' <=? emax - prec)%Z.
Qed.

Lemma sameNumber_neg (x y : num) : sameNumber x y -> sameNumber (neg x) (neg y).
Proof.
  intros [->|(s & s' & -> & ->)]; [now left | right; simpl; eauto].
Qed.

Lemma sameNumber_trans (x y z : num) : sameNumber x y -> sameNumber y z -> sameNumber x z.
Proof.
  intros [E|(s & s' & E1 & E2)] [F|(t & t' & F1 & F2)]; subst.
  - now left.
  - right. eauto.
  - right. eauto.
  - right. eauto.
Qed.

Lemma sameNumber_isNaN (x y : num) : sameNumber x y -> isNaN x = isNaN y.
Proof. intros [->|(s & s' & -> & ->)]; reflexivity. Qed.

Lemma sameNumber_orZero (x y : num) : sameNumber x y -> isNaN y = false -> sameNumber (orZero x) y.
Proof.
  intros S N. unfold orZero. now rewrite (sameNumber_isNaN x y S), N.
Qed.

Lemma numberOfQ_not_NaN (q : Q) : isNaN (numberOfQ q) = false.
Proof. unfold numberOfQ. apply ratio_to_number_not_NaN; lia. Qed.

(** The value of the negated fraction is the negated value. *)
Lemma neg_numberOfQ (q : Q) : sameNumber (neg (numberOfQ q)) (numberOfQ (Qopp q)).
Proof.
  unfold numberOfQ. rewrite neg_ratio_to_number. destruct q as [n d]. cbn [Qopp Qnum Qden].
  rewrite Z.abs_opp. apply ratio_to_number_sign.
  destruct n as [|n|n]; [now left | now right | now right].
Qed.

Lemma scanDigits_all (d : string) :
  allDigits d = true ->
  forall acc cnt : Z,
    scanDigits 10 acc cnt d = (digitsValue acc d, (cnt + Z.of_nat (String.length d))%Z, "").
Proof.
  intros D. induction d as [|c d IH]; intros acc cnt.
  - cbn [scanDigits digitsValue String.length Z.of_nat]. now rewrite Z.add_0_r.
  - cbn [allDigits] in D. apply andb_true_iff in D as [Dc D].
    cbn [scanDigits digitsValue String.length].
    rewrite (digitValue_digit c Dc), (IH D). f_equal. f_equal. lia.
Qed.

Lemma decimalValue_head (c : ascii) (r : string) (q : Q) :
  decimalValue (String c r) = Some q -> isWhiteSpace c = false.
Proof.
  intros H. destruct (isWhiteSpace c) eqn:W; [exfalso|reflexivity].
  unfold decimalValue in H.
  destruct c as [[] [] [] [] [] [] [] []]; try discriminate W;
    cbn [unsigned splitPoint Ascii.eqb Bool.eqb] in H;
    destruct (splitPoint r) as [w p]; discriminate H.
Qed.

Lemma decimal_to_number_value (negative : bool) (m nf : Z) :
  (0 <= m)%Z -> (0 <= nf)%Z ->
  sameNumber (decimal_to_number negative m (- nf))
             (numberOfQ (Qmake (if negative then - m else m) (Z.to_pos (10 ^ nf)))).
Proof.
  intros M N. unfold decimal_to_number, numberOfQ. cbn [Qnum Qden].
  assert (Z.abs (if negative then - m else m) = m) as ->
    by (destruct negative; lia).
  assert (Z.pos (Z.to_pos (10 ^ nf)) = (10 ^ nf)%Z) as ->
    by (apply Z2Pos.id, Z.pow_pos_nonneg; lia).
  assert (m = 0%Z \/ negative = ((if negative then - m else m) <? 0)%Z) as S.
  { destruct (Z.eq_dec m 0) as [E|E]; [now left | right].
    destruct negative; symmetry; [apply Z.ltb_lt | apply Z.ltb_ge]; lia. }
  destruct (0 <=? - nf)%Z eqn:E.
  - apply Z.leb_le in E. assert (nf = 0%Z) as -> by lia.
    cbn [Z.opp Z.pow Z.pow_pos Pos.iter]. rewrite Z.mul_1_r.
    now apply ratio_to_number_sign.
  - rewrite Z.opp_involutive. now apply ratio_to_number_sign.
Qed.

(** On a decimal number [parseFloat] gives the Number nearest to its
    value. *)
Lemma parseFloat_decimal (t : string) (q : Q) :
  decimalValue t = Some q -> sameNumber (parseFloat t) (numberOfQ q).
Proof.
  intros H. unfold parseFloat.
  assert (trimStart t = t) as ->.
  { destruct t as [|c r]; [reflexivity|]. cbn [trimStart].
    now rewrite (decimalValue_head c r q H). }
  unfold decimalValue in H. unfold scanStrDecimalLiteral.
  rewrite unsigned_scanSign. destruct (unsigned t) as [negative body].
  destruct (splitPoint body) as [whole point] eqn:P.
  apply splitPoint_whole in P.
  destruct (allDigits whole) eqn:Dw; [|discriminate H].
  destruct (allDigits match point with Some f => f | None => "" end) eqn:Df;
    [|discriminate H].
  destruct (isEmpty whole && isEmpty match point with Some f => f | None => "" end) eqn:E;
    [discriminate H|].
  cbn [andb negb] in H. injection H as <-.
  assert (startsWith "Infinity" body = false) as ->.
  { rewrite P. apply allDigits_noInfinity; [exact Dw|]. intros _. now destruct point. }
  assert (noDigitAhead match point with Some f => String "." f | None => "" end) as N
    by (destruct point; reflexivity).
  rewrite P, (scanDigits_run whole _ Dw N).
  pose proof (digitsValue_nonneg whole Dw 0%Z (Z.le_refl 0)) as W0.
  destruct point as [f|].
  - rewrite (scanDigits_all f Df). cbn [scanExponent].
    destruct ((0 + Z.of_nat (String.length whole) =? 0)%Z
              && (0 + Z.of_nat (String.length f) =? 0)%Z) eqn:Z0.
    + exfalso. apply andb_true_iff in Z0 as [Z1 Z2]. apply Z.eqb_eq in Z1, Z2.
      destruct whole, f; try discriminate E; cbn [String.length] in Z1, Z2; lia.
    + rewrite digitsValue_app. rewrite Z.add_0_l, Z.sub_0_l.
      apply decimal_to_number_value; [|lia].
      now apply digitsValue_nonneg.
  - destruct (0 + Z.of_nat (String.length whole) =? 0)%Z eqn:Z0.
    + exfalso. apply Z.eqb_eq in Z0.
      destruct whole; [discriminate E | cbn [String.length] in Z0; lia].
    + cbn [scanExponent String.length Z.of_nat].
      rewrite digitsValue_app. cbn [digitsValue].
      change 0%Z with (- 0)%Z at 2.
      apply decimal_to_number_value; [exact W0 | lia].
Qed.

(** A text that does not start like a number is not read at all. *)
Lemma parseFloat_noNumber (t : string) : startsNumber t = false -> parseFloat t = NaN.
Proof.
  unfold startsNumber, parseFloat, scanStrDecimalLiteral.
  rewrite unsigned_scanSign. destruct (unsigned (trimStart t)) as [negative body].
  destruct body as [|c r]; [reflexivity|]. intros H.
  apply orb_false_iff in H as [H I]. apply orb_false_iff in H as [D P].
  rewrite I. cbn [scanDigits]. rewrite (digitValue_other c D).
  destruct (Ascii.eqb c ".") eqn:E.
  - apply Ascii.eqb_eq in E. subst c. cbn [andb] in P.
    destruct r as [|d r]; [reflexivity|].
    cbn [scanDigits]. now rewrite (digitValue_other d P).
  - destruct c as [[] [] [] [] [] [] [] []]; try reflexivity. discriminate E.
Qed.

Lemma decimalValue_unwrapped (t : string) (q : Q) :
  decimalValue t = Some q -> wrappedInterior t = None.
Proof.
  destruct t as [|c r]; [reflexivity|]. cbn [wrappedInterior].
  destruct (Ascii.eqb c "(") eqn:E; [|reflexivity].
  apply Ascii.eqb_eq in E. subst c. unfold decimalValue.
  cbn [unsigned splitPoint Ascii.eqb Bool.eqb].
  destruct (splitPoint r) as [w p]. discriminate.
Qed.

(** The part of a text that is parsed, read by [parseFloat] and by the
    rules of the specification. *)
Lemma parseFloat_agrees (t : string) :
  decimalOrNoNumber t = true ->
  match decimalValue t with
  | Some q => sameNumber (parseFloat t) (numberOfQ q)
  | None => parseFloat t = NaN
  end.
Proof.
  unfold decimalOrNoNumber. destruct (decimalValue t) as [q|] eqn:D; intros H.
  - now apply parseFloat_decimal.
  - apply parseFloat_noNumber. now apply negb_true_iff.
Qed.

Lemma parseByRules_parseAmount (raw : cell) :
  match raw with
  | Text s => decimalOrNoNumber (parsedPart (trim (removeCommas s))) = true
  | _ => True
  end ->
  sameNumber (parseByRules raw) (parseAmount raw).
Proof.
  destruct raw as [| |s]; try (intros _; now left).
  unfold parseByRules, parseAmount, parsedPart.
  destruct (isEmpty (trim s)); [intros _; now left|].
  destruct (wrappedInterior (trim (removeCommas s))) as [inner|]; intros H;
    apply parseFloat_agrees in H.
  - destruct (decimalValue inner) as [q|].
    + apply sameNumber_orZero; [|apply numberOfQ_not_NaN].
      eapply sameNumber_trans; [apply sameNumber_neg, H | apply neg_numberOfQ].
    + rewrite H. now left.
  - destruct (decimalValue (trim (removeCommas s))) as [q|].
    + apply sameNumber_orZero; [exact H | apply numberOfQ_not_NaN].
    + rewrite H. now left.
Qed.

(** C2 counterexample.  [12abc] is no decimal number, and its parse fails by
    rule (e) of the specification; [parseNumberSafe] reads the 12 it starts
    with.  It reads the text [Infinity] as the Number of that name. *)
Lemma parseNumberSafe_reads_a_prefix :
  parseNumberSafe (Text "12abc") = S754_finite false 6755399441055744 (-49)
  /\ decimalValue "12abc" = None
  /\ parseAmount (Text "12abc") = zero
  /\ parseNumberSafe (Text "Infinity") = S754_infinity false
  /\ parseAmount (Text "Infinity") = zero.
Proof. repeat split; vm_compute; reflexivity. Qed.

(** C2 (amended).  [parseNumberSafe] returns a Number that is never NaN on
    every input, and never raises.  Null, undefined and a text that is empty
    after trimming give zero.  Commas and surrounding white space are
    stripped; of a value wrapped in parentheses the interior is parsed and
    negated.  What is parsed is read by [parseFloat]: where it is a decimal
    number the result is the Number nearest to its value - the two zeros
    taken for one -, where it does not start like a number the result is
    zero, and on both kinds of text the function agrees with [parseAmount];
    of any other text the number at its start is read and the rest ignored.
    It maps "1,234.50" to 1234.5, "(500)" to -500, the empty text and "abc"
    to 0, "12abc" to 12 and "Infinity" to the Number of that name. *)
Theorem parseNumberSafe_rules :
  (forall val : cell, isNaN (parseNumberSafe val) = false)
  /\ parseNumberSafe Undefined = zero
  /\ parseNumberSafe Null = zero
  /\ (forall s : string, isEmpty (trim s) = true -> parseNumberSafe (Text s) = zero)
  /\ (forall s : string,
        decimalOrNoNumber (parsedPart (trim (removeCommas s))) = true ->
        sameNumber (parseNumberSafe (Text s)) (parseAmount (Text s)))
  /\ (forall (s : string) (q : Q),
        decimalValue (trim (removeCommas s)) = Some q ->
        sameNumber (parseNumberSafe (Text s)) (numberOfQ q))
  /\ (forall (s inner : string) (q : Q),
        wrappedInterior (trim (removeCommas s)) = Some inner ->
        decimalValue inner = Some q ->
        sameNumber (parseNumberSafe (Text s)) (numberOfQ (Qopp q)))
  /\ (forall s : string,
        startsNumber (parsedPart (trim (removeCommas s))) = false ->
        parseNumberSafe (Text s) = zero)
  /\ (forall s : string,
        parseNumberSafe (Text s)
        = if isEmpty (trim s) then zero
          else match wrappedInterior (trim (removeCommas s)) with
               | Some inner => orZero (neg (parseFloat inner))
               | None => orZero (parseFloat (trim (removeCommas s)))
               end)
  /\ parseNumberSafe (Text "1,234.50") = S754_finite false 5429388417957888 (-42)
  /\ parseNumberSafe (Text "(500)") = S754_finite true 8796093022208000 (-44)
  /\ parseNumberSafe (Text "") = zero
  /\ parseNumberSafe (Text "abc") = zero
  /\ parseNumberSafe (Text "12abc") = S754_finite false 6755399441055744 (-49)
  /\ parseNumberSafe (Text "Infinity") = S754_infinity false.
Proof.
  split.
  { intros val. rewrite parseNumberSafe_parseByRules.
    destruct val as [| |s]; cbn [parseByRules]; try reflexivity.
    destruct (isEmpty (trim s)); [reflexivity|].
    destruct (wrappedInterior (trim (removeCommas s))); apply orZero_not_NaN. }
  split; [reflexivity|]. split; [reflexivity|].
  split.
  { intros s E. rewrite parseNumberSafe_parseByRules. cbn [parseByRules]. now rewrite E. }
  assert (forall s : string,
             decimalOrNoNumber (parsedPart (trim (removeCommas s))) = true ->
             sameNumber (parseNumberSafe (Text s)) (parseAmount (Text s))) as A.
  { intros s H. rewrite parseNumberSafe_parseByRules.
    now apply (parseByRules_parseAmount (Text s)). }
  assert (forall s : string,
             wrappedInterior (trim (removeCommas s)) <> None
             \/ trim (removeCommas s) <> "" ->
             isEmpty (trim s) = false) as NE.
  { intros s H. rewrite trim_empty. destruct (allWhite s) eqn:W; [exfalso|reflexivity].
    assert (trim (removeCommas s) = "") as E.
    { rewrite (removeCommas_allWhite s W). apply isEmpty_true. now rewrite trim_empty. }
    rewrite E in H. destruct H as [H|H]; now apply H. }
  split; [exact A|].
  split.
  { intros s q D. specialize (A s). unfold parsedPart, decimalOrNoNumber in A.
    rewrite (decimalValue_unwrapped _ q D), D in A. specialize (A eq_refl).
    cbn [parseAmount] in A. rewrite NE in A.
    - now rewrite (decimalValue_unwrapped _ q D), D in A.
    - right. intros E. rewrite E in D. discriminate D. }
  split.
  { intros s inner q W D. specialize (A s). unfold parsedPart, decimalOrNoNumber in A.
    rewrite W, D in A. specialize (A eq_refl).
    cbn [parseAmount] in A. rewrite NE in A.
    - now rewrite W, D in A.
    - left. now rewrite W. }
  split.
  { intros s H. rewrite parseNumberSafe_parseByRules. unfold parseByRules, parsedPart in *.
    destruct (isEmpty (trim s)); [reflexivity|].
    destruct (wrappedInterior (trim (removeCommas s)));
      now rewrite (parseFloat_noNumber _ H). }
  split; [intros s; now rewrite parseNumberSafe_parseByRules|].
  repeat split; vm_compute; reflexivity.
Qed.

End DecimalNumbers.

(** ** Balances that are Numbers *)

Section UploadNumbers.
Local Open Scope string_scope.

Lemma parseNumberSafe_not_NaN (val : cell) : isNaN (parseNumberSafe val) = false.
Proof.
  rewrite parseNumberSafe_parseByRules. destruct val as [| |s]; try reflexivity.
  simpl. destruct (isEmpty (trim s)); [reflexivity|].
  destruct (wrappedInterior _); apply orZero_not_NaN.
Qed.

Lemma direct_not_NaN (r : row) (debitNames creditNames : list string) (d c : num) :
  direct r debitNames creditNames = Returned (d, c) ->
  isNaN d = false /\ isNaN c = false.
Proof.
  unfold direct. destruct (getVal r debitNames); [|discriminate]. cbn [bind].
  destruct (getVal r creditNames); [|discriminate]. cbn [bind].
  intros [= <- <-]. split; apply parseNumberSafe_not_NaN.
Qed.

Lemma extractAmounts_not_NaN (bank : string) (r : row) (d c : num) :
  extractAmounts bank r = Returned (d, c) -> isNaN d = false /\ isNaN c = false.
Proof.
  unfold extractAmounts.
  destruct (String.eqb bank "PNB"); [apply direct_not_NaN|].
  destruct (String.eqb bank "BANDHAN").
  - destruct (getVal r ["amount"; "Amount"]) as [a|]; [|discriminate]. cbn [bind].
    destruct (getVal r ["dr_cr"; "dr/cr"; "dr cr"; "cr_dr"; "type"]) as [i|];
      [|discriminate]. cbn [bind].
    pose proof (parseNumberSafe_not_NaN a) as N.
    destruct_conditions; intros [= <- <-]; split; try reflexivity; try exact N.
    now destruct (parseNumberSafe a).
  - destruct_conditions; apply direct_not_NaN.
Qed.

Lemma resolveRows_not_NaN (bank : string) (rows : list row) :
  Forall (fun e => isNaN (fst e) = false /\ isNaN (snd e) = false) (resolveRows bank rows).
Proof.
  unfold resolveRows. induction rows as [|r rows IH]; simpl; [constructor|].
  destruct (extractAmounts bank (normalizeRow r)) as [[d c]|e] eqn:E; simpl; [|exact IH].
  constructor; [|exact IH]. now apply (extractAmounts_not_NaN bank (normalizeRow r)).
Qed.

Lemma runningBalances_not_NaN (entries : list (num * num)) :
  Forall (fun e => isFinite (fst e) = true /\ isFinite (snd e) = true) entries ->
  forall B : num, isNaN B = false ->
    Forall (fun b => isNaN b = false) (runningBalances roundedStep B entries).
Proof.
  induction 1 as [|[d c] entries [Fd Fc] F IH]; intros B N; simpl; [constructor|].
  simpl in Fd, Fc.
  assert (isNaN (roundedStep B d c) = false) as N'.
  { unfold roundedStep. apply round2_not_NaN, sub_not_NaN; [|exact Fd].
    now apply add_not_NaN. }
  constructor; [exact N' | now apply IH].
Qed.

(** X8.  The upload handler never parses an amount to NaN, and as long as
    no parsed amount of the file is infinite no balance it writes is NaN:
    every emitted row carries a Number as its balance. *)
Theorem upload_balance_not_NaN (bank : string) (rows : list row)
        (Hfinite : Forall (fun e => isFinite (fst e) = true /\ isFinite (snd e) = true)
                          (resolveRows bank rows)) :
  Forall (fun e => isNaN (fst e) = false /\ isNaN (snd e) = false) (resolveRows bank rows)
  /\ Forall (fun o => exists x : num, prop "balance" o = JNum x /\ isNaN x = false)
            (uploadData bank rows).
Proof.
  split; [apply resolveRows_not_NaN|].
  pose proof (proj1 (proj2 (uploadData_spec bank rows))) as B.
  pose proof (runningBalances_not_NaN _ Hfinite zero eq_refl) as N.
  unfold balancesOf in B.
  revert B N. generalize (runningBalances roundedStep zero (resolveRows bank rows)).
  induction (uploadData bank rows) as [|o data IH]; intros [|b bs] B N;
    try discriminate; constructor.
  - injection B as B _. inversion N; subst. eauto.
  - injection B as _ B. inversion N; subst. eapply IH; eauto.
Qed.

(** The scenario of three rows. *)
Lemma upload_balance_not_NaN_witness :
  Forall (fun e => isFinite (fst e) = true /\ isFinite (snd e) = true)
         (resolveRows "PNB" scenarioRows)
  /\ Forall (fun o => exists x : num, prop "balance" o = JNum x /\ isNaN x = false)
            (uploadData "PNB" scenarioRows).
Proof.
  assert (Forall (fun e => isFinite (fst e) = true /\ isFinite (snd e) = true)
                 (resolveRows "PNB" scenarioRows)) as F
    by (repeat constructor).
  split; [exact F|].
  exact (proj2 (upload_balance_not_NaN "PNB" scenarioRows F)).
Defined.

End UploadNumbers.

(** ** The CSV import *)

Section CsvImport.
Local Open Scope string_scope.

Lemma importRows_length (rows : list row) :
  forall B : num, List.length (importRows B rows) = List.length rows.
Proof.
  induction rows as [|r rows IH]; intros B; simpl; [reflexivity|]. now rewrite IH.
Qed.

(** X9.  The import handler runs one [INSERT] per row of the file, in file
    order, and answers with the number of rows and the rows as they were
    read.  A debit or credit it stores is [null] or a Number other than zero
    and NaN; the stored value date is [null] only where the stored date is
    empty, and a stored narration is never stored with an empty
    description.  Without a file nothing is inserted. *)
Theorem import_inserts_one_record_per_row (rows : list row) :
  let inserted := fst (importCsv (Some rows)) in
  snd (importCsv (Some rows)) = ImportOk (List.length inserted) rows
  /\ List.length inserted = List.length rows
  /\ Forall (fun ins =>
               (forall x, ins_debit ins = Some x -> isNaN x = false /\ truthy (JNum x) = true)
               /\ (forall x, ins_credit ins = Some x ->
                             isNaN x = false /\ truthy (JNum x) = true)
               /\ (ins_value_date ins = None -> ins_date ins = "")
               /\ (ins_narration ins <> None -> ins_description ins <> ""))
            inserted
  /\ importCsv None = ([], ImportBadRequest "No file uploaded").
Proof.
  cbv zeta. cbn [importCsv fst snd]. rewrite importRows_length.
  split; [reflexivity|]. split; [reflexivity|]. split; [|reflexivity].
  generalize zero as B. induction rows as [|r rows IH]; intros B; simpl; [constructor|].
  constructor; [|apply IH]. simpl. unfold orNull.
  split; [|split; [|split]].
  - intros x. destruct (truthy (JNum (amountOf "debit" r))) eqn:T; [|discriminate].
    intros [= <-]. split; [|exact T]. now destruct (amountOf "debit" r) as [[]|[]| |].
  - intros x. destruct (truthy (JNum (amountOf "credit" r))) eqn:T; [|discriminate].
    intros [= <-]. split; [|exact T]. now destruct (amountOf "credit" r) as [[]|[]| |].
  - unfold orField, orText. destruct (field "value_date" r); [discriminate|].
    now destruct (field "date" r).
  - unfold field, orField, orText.
    destruct (lookup "narration" r) as [n|]; [|congruence].
    destruct (isEmpty n) eqn:E; [congruence|]. intros _.
    destruct (lookup "description" r) as [d|].
    + destruct (isEmpty d) eqn:E'; intros ->; discriminate.
    + intros ->. discriminate.
Qed.

Lemma lookup_absent {A} (k : string) (o : jsobj A) : ~ In k (keys o) -> lookup k o = None.
Proof.
  intros N. apply hasOwn_notIn in N. unfold hasOwn in N.
  now destruct (lookup k o).
Qed.

Lemma importRows_without_amounts (rows : list row) :
  Forall (fun r => field "debit" r = None /\ field "credit" r = None) rows ->
  Forall (fun ins => ins_debit ins = None /\ ins_credit ins = None /\ ins_balance ins = zero)
         (importRows zero rows).
Proof.
  induction 1 as [|r rows [D C] F IH]; simpl; [constructor|].
  unfold amountOf. rewrite D, C. constructor; [|exact IH]. repeat split.
Qed.

(** X10.  The import handler reads the amounts of a row from the columns
    [debit] and [credit] only: over a file whose rows have neither, every
    record is stored with a [null] debit, a [null] credit and the balance 0.
    The rows of a file that follows the blank template of PNB, BANDHAN or
    HDFC are such rows: their amounts stand in the columns [withdrawal] and
    [deposit], or [amount]. *)
Theorem import_reads_debit_and_credit_only (rows : list row)
        (Hcols : Forall (fun r => field "debit" r = None /\ field "credit" r = None) rows) :
  Forall (fun ins => ins_debit ins = None /\ ins_credit ins = None /\ ins_balance ins = zero)
         (fst (importCsv (Some rows)))
  /\ (forall (bank csvContent : string) (r : row),
        In bank ["PNB"; "BANDHAN"; "HDFC"] ->
        lookup bank csvTemplates = Some csvContent ->
        keys r = headerColumns csvContent ->
        field "debit" r = None /\ field "credit" r = None).
Proof.
  split; [now apply importRows_without_amounts|].
  intros bank csvContent r I L K.
  assert (~ In "debit" (keys r) /\ ~ In "credit" (keys r)) as [D C].
  { rewrite K. cbn [In] in I.
    destruct I as [<-|[<-|[<-|[]]]]; injection L as <-; vm_compute; intuition discriminate. }
  unfold field. now rewrite (lookup_absent _ _ D), (lookup_absent _ _ C).
Qed.

(** A file of one row with the columns of the PNB template. *)
Lemma import_reads_debit_and_credit_only_witness :
  Forall (fun r => field "debit" r = None /\ field "credit" r = None)
         [[("date", "01-01-2024"); ("cheque_no", ""); ("withdrawal", "100"); ("deposit", "");
           ("narration", "ATM"); ("balance", "900")]]
  /\ Forall (fun ins => ins_debit ins = None /\ ins_credit ins = None /\ ins_balance ins = zero)
            (fst (importCsv
                    (Some [[("date", "01-01-2024"); ("cheque_no", ""); ("withdrawal", "100");
                            ("deposit", ""); ("narration", "ATM"); ("balance", "900")]]))).
Proof.
  assert (Forall (fun r : row => field "debit" r = None /\ field "credit" r = None)
                 [[("date", "01-01-2024"); ("cheque_no", ""); ("withdrawal", "100");
                   ("deposit", ""); ("narration", "ATM"); ("balance", "900")]]) as F
    by (repeat constructor).
  split; [exact F|].
  exact (proj1 (import_reads_debit_and_credit_only _ F)).
Defined.

Lemma add_NaN (x y : num) : isNaN x || isNaN y = true -> isNaN (add x y) = true.
Proof. destruct x as [[]|[]| |], y as [[]|[]| |]; simpl; try discriminate; reflexivity. Qed.

Lemma sub_NaN (x y : num) : isNaN x || isNaN y = true -> isNaN (sub x y) = true.
Proof. destruct x as [[]|[]| |], y as [[]|[]| |]; simpl; try discriminate; reflexivity. Qed.

Lemma importRows_app (rows rows' : list row) :
  forall B : num,
  exists B' : num,
    importRows B (rows ++ rows') = (importRows B rows ++ importRows B' rows')%list.
Proof.
  induction rows as [|r rows IH]; intros B; [now exists B|].
  simpl. destruct (IH (add (sub B (amountOf "debit" r)) (amountOf "credit" r))) as [B' ->].
  now exists B'.
Qed.

Lemma importRows_NaN (rows : list row) :
  forall B : num, isNaN B = true ->
    Forall (fun ins => isNaN (ins_balance ins) = true) (importRows B rows).
Proof.
  induction rows as [|r rows IH]; intros B N; simpl; [constructor|].
  assert (isNaN (add (sub B (amountOf "debit" r)) (amountOf "credit" r)) = true) as N'.
  { apply add_NaN. rewrite sub_NaN; [reflexivity|]. now rewrite N. }
  constructor; [exact N' | now apply IH].
Qed.

(** X11.  The import handler parses an amount with [parseFloat] alone: from
    the first row whose [debit] or [credit] holds a text that is no numeral
    on, the balance of that row and of every row after it is NaN, while the
    amount itself is stored as [null]. *)
Theorem import_balance_stays_NaN (before after : list row) (r : row) (k s : string)
        (Hk : k = "debit" \/ k = "credit")
        (Hcell : field k r = Some s)
        (Hnan : isNaN (parseFloat s) = true) :
  let inserted := fst (importCsv (Some (before ++ r :: after)%list)) in
  Forall (fun ins => isNaN (ins_balance ins) = true) (skipn (List.length before) inserted)
  /\ exists ins,
       nth_error inserted (List.length before) = Some ins
       /\ (k = "debit" -> ins_debit ins = None)
       /\ (k = "credit" -> ins_credit ins = None).
Proof.
  cbv zeta. cbn [importCsv fst].
  destruct (importRows_app before (r :: after) zero) as [B ->].
  rewrite skipn_app, importRows_length, Nat.sub_diag, skipn_all2
    by (rewrite importRows_length; apply Nat.le_refl).
  cbn [skipn app].
  rewrite nth_error_app2 by (rewrite importRows_length; apply Nat.le_refl).
  rewrite importRows_length, Nat.sub_diag.
  assert (isNaN (amountOf "debit" r) || isNaN (amountOf "credit" r) = true) as A.
  { unfold amountOf. destruct Hk as [-> | ->]; rewrite Hcell, Hnan;
      [reflexivity | apply orb_true_r]. }
  assert (isNaN (add (sub B (amountOf "debit" r)) (amountOf "credit" r)) = true) as N.
  { apply add_NaN. apply orb_true_iff in A as [A|A]; [|rewrite A; apply orb_true_r].
    rewrite sub_NaN; [reflexivity|]. rewrite A. apply orb_true_r. }
  cbn [importRows]. unfold importRow. cbv zeta. split.
  - constructor; [exact N | now apply importRows_NaN].
  - eexists. split; [reflexivity|]. cbn [ins_debit ins_credit]. unfold orNull, amountOf.
    split; intros ->; rewrite Hcell; now destruct (parseFloat s).
Qed.

(** A file whose second row has the debit [abc]. *)
Lemma import_balance_stays_NaN_witness :
  field "debit" [("debit", "abc")] = Some "abc"
  /\ isNaN (parseFloat "abc") = true
  /\ Forall (fun ins => isNaN (ins_balance ins) = true)
            (skipn 1 (fst (importCsv (Some [[("credit", "5")]; [("debit", "abc")];
                                            [("credit", "7")]])))).
Proof.
  split; [reflexivity|]. split; [reflexivity|].
  exact (proj1 (import_balance_stays_NaN [[("credit", "5")]] [[("credit", "7")]]
                  [("debit", "abc")] "debit" "abc" (or_introl eq_refl) eq_refl eq_refl)).
Defined.

End CsvImport.

(** ** A filled blank template, uploaded *)

(** The columns of a row, opened one by one along the names of a header. *)
Ltac open_row r H :=
  match type of H with
  | _ = ?t => let cols := eval vm_compute in t in change t with cols in H
  end;
  repeat (destruct r as [|[? ?] r]; [discriminate H|];
          cbn [keys map fst] in H;
          let E := fresh "E" in injection H as E H; subst);
  destruct r; [clear H | discriminate H].

(** Evaluates the bank tests and the field lookups of [extractAmounts] on a
    row whose column names are known. *)
Ltac read_amounts :=
  unfold extractAmounts, direct;
  repeat match goal with
         | |- context [String.eqb ?a ?b] =>
             let v := eval vm_compute in (String.eqb a b) in
             change (String.eqb a b) with v
         end;
  cbn [orb]; cbv iota;
  repeat match goal with
         | |- context [getVal ?r ?names] =>
             let v := eval vm_compute in (getVal r names) in
             replace (getVal r names) with v by (vm_compute; reflexivity);
             cbn [bind]
         end.

Section FilledTemplate.
Local Open Scope string_scope.

(** X12.  A row of a file that follows the blank template of its bank - its
    columns are the columns of the header line the download serves - is read
    by the upload handler of that bank from those columns: the debit from the
    cell under [debit] or [withdrawal], whichever the template has, and the
    credit from the cell under [credit] or [deposit]; for BANDHAN the amount
    from the cell under [amount] and the indicator from the cell under
    [dr_cr].  No such row is skipped. *)
Theorem filled_template_is_read (bank csvContent : string) (r : row)
        (Hbank : lookup bank csvTemplates = Some csvContent)
        (Hcols : keys r = headerColumns csvContent) :
  processed bank r = true
  /\ (bank <> "BANDHAN" ->
      exists d c vd vc,
        In d ["debit"; "withdrawal"] /\ In c ["credit"; "deposit"]
        /\ lookup d r = Some vd /\ lookup c r = Some vc
        /\ extractAmounts bank (normalizeRow r)
           = Returned (parseNumberSafe (Text vd), parseNumberSafe (Text vc)))
  /\ (bank = "BANDHAN" ->
      exists va vi,
        lookup "amount" r = Some va /\ lookup "dr_cr" r = Some vi
        /\ getVal (normalizeRow r) ["amount"; "Amount"] = Returned (Text va)
        /\ getVal (normalizeRow r) ["dr_cr"; "dr/cr"; "dr cr"; "cr_dr"; "type"]
           = Returned (Text vi)).
Proof.
  apply lookup_Some_In in Hbank. cbn [csvTemplates In] in Hbank.
  destruct Hbank as [H|[H|[H|[H|[H|[H|[H|[H|[]]]]]]]]];
    injection H as <- <-; open_row r Hcols;
    (split; [unfold processed; read_amounts;
             repeat match goal with
                    | |- context [if ?b then _ else _] =>
                        match type of b with bool => destruct b end
                    end; reflexivity|]);
    (split; [intros N; try (now destruct N) | intros N; try discriminate N]).
  - exists "withdrawal", "deposit". do 2 eexists.
    do 4 (split; [cbn; tauto || reflexivity|]). read_amounts. reflexivity.
  - do 2 eexists. do 2 (split; [reflexivity|]). split; vm_compute; reflexivity.
  - exists "debit", "credit". do 2 eexists.
    do 4 (split; [cbn; tauto || reflexivity|]). read_amounts. reflexivity.
  - exists "debit", "credit". do 2 eexists.
    do 4 (split; [cbn; tauto || reflexivity|]). read_amounts. reflexivity.
  - exists "debit", "credit". do 2 eexists.
    do 4 (split; [cbn; tauto || reflexivity|]). read_amounts. reflexivity.
  - exists "debit", "credit". do 2 eexists.
    do 4 (split; [cbn; tauto || reflexivity|]). read_amounts. reflexivity.
  - exists "withdrawal", "deposit". do 2 eexists.
    do 4 (split; [cbn; tauto || reflexivity|]). read_amounts. reflexivity.
  - exists "debit", "credit". do 2 eexists.
    do 4 (split; [cbn; tauto || reflexivity|]). read_amounts. reflexivity.
Qed.

(** A row of an HDFC file. *)
Lemma filled_template_is_read_witness :
  lookup "HDFC" csvTemplates
  = Some ("date,narration,ref_no,withdrawal,deposit,balance" ++ newline)
  /\ processed "HDFC" [("date", "01/02/24"); ("narration", "UPI"); ("ref_no", "77");
                       ("withdrawal", "1,250.00"); ("deposit", ""); ("balance", "8,750.00")]
     = true.
Proof.
  split; [reflexivity|].
  exact (proj1 (filled_template_is_read "HDFC" _
                  [("date", "01/02/24"); ("narration", "UPI"); ("ref_no", "77");
                   ("withdrawal", "1,250.00"); ("deposit", ""); ("balance", "8,750.00")]
                  eq_refl eq_refl)).
Defined.

End FilledTemplate.

(** ** Manual entries and the account *)

Section ManualEntry.
Local Open Scope string_scope.

Lemma prop_defineOwn_other (k k' : string) (v : jsval) (o : jsobj jsval) :
  k <> k' -> prop k (defineOwn k' v o) = prop k o.
Proof. intros N. unfold prop. now rewrite lookup_defineOwn_other. Qed.

Lemma prop_text (k : string) (r : row) :
  prop k (map (fun kv => (fst kv, JStr (snd kv))) r)
  = match lookup k r with Some s => JStr s | None => JUndefined end.
Proof. unfold prop. rewrite lookup_map. now destruct (lookup k r). Qed.

Lemma amountOrZero_text (k : string) (r : row) :
  amountOrZero (prop k (map (fun kv => (fst kv, JStr (snd kv))) r)) = amountOf k r.
Proof.
  rewrite prop_text. unfold amountOrZero, amountOf, field.
  destruct (lookup k r) as [s|]; [|reflexivity].
  simpl. now destruct (isEmpty s).
Qed.

(** X13.  [POST /api/entry] continues the ledger from the balance of the
    last stored entry: the new balance is that balance less the debit plus
    the credit of the request, not rounded, and the opening balance of the
    request plays no part.  Only when the table is empty does it start from
    the opening balance of the request, or from zero when the request has
    none.  On the texts of a CSV row it computes the balance the import
    handler computes for that row after the same balance. *)
Theorem postEntry_continues_the_ledger (body : jsobj jsval) :
  (forall balance opening : jsval,
      ent_balance (postEntry (Some balance) (defineOwn "opening_balance" opening body))
      = ent_balance (postEntry (Some balance) body))
  /\ (forall balance : jsval,
        ent_balance (postEntry (Some balance) body)
        = plainStep (parseFloatOf balance)
                    (amountOrZero (prop "debit" body)) (amountOrZero (prop "credit" body)))
  /\ ent_balance (postEntry None body)
     = plainStep (if truthy (prop "opening_balance" body)
                  then parseFloatOf (prop "opening_balance" body) else zero)
                 (amountOrZero (prop "debit" body)) (amountOrZero (prop "credit" body))
  /\ (forall (B : num) (r : row),
        ent_balance (postEntry (Some (JNum B)) (map (fun kv => (fst kv, JStr (snd kv))) r))
        = snd (importRow (parseFloatOf (JNum B)) r))
  /\ (forall (B : num), isNaN B = false -> sameNumber (parseFloatOf (JNum B)) B).
Proof.
  split; [|split; [|split; [|split]]].
  - intros balance opening. unfold postEntry. cbn [ent_balance lastBalanceOf].
    now rewrite !prop_defineOwn_other by discriminate.
  - reflexivity.
  - reflexivity.
  - intros B r. unfold postEntry. cbn [ent_balance lastBalanceOf importRow snd].
    now rewrite !amountOrZero_text.
  - intros B N. unfold sameNumber.
    destruct B as [s|s| |s m e]; [right; now exists false, s | now left | discriminate | now left].
Qed.

End ManualEntry.

Section Account.
Local Open Scope string_scope.

(** X14.  [POST /api/account] takes the sixteen account fields from the top
    level of the body, updating the stored row where there is one and
    inserting one otherwise.  The body [saveAccount] of the form posts holds
    the account one level down, under [account]: whatever has been typed into
    the form, every parameter of the statement is [undefined].  A body with
    the fields of the account at its top level passes each of them on. *)
Theorem saveAccount_reaches_no_field (st : App.state) (row : option Z) :
  (fst (postAccount row (App.saveAccountBody st))
   = match row with
     | Some id => UpdateAccount (repeat None 16) id
     | None => InsertAccount (repeat None 16)
     end)
  /\ snd (postAccount row (App.saveAccountBody st))
     = (match row with Some _ => "Account info updated" | None => "Account info saved" end)
  /\ lookup "account" (App.saveAccountBody st) = Some (App.PRecord (App.account st))
  /\ (forall name value : string,
        lookup name (App.account (App.handleAccountChange name value st)) = Some value)
  /\ fst (postAccount None (map (fun kv => (fst kv, App.PText (snd kv))) (App.account st)))
     = InsertAccount
         (map (fun k => option_map App.PText (lookup k (App.account st))) accountColumns).
Proof.
  split; [now destruct row|]. split; [now destruct row|]. split; [reflexivity|].
  split; [intros name value; apply lookup_defineOwn_same|].
  unfold postAccount. cbn [fst]. f_equal. apply map_ext. intros k. apply lookup_map.
Qed.

End Account.

(** ** The form *)

Section Form.
Local Open Scope string_scope.

(** X15.  Every bank the selector of the form offers is a bank of the
    server: its blank template can be downloaded, an upload for it passes
    the check of the bank - and then throws where the handler builds its
    stream -, and a statement for it is drawn by the template of that bank,
    not as the sample document.  The banks of the server are offered, all
    eight; and for each the form has as many column labels as fields. *)
Theorem selector_banks_are_served (b : string)
        (Hb : In b (keys App.BANK_CONFIG)) :
  (exists csvContent,
      downloadCsvTemplate b
      = DownloadFile "text/csv"
          ("attachment; filename=" ++ quote ++ b ++ "_Statement_Template.csv" ++ quote)
          (OwnTemplate csvContent))
  /\ (forall rows : list row,
        uploadStatement b (Some rows) <> UploadBadRequest "Unsupported bank"
        /\ uploadStatement b (Some rows)
           = UploadThrown (ReferenceError "csvParser is not defined"))
  /\ (exists id : bankId,
        lookup b bankTemplates = Some id
        /\ forall (pageHeight docY : Q) (heightOfString : nat -> text -> Q -> Q)
                  (a : accountProfile) (entries : list entry),
             generatePdf pageHeight docY heightOfString
               {| bank := Some b; account := AccountRecord a; transactions := Some entries |}
             = Returned (template pageHeight docY heightOfString id a entries))
  /\ (forall c : App.bankConfig,
        lookup b App.BANK_CONFIG = Some c ->
        List.length (App.labels c) = List.length (App.fields c))
  /\ (forall k : string, In k (keys csvTemplates) <-> In k (keys App.BANK_CONFIG))
  /\ (forall k : string, In k (keys bankTemplates) <-> In k (keys App.BANK_CONFIG)).
Proof.
  split; [|split; [|split; [|split; [|split]]]].
  5,6: intros k; cbn; tauto.
  all: cbn [keys map fst App.BANK_CONFIG In] in Hb;
    repeat (destruct Hb as [Hb|Hb]; [subst b|]); try contradiction.
  all: try (eexists; reflexivity).
  all: try reflexivity.
  all: try (intros rows; split; [discriminate | reflexivity]).
  all: try (eexists; split; reflexivity).
  all: intros c [= <-]; reflexivity.
Qed.

(** The bank PNB. *)
Lemma selector_banks_are_served_witness :
  In "PNB" (keys App.BANK_CONFIG)
  /\ exists csvContent,
       downloadCsvTemplate "PNB"
       = DownloadFile "text/csv"
           ("attachment; filename=" ++ quote ++ "PNB" ++ "_Statement_Template.csv" ++ quote)
           (OwnTemplate csvContent).
Proof.
  split; [now left|].
  exact (proj1 (selector_banks_are_served "PNB" (or_introl eq_refl))).
Defined.

End Form.

(** ** The table loop, row after row *)

Section TableChain.
Local Open Scope Q_scope.
Variable p : pagination.
Hypothesis continuation_quiet : quiet (continuation p).

Lemma exceeds_false (a b : Q) : exceeds a b = false <-> a <= b.
Proof.
  unfold exceeds. rewrite negb_false_iff. apply Qle_bool_iff.
Qed.

Lemma placedRows_chained (entries : list entry) (suffix : list instr) :
  (forall flag, placedRows flag suffix = []) ->
  forall (index : nat) (tableY : Q),
    chained p tableY (placedRows false (fst (tableRows p index tableY entries) ++ suffix)).
Proof.
  intros S. induction entries as [|r rest IH]; intros index tableY.
  - simpl. now rewrite S.
  - rewrite (placedRows_row p continuation_quiet). cbn [chained p_first p_y p_height].
    split; [|apply IH].
    destruct (exceeds (tableY + rowHeight p index r) (bottomLimit p)) eqn:E.
    + reflexivity.
    + split; [reflexivity | now apply exceeds_false].
Qed.

End TableChain.

Section TemplateTables.
Local Open Scope Q_scope.
Variables (pageHeight docY : Q) (heightOfString : nat -> text -> Q -> Q).

(** Every template runs the table loop from below its first table header. *)
Lemma template_rows_from (b : bankId) (a : accountProfile) (entries : list entry) :
  exists suffix : list instr,
    (forall flag, placedRows flag suffix = []) /\
    placedRows false (template pageHeight docY heightOfString b a entries)
    = placedRows false
        (fst (tableRows (paginationOf pageHeight heightOfString b a) 0
                        (firstRowY docY b a) entries) ++ suffix).
Proof.
  destruct b; unfold template, paginationOf, firstRowY,
    PNB, BANDHAN, CENTRAL, ICICI, SBI, AXIS, HDFC, IDFC; cbn [placedRows].
  - exists []. split; [reflexivity|]. now rewrite app_nil_r.
  - exists [Totals (BANDHAN_totals entries)]. split; reflexivity.
  - exists []. split; [reflexivity|]. now rewrite app_nil_r.
  - destruct (tableRows _ 0%nat _ entries) as [rows yPos] eqn:E.
    cbn [placedRows].
    exists ((if exceeds (yPos + 20) (pageHeight - 250) then [AddPage] else [])
            ++ [Totals (ICICI_totals a entries)])%list.
    split; [|reflexivity].
    intros flag. destruct (exceeds _ _); reflexivity.
  - exists []. split; [reflexivity|]. now rewrite app_nil_r.
  - exists [Totals (AXIS_totals a entries)]. split; reflexivity.
  - exists [Totals (HDFC_totals a entries)]. split; reflexivity.
  - exists []. split; [reflexivity|]. now rewrite app_nil_r.
Qed.

End TemplateTables.

Section TableTheorems.
Local Open Scope Q_scope.

(** X16.  In every generated document the rows of the table follow one
    another without gap or overlap: the first row starts below the table
    header, and every row either starts exactly where the row before it
    ended and ends at or above the bottom limit of the page, or comes first
    after a page advance, at the continuation position of the template. *)
Theorem rows_follow_one_another
        (pageHeight docY : Q) (heightOfString : nat -> text -> Q -> Q)
        (b : bankId) (a : accountProfile) (entries : list entry) :
  chained (paginationOf pageHeight heightOfString b a) (firstRowY docY b a)
          (placedRows false (template pageHeight docY heightOfString b a entries)).
Proof.
  destruct (template_rows_from pageHeight docY heightOfString b a entries)
    as (suffix & S & ->).
  apply placedRows_chained; [apply continuation_quiet | exact S].
Qed.

End TableTheorems.

Section PageNumber.
Local Open Scope Q_scope.
Variables (pageHeight : Q) (heightOfString : nat -> text -> Q -> Q) (a : accountProfile).

Lemma PNB_turns (entries : list entry) :
  forall (index : nat) (tableY : Q) (currentPage : Z),
    snd (fold_left (PNB_turn pageHeight heightOfString a)
                   (combine (seq index (List.length entries)) entries)
                   (tableY, currentPage))
    = (currentPage
       + Z.of_nat (List.length
                     (filter isAddPage
                             (fst (tableRows (PNB_pagination pageHeight heightOfString a)
                                             index tableY entries)))))%Z.
Proof.
  induction entries as [|r rest IH]; intros index tableY currentPage.
  - simpl. lia.
  - rewrite tableRows_cons. cbn [List.length seq combine fold_left].
    unfold PNB_turn at 2. cbn [fst snd bottomLimit continuationY PNB_pagination].
    destruct (exceeds _ _).
    + rewrite IH. cbn [app filter isAddPage continuation PNB_pagination List.length].
      lia.
    + rewrite IH. cbn [app filter isAddPage List.length]. reflexivity.
Qed.

Lemma PNB_advances_bounded (entries : list entry) :
  forall (index : nat) (tableY : Q),
    (List.length
       (filter isAddPage
               (fst (tableRows (PNB_pagination pageHeight heightOfString a)
                               index tableY entries)))
     <= List.length entries)%nat.
Proof.
  induction entries as [|r rest IH]; intros index tableY; [simpl; lia|].
  rewrite tableRows_cons, filter_app, length_app.
  cbn [filter isAddPage List.length].
  destruct (exceeds _ _); cbn [filter isAddPage List.length continuation PNB_pagination];
    match goal with
    | |- context [tableRows _ _ ?y rest] => specialize (IH (S index) y)
    end; lia.
Qed.

Lemma PNB_first_rows (entries : list entry) :
  forall (index : nat) (tableY : Q),
    List.length
      (filter p_first
              (placedRows false
                 (fst (tableRows (PNB_pagination pageHeight heightOfString a)
                                 index tableY entries) ++ [])))
    = List.length
        (filter isAddPage
                (fst (tableRows (PNB_pagination pageHeight heightOfString a)
                                index tableY entries))).
Proof.
  induction entries as [|r rest IH]; intros index tableY; [reflexivity|].
  rewrite (placedRows_row (PNB_pagination pageHeight heightOfString a)
             (continuation_quiet pageHeight heightOfString B_PNB a)).
  rewrite tableRows_cons, filter_app, length_app.
  cbn [filter isAddPage List.length p_first].
  destruct (exceeds _ _);
    cbn [filter isAddPage List.length continuation PNB_pagination Nat.add];
    now rewrite IH.
Qed.

End PageNumber.

Section PageNumberTheorem.
Local Open Scope Q_scope.

(** X18.  The number the PNB template writes after [Page No] is one more
    than the number of pages its table loop has advanced, and so lies
    between 1 and one more than the number of entries; the pages advanced
    are as many as the rows that come first after a page advance. *)
Theorem PNB_page_number_counts_the_advances
        (pageHeight docY : Q) (heightOfString : nat -> text -> Q -> Q)
        (a : accountProfile) (entries : list entry) :
  PNB_currentPage pageHeight heightOfString a entries
  = (1 + Z.of_nat (List.length
                     (filter isAddPage
                             (template pageHeight docY heightOfString B_PNB a entries))))%Z
  /\ (1 <= PNB_currentPage pageHeight heightOfString a entries
      <= 1 + Z.of_nat (List.length entries))%Z
  /\ List.length (filter p_first
                         (placedRows false
                            (template pageHeight docY heightOfString B_PNB a entries)))
     = List.length (filter isAddPage
                           (template pageHeight docY heightOfString B_PNB a entries)).
Proof.
  assert (PNB_currentPage pageHeight heightOfString a entries
          = (1 + Z.of_nat (List.length
                             (filter isAddPage
                                (template pageHeight docY heightOfString B_PNB a entries))))%Z)
    as E.
  { unfold PNB_currentPage. rewrite PNB_turns. reflexivity. }
  split; [exact E|]. split.
  - rewrite E. split; [lia|].
    cbn [template PNB filter isAddPage].
    pose proof (PNB_advances_bounded pageHeight heightOfString a entries 0%nat
                  (PNB_top a + 26)) as B.
    lia.
  - cbn [template PNB placedRows filter isAddPage].
    rewrite <- PNB_first_rows. now rewrite app_nil_r.
Qed.

End PageNumberTheorem.

(** ** The cells of a row *)

Section AmountCells.
Local Open Scope string_scope.

Lemma fixed_not_NaN (x : num) : isNaN x = false -> showsNaN (TFixed (toFixed2 x)) = false.
Proof.
  destruct x as [s|s| |s m e]; try discriminate; intros _; try reflexivity.
  unfold toFixed2. now destruct (if (0 <=? e)%Z then _ else _).
Qed.

Lemma gt_zero_not_NaN (x : num) : gt x zero = true -> isNaN x = false.
Proof. now destruct x. Qed.

Lemma positiveOr_not_NaN (v : jsval) (otherwise : text) :
  showsNaN otherwise = false -> showsNaN (positiveOr v otherwise) = false.
Proof.
  intros O. unfold positiveOr, positive.
  destruct (truthy v); [|exact O]. cbn [andb].
  destruct (gt (toNumber v) zero) eqn:G; [|exact O].
  apply fixed_not_NaN. now apply gt_zero_not_NaN.
Qed.

Lemma formatAmount_not_NaN (val : jsval) : showsNaN (formatAmount val) = false.
Proof.
  unfold formatAmount. destruct (negb (truthy val)); [reflexivity|].
  destruct (isNaN (parseFloatWithoutCommas val)) eqn:N; [reflexivity|].
  now apply fixed_not_NaN.
Qed.

Lemma ICICI_amount_not_NaN (v : jsval) : showsNaN (ICICI_amount v) = false.
Proof.
  unfold ICICI_amount. destruct (notNullish v); [|reflexivity]. cbn [andb].
  destruct (isNaN (toNumber v)) eqn:N; [reflexivity|]. now apply fixed_not_NaN.
Qed.

Lemma SBI_amount_not_NaN (v : jsval) : showsNaN (SBI_amount v) = false.
Proof.
  unfold SBI_amount. destruct (notNullish v); [|reflexivity]. cbn [andb].
  destruct (isNaN (toNumber v)) eqn:N; [reflexivity|]. cbn [negb andb].
  destruct (gt (toNumber v) zero); [|reflexivity]. now apply fixed_not_NaN.
Qed.

(** X19.  In the seven templates that have a debit and a credit column, the
    debit cell and the credit cell of a row never write out NaN, whatever the
    entry holds: a value that is no number leaves the cell at its
    placeholder.  CENTRAL, SBI, AXIS and IDFC write an amount into these
    cells only when it is greater than zero. *)
Theorem amount_cells_never_show_NaN (b : bankId) (a : accountProfile) (r : entry) :
  (forall (i : nat) (t : text),
      debitColumn b = Some i \/ creditColumn b = Some i ->
      nth_error (cols b a r) i = Some t -> showsNaN t = false)
  /\ (forall i : nat,
        In b [B_CENTRAL; B_SBI; B_AXIS; B_IDFC] ->
        debitColumn b = Some i ->
        nth_error (cols b a r) i
        = Some (if notNullish (prop "debit" r) && gt (toNumber (prop "debit" r)) zero
                then fixed2 (prop "debit" r) else lit "")
        /\ nth_error (cols b a r) (S i)
           = Some (if notNullish (prop "credit" r) && gt (toNumber (prop "credit" r)) zero
                   then fixed2 (prop "credit" r) else lit ""))
  /\ debitColumn B_BANDHAN = None.
Proof.
  split; [|split; [|reflexivity]].
  - intros i t [D|C]; [|unfold creditColumn in C];
      destruct b; try discriminate; cbn in *;
      match goal with
      | H : Some _ = Some _ |- _ => injection H as <-
      end;
      cbn; intros [= <-];
      try apply positiveOr_not_NaN; try apply positiveOr_not_NaN;
      try apply ICICI_amount_not_NaN; try apply SBI_amount_not_NaN; try reflexivity;
      unfold orCell;
      match goal with
      | |- context [emptyText ?x] => destruct (emptyText x)
      end; apply formatAmount_not_NaN.
  - intros i I D. cbn [In] in I.
    assert (forall v : jsval,
               positiveOr v (lit "")
               = if notNullish v && gt (toNumber v) zero then fixed2 v else lit "") as P.
    { intros v. unfold positiveOr, positive.
      destruct v as [| |[]|x|s]; try reflexivity.
      - now destruct x as [[]|[]| |[]].
      - destruct s; [|reflexivity]. reflexivity. }
    assert (forall v : jsval,
               SBI_amount v
               = if notNullish v && gt (toNumber v) zero then fixed2 v else lit "") as Q.
    { intros v. unfold SBI_amount.
      destruct (notNullish v); [|reflexivity]. cbn [andb].
      destruct (toNumber v) as [[]|[]| |[]]; reflexivity. }
    destruct I as [<-|[<-|[<-|[<-|[]]]]]; injection D as <-; cbn;
      rewrite ?P, ?Q; split; reflexivity.
Qed.

End AmountCells.

(** ** Summaries at the edges *)

Section Summaries.
Local Open Scope string_scope.

Lemma sumWhere_without (test : jsval -> bool) (k : string) (entries : list entry) :
  test JUndefined = false ->
  Forall (fun e => lookup k e = None) entries ->
  sumWhere test k entries = zero.
Proof.
  intros T F. unfold sumWhere. generalize zero as acc.
  induction F as [|e entries E F IH]; intros acc; cbn [fold_left]; [reflexivity|].
  unfold prop. rewrite E, T. apply IH.
Qed.

(** X20.  The summary of the BANDHAN template adds up the columns [debit]
    and [credit] of the entries and no other: for entries that have neither
    column - the BANDHAN fields of the form and the columns of the BANDHAN
    blank template give the amount under [amount] with the indicator
    [dr_cr] - the total credits and the total debits read INR 0.00, while
    each row of the table shows the amount of its entry. *)
Theorem bandhan_summary_reads_debit_and_credit
        (pageHeight docY : Q) (heightOfString : nat -> text -> Q -> Q)
        (a : accountProfile) (entries : list entry)
        (Hcols : Forall (fun e => lookup "debit" e = None /\ lookup "credit" e = None) entries) :
  totalsOf (template pageHeight docY heightOfString B_BANDHAN a entries)
  = [ {| openingBalance := Some (inr (balanceAt (hd_error entries)));
         totalDebit := Some (TCat (lit "INR ") (TFixed (FixedDigits false 0)));
         totalCredit := Some (TCat (lit "INR ") (TFixed (FixedDigits false 0)));
         closingBalance := Some (inr (balanceAt (hd_error (rev entries)))) |} ]
  /\ (forall e : entry,
        In e entries -> truthy (prop "amount" e) = true ->
        nth_error (cols B_BANDHAN a e) 3
        = Some (TCat (lit "INR ") (fixed2 (prop "amount" e))))
  /\ (forall (c : App.bankConfig) (t : jsobj string),
        lookup "BANDHAN" App.BANK_CONFIG = Some c ->
        incl (keys t) (App.fields c) ->
        lookup "debit" (map (fun kv => (fst kv, JStr (snd kv))) t) = None
        /\ lookup "credit" (map (fun kv => (fst kv, JStr (snd kv))) t) = None)
  /\ (forall (csvContent : string) (t : jsobj string),
        lookup "BANDHAN" csvTemplates = Some csvContent ->
        keys t = headerColumns csvContent ->
        lookup "debit" (map (fun kv => (fst kv, JStr (snd kv))) t) = None
        /\ lookup "credit" (map (fun kv => (fst kv, JStr (snd kv))) t) = None).
Proof.
  split; [|split; [|split]].
  - rewrite template_totals. cbn [templateTotals]. unfold BANDHAN_totals.
    rewrite !sumWhere_without; try reflexivity.
    + eapply Forall_impl; [|exact Hcols]. now intros e [D C].
    + eapply Forall_impl; [|exact Hcols]. now intros e [D C].
  - intros e I A. cbn. now rewrite A.
  - intros c t [= <-] I. rewrite !lookup_map.
    assert (~ In "debit" (keys t) /\ ~ In "credit" (keys t)) as [D C].
    { split; intros H; apply I in H; cbn in H; intuition discriminate. }
    now rewrite (lookup_absent _ _ D), (lookup_absent _ _ C).
  - intros csvContent t [= <-] K. rewrite !lookup_map.
    assert (~ In "debit" (keys t) /\ ~ In "credit" (keys t)) as [D C].
    { rewrite K. vm_compute. intuition discriminate. }
    now rewrite (lookup_absent _ _ D), (lookup_absent _ _ C).
Qed.

(** One entry with an amount and an indicator. *)
Lemma bandhan_summary_reads_debit_and_credit_witness :
  Forall (fun e : entry => lookup "debit" e = None /\ lookup "credit" e = None)
         [[("amount", JStr "500"); ("dr_cr", JStr "Cr")]]
  /\ totalsOf (template A4_height 0 flat20 B_BANDHAN []
                 [[("amount", JStr "500"); ("dr_cr", JStr "Cr")]])
     = [ {| openingBalance := Some (inr zero);
            totalDebit := Some (TCat (lit "INR ") (TFixed (FixedDigits false 0)));
            totalCredit := Some (TCat (lit "INR ") (TFixed (FixedDigits false 0)));
            closingBalance := Some (inr zero) |} ].
Proof.
  assert (Forall (fun e : entry => lookup "debit" e = None /\ lookup "credit" e = None)
                 [[("amount", JStr "500"); ("dr_cr", JStr "Cr")]]) as F
    by (repeat constructor).
  split; [exact F|].
  exact (proj1 (bandhan_summary_reads_debit_and_credit A4_height 0 flat20 []
                  [[("amount", JStr "500"); ("dr_cr", JStr "Cr")]] F)).
Defined.

(** X21.  A statement without entries: every template draws its table
    header and no row, and the six templates that call [addPage()] in their
    table loop only - all but ICICI and AXIS, which test the page height
    again below the table - advance no page.  The summaries
    that are computed from the entries read zero: all four figures of
    BANDHAN, the credits of HDFC, and the totals of ICICI and AXIS where the
    account gives none; the closing balance of HDFC is that of the account,
    or 0.00. *)
Theorem statement_without_entries
        (pageHeight docY : Q) (heightOfString : nat -> text -> Q -> Q)
        (b : bankId) (a : accountProfile) :
  placedRows false (template pageHeight docY heightOfString b a []) = []
  /\ (exists y, In (TableHeader y) (template pageHeight docY heightOfString b a []))
  /\ (b <> B_ICICI -> b <> B_AXIS ->
      filter isAddPage (template pageHeight docY heightOfString b a []) = [])
  /\ totalsOf (template pageHeight docY heightOfString B_BANDHAN a [])
     = [ {| openingBalance := Some (TCat (lit "INR ") (TFixed (FixedDigits false 0)));
            totalDebit := Some (TCat (lit "INR ") (TFixed (FixedDigits false 0)));
            totalCredit := Some (TCat (lit "INR ") (TFixed (FixedDigits false 0)));
            closingBalance := Some (TCat (lit "INR ") (TFixed (FixedDigits false 0))) |} ]
  /\ (forall t : totals,
        In t (totalsOf (template pageHeight docY heightOfString B_HDFC a [])) ->
        Layout.totalCredit t = Some (TFixed (FixedDigits false 0))
        /\ closingBalance t
           = Some (TVal (orElse (attr "closing_balance" a) (JStr "0.00"))))
  /\ (attr "total_withdrawls" a = JUndefined ->
      forall t : totals,
        In t (totalsOf (template pageHeight docY heightOfString B_ICICI a [])) ->
        Layout.totalDebit t = Some (TFixed (FixedDigits false 0))
        /\ Layout.totalCredit t = Some (TFixed (FixedDigits false 0)))
  /\ (attr "total_debit" a = JUndefined ->
      forall t : totals,
        In t (totalsOf (template pageHeight docY heightOfString B_AXIS a [])) ->
        Layout.totalDebit t = None
        \/ Layout.totalDebit t = Some (TFixed (FixedDigits false 0))
           /\ Layout.totalCredit t = Some (TFixed (FixedDigits false 0))).
Proof.
  split; [|split; [|split; [|split; [|split; [|split]]]]].
  - destruct b; cbn; try reflexivity. now destruct (exceeds _ _).
  - destruct b; cbn; eauto.
  - intros N _. destruct b; try reflexivity. now destruct N.
  - reflexivity.
  - rewrite template_totals. cbn [templateTotals In].
    intros t [<-|[]]. split; reflexivity.
  - intros U. rewrite template_totals. cbn [templateTotals In].
    intros t [<-|[]]. unfold ICICI_totals, accountOrSums. rewrite U. split; reflexivity.
  - intros U. rewrite template_totals. cbn [templateTotals In].
    intros t [<-|[<-|[]]]; [now left|]. right.
    unfold AXIS_totals, accountOrSums. rewrite U. split; reflexivity.
Qed.

End Summaries.

Section FormTotals.
Local Open Scope string_scope.

Lemma amountOr_not_NaN (a b : string) (t : jsobj string) :
  isNaN (App.amountOr a b t) = false.
Proof.
  unfold App.amountOr.
  destruct (match match field a t with Some s => Some s | None => lookup b t end with
            | Some s => parseFloat s
            | None => NaN
            end) as [[]|[]| |[]]; reflexivity.
Qed.

Lemma amountOr_absent (a b : string) (t : jsobj string) :
  ~ In a (keys t) -> ~ In b (keys t) -> App.amountOr a b t = zero.
Proof.
  intros A B. unfold App.amountOr, field.
  now rewrite (lookup_absent _ _ A), (lookup_absent _ _ B).
Qed.

Lemma fold_add_zero {A} (f : A -> num) (l : list A) :
  Forall (fun t => f t = zero) l ->
  fold_left (fun sum t => add sum (f t)) l zero = zero.
Proof.
  induction 1 as [|t l E F IH]; simpl; [reflexivity|]. now rewrite E.
Qed.

(** X22.  The totals of the form are left folds over the transactions of
    the table: adding the transaction typed into the form puts it last,
    empties the form and raises the total debit by the debit of the
    transaction, or by its withdrawal where it has no debit, and the total
    credit likewise.  A cell that holds no numeral counts as zero, never as
    NaN.  Transactions that have the BANDHAN fields only, which give the
    amount under [amount], leave both totals and the net balance at zero. *)
Theorem form_totals_follow_the_table (st : App.state) :
  App.transactions (App.addManualTxn st)
  = (App.transactions st ++ [App.manualTxn st])%list
  /\ App.manualTxn (App.addManualTxn st) = []
  /\ App.totalDebit (App.transactions (App.addManualTxn st))
     = add (App.totalDebit (App.transactions st))
           (App.amountOr "debit" "withdrawal" (App.manualTxn st))
  /\ App.totalCredit (App.transactions (App.addManualTxn st))
     = add (App.totalCredit (App.transactions st))
           (App.amountOr "credit" "deposit" (App.manualTxn st))
  /\ (forall (a b : string) (t : jsobj string), isNaN (App.amountOr a b t) = false)
  /\ (forall k v : string,
        lookup k (App.manualTxn (App.handleTxnChange k v st)) = Some v
        /\ forall k' : string,
             k' <> k ->
             lookup k' (App.manualTxn (App.handleTxnChange k v st))
             = lookup k' (App.manualTxn st))
  /\ (forall (c : App.bankConfig) (transactions : list (jsobj string)),
        lookup "BANDHAN" App.BANK_CONFIG = Some c ->
        Forall (fun t => incl (keys t) (App.fields c)) transactions ->
        App.totalDebit transactions = zero
        /\ App.totalCredit transactions = zero
        /\ App.netBalance transactions = FixedDigits false 0)
  /\ App.transactions (App.clearTransactions true st) = []
  /\ App.clearTransactions false st = st.
Proof.
  split; [reflexivity|]. split; [reflexivity|].
  split; [unfold App.totalDebit; cbn [App.addManualTxn App.transactions];
          now rewrite fold_left_app|].
  split; [unfold App.totalCredit; cbn [App.addManualTxn App.transactions];
          now rewrite fold_left_app|].
  split; [apply amountOr_not_NaN|].
  split.
  { intros k v. cbn [App.handleTxnChange App.manualTxn]. split.
    - apply lookup_defineOwn_same.
    - intros k' N. now apply lookup_defineOwn_other. }
  split; [|split; reflexivity].
  intros c transactions [= <-] F.
  assert (App.totalDebit transactions = zero /\ App.totalCredit transactions = zero) as [D C].
  { split; apply fold_add_zero; (eapply Forall_impl; [|exact F]); intros t I;
      apply amountOr_absent; intros H; apply I in H; cbn in H; intuition discriminate. }
  unfold App.netBalance. now rewrite D, C.
Qed.

End FormTotals.

Section FieldsAndCells.
Local Open Scope string_scope.

(** Distinguishes two rows of cells by the first cell in which they differ. *)
Ltac differ :=
  let H := fresh "H" in
  intros H;
  first [ apply (f_equal (fun l => nth_error l 0)) in H; vm_compute in H; discriminate H
        | apply (f_equal (fun l => nth_error l 1)) in H; vm_compute in H; discriminate H
        | apply (f_equal (fun l => nth_error l 2)) in H; vm_compute in H; discriminate H
        | apply (f_equal (fun l => nth_error l 3)) in H; vm_compute in H; discriminate H
        | apply (f_equal (fun l => nth_error l 4)) in H; vm_compute in H; discriminate H
        | apply (f_equal (fun l => nth_error l 5)) in H; vm_compute in H; discriminate H
        | apply (f_equal (fun l => nth_error l 6)) in H; vm_compute in H; discriminate H
        | apply (f_equal (fun l => nth_error l 7)) in H; vm_compute in H; discriminate H ].

(** X23.  What is typed into the form or filled into a blank template
    reaches the row of the statement: for every bank, each field of the form
    and each column of the blank template changes a cell of the row of that
    bank's template - with one exception, the field [date] of the SBI form,
    which no cell of the SBI row reads. *)
Theorem fields_reach_the_statement_row :
  (forall (b f : string) (c : App.bankConfig) (id : bankId),
      lookup b App.BANK_CONFIG = Some c -> lookup b bankTemplates = Some id ->
      In f (App.fields c) ->
      (b = "SBI" /\ f = "date") \/ cols id [] [(f, JStr "5")] <> cols id [] [])
  /\ (forall (b f csvContent : string) (id : bankId),
        lookup b csvTemplates = Some csvContent -> lookup b bankTemplates = Some id ->
        In f (headerColumns csvContent) ->
        cols id [] [(f, JStr "5")] <> cols id [] [])
  /\ (forall (a : accountProfile) (r : entry) (v : jsval),
        cols B_SBI a (defineOwn "date" v r) = cols B_SBI a r).
Proof.
  split; [|split].
  - intros b f c id Hc Hid I.
    apply lookup_Some_In in Hc. cbn [App.BANK_CONFIG In] in Hc.
    repeat (destruct Hc as [Hc|Hc];
            [injection Hc as <- <-; injection Hid as <-; cbn [App.fields In] in I;
             repeat (destruct I as [<-|I]; [first [right; differ | left; split; reflexivity]|]);
             contradiction|]).
    contradiction.
  - intros b f csvContent id Hc Hid I.
    apply lookup_Some_In in Hc. cbn [csvTemplates In] in Hc.
    repeat (destruct Hc as [Hc|Hc];
            [injection Hc as <- <-; injection Hid as <-; vm_compute in I;
             repeat (destruct I as [<-|I]; [differ|]);
             contradiction|]).
    contradiction.
  - intros a r v. unfold cols, SBI_cols.
    now rewrite !prop_defineOwn_other by discriminate.
Qed.

End FieldsAndCells.

Section ImportColumns.
Local Open Scope string_scope.

Lemma importRows_agree (rows rows' : list row) :
  Forall2 (fun r r' =>
             forall k : string,
               In k ["date"; "value_date"; "description"; "narration"; "cheque_no";
                     "debit"; "credit"] ->
               field k r = field k r') rows rows' ->
  forall B : num, importRows B rows = importRows B rows'.
Proof.
  induction 1 as [|r r' rows rows' A F IH]; intros B; [reflexivity|].
  cbn [importRows]. unfold importRow, amountOf.
  rewrite (A "date"), (A "value_date"), (A "description"), (A "narration"),
    (A "cheque_no"), (A "debit"), (A "credit") by (cbn; tauto).
  cbv zeta. now rewrite IH.
Qed.

(** X24.  What the import handler inserts is fixed by seven columns of the
    file - [date], [value_date], [description], [narration], [cheque_no],
    [debit] and [credit] - an empty cell counting as a missing one: two
    files that agree on these columns row by row give the same records,
    whatever their other columns hold.  The rows of a file that follows the
    blank template of CENTRAL, ICICI, SBI or AXIS, where the date stands
    under [post_date] or [txn_date], are stored with an empty date. *)
Theorem import_depends_on_seven_columns (rows rows' : list row)
        (Hagree : Forall2 (fun r r' =>
                             forall k : string,
                               In k ["date"; "value_date"; "description"; "narration";
                                     "cheque_no"; "debit"; "credit"] ->
                               field k r = field k r') rows rows') :
  fst (importCsv (Some rows)) = fst (importCsv (Some rows'))
  /\ (forall (bank csvContent : string) (r : row) (B : num),
        In bank ["CENTRAL"; "ICICI"; "SBI"; "AXIS"] ->
        lookup bank csvTemplates = Some csvContent ->
        keys r = headerColumns csvContent ->
        ins_date (fst (importRow B r)) = ""
        /\ ins_value_date (fst (importRow B r)) = field "value_date" r).
Proof.
  split; [now apply importRows_agree|].
  intros bank csvContent r B I L K.
  assert (~ In "date" (keys r)) as D.
  { rewrite K. cbn [In] in I.
    destruct I as [<-|[<-|[<-|[<-|[]]]]]; injection L as <-; vm_compute; intuition discriminate. }
  cbn [importRow fst ins_date ins_value_date]. unfold field at 1 3.
  rewrite (lookup_absent _ _ D). cbn. now destruct (field "value_date" r).
Qed.

(** Two files of one row that differ in a column [txn_date]. *)
Lemma import_depends_on_seven_columns_witness :
  fst (importCsv (Some [[("txn_date", "01-01-2024"); ("debit", "10")]]))
  = fst (importCsv (Some [[("debit", "10"); ("txn_date", "31-12-2024")]])).
Proof.
  refine (proj1 (import_depends_on_seven_columns
                   [[("txn_date", "01-01-2024"); ("debit", "10")]]
                   [[("debit", "10"); ("txn_date", "31-12-2024")]] _)).
  repeat constructor. intros k I. cbn [In] in I.
  repeat (destruct I as [<-|I]; [reflexivity|]). contradiction.
Defined.

End ImportColumns.

Section Counts.
Local Open Scope string_scope.

Lemma HDFC_counts_from (entries : list entry) :
  forall dr cr : Z,
    fold_left HDFC_count entries (dr, cr)
    = (dr + Z.of_nat (List.length
                        (filter (fun e => positive (prop "debit" e)
                                          || positive (prop "withdrawal" e)) entries)),
       cr + Z.of_nat (List.length (filter (fun e => positive (prop "credit" e)) entries))
          + Z.of_nat (List.length (filter (fun e => positive (prop "deposit" e)) entries))).
Proof.
  induction entries as [|e entries IH]; intros dr cr; cbn [fold_left filter List.length].
  - f_equal; lia.
  - unfold HDFC_count at 2. rewrite IH.
    destruct (positive (prop "debit" e) || positive (prop "withdrawal" e)),
             (positive (prop "credit" e)), (positive (prop "deposit" e));
      cbn [List.length]; f_equal; lia.
Qed.

(** X25.  The counts of the HDFC summary: [Dr Count] is the number of
    entries with a debit or a withdrawal greater than zero, at most the
    number of entries; [Cr Count] is the number of entries with a credit
    greater than zero plus the number of entries with a deposit greater than
    zero, so that an entry with both counts twice and the count is at most
    twice the number of entries. *)
Theorem HDFC_counts_entries (entries : list entry) :
  fst (HDFC_counts entries)
  = Z.of_nat (List.length (filter (fun e => positive (prop "debit" e)
                                            || positive (prop "withdrawal" e)) entries))
  /\ snd (HDFC_counts entries)
     = Z.of_nat (List.length (filter (fun e => positive (prop "credit" e)) entries))
       + Z.of_nat (List.length (filter (fun e => positive (prop "deposit" e)) entries))
  /\ 0 <= fst (HDFC_counts entries) <= Z.of_nat (List.length entries)
  /\ 0 <= snd (HDFC_counts entries) <= 2 * Z.of_nat (List.length entries)
  /\ HDFC_counts [[("credit", JStr "5"); ("deposit", JStr "7")]] = (0, 2).
Proof.
  assert (Hlast : HDFC_counts [[("credit", JStr "5"); ("deposit", JStr "7")]] = (0, 2))
    by (vm_compute; reflexivity).
  revert Hlast. generalize (HDFC_counts [[("credit", JStr "5"); ("deposit", JStr "7")]]).
  intros closed Hlast.
  unfold HDFC_counts. rewrite HDFC_counts_from. cbn [fst snd].
  assert (Hle : forall f : entry -> bool,
             0 <= Z.of_nat (List.length (filter f entries))
             <= Z.of_nat (List.length entries)).
  { intros f. pose proof (filter_length_le f entries). lia. }
  assert (Hone : forall a n, 0 <= a <= n -> 0 <= 0 + a <= n) by (intros; lia).
  assert (Htwo : forall a b n, 0 <= a <= n -> 0 <= b <= n -> 0 <= 0 + a + b <= 2 * n)
    by (intros; lia).
  split; [reflexivity|]. split; [reflexivity|].
  split; [apply Hone, Hle|]. split; [apply Htwo; apply Hle|]. assumption.
Qed.

End Counts.
